(** * Aclarador: quality-driven multi-pass refinement

    A shallow embedding of the refinement core of the repository:

    - [quality_analyzer.py]: [QualityMetrics], [QualityAnalyzer] (the
      thirteen sub-scores, the convergence indicators and the decision
      chain) and [ConvergenceDetector] (the bounded history);
    - [multi_pass_processor.py]: [RefinementPass], [MultiPassProcessor]
      (the pass loop, the per-pass convergence metrics, the stop
      conditions and the report compilation).

    Conventions of the embedding.

    - A Python [str] is a list of Unicode code points, so that [len]
      counts characters as Python does.
    - A Python [float] is an exact rational ([Q]); rounding, infinities
      and NaN are outside the model.  Equalities between computed scores
      are stated with [==].
    - A Python exception is a value of [exn]; code that may raise returns
      a [result].
    - Mutable dictionaries that are shared between objects (the
      improvement records) live in an explicit heap; objects hold their
      locations.
    - The regular-expression engine, [str.lower] and [statistics.stdev]
      belong to the Python run time, not to the repository: they are the
      fields of the class [PyLib]. *)

From Stdlib Require Import ZArith QArith Qabs Qminmax List String Ascii Lia Lqa.
From stdpp Require Import gmap strings list.

Open Scope Q_scope.

(* ================================================================== *)
(** * Python run-time conventions *)
(* ================================================================== *)

Module Py.

(** Exceptions the modelled code can raise. *)
Inductive exn : Type :=
| ZeroDivisionError
| StatisticsError
| KeyError (key : string)
| PipelineFailure (msg : string).

Inductive result (A : Type) : Type :=
| Ok (a : A)
| Raise (e : exn).
Arguments Ok {A} a.
Arguments Raise {A} e.

Definition bind {A B : Type} (r : result A) (k : A -> result B) : result B :=
  match r with
  | Ok a => k a
  | Raise e => Raise e
  end.

Definition raises {A : Type} (r : result A) : Prop :=
  match r with
  | Ok _ => False
  | Raise _ => True
  end.

(** ** Strings *)

Definition char : Type := N.
Definition str : Type := list char.

Definition len {A : Type} (l : list A) : Z := Z.of_nat (length l).

(** UTF-8 decoding of a source literal into code points. *)
Fixpoint utf8_decode (bs : list N) (need : nat) (acc : N) : str :=
  match bs with
  | [] => []
  | b :: bs' =>
      match need with
      | O =>
          if (b <? 128)%N then b :: utf8_decode bs' 0 0%N
          else if (b <? 224)%N then utf8_decode bs' 1 (b - 192)%N
          else if (b <? 240)%N then utf8_decode bs' 2 (b - 224)%N
          else utf8_decode bs' 3 (b - 240)%N
      | S k =>
          let acc' := (acc * 64 + (b - 128))%N in
          match k with
          | O => acc' :: utf8_decode bs' 0 0%N
          | S _ => utf8_decode bs' k acc'
          end
      end
  end.

Definition lit (s : string) : str :=
  utf8_decode (List.map N_of_ascii (list_ascii_of_string s)) 0 0%N.

Definition str_eqb (a b : str) : bool := bool_decide (a = b).

(** [str.isspace] on one character: the code points Python treats as
    white space in [str.split()] and [str.strip()]. *)
Definition is_space (c : char) : bool :=
  ((9 <=? c) && (c <=? 13) || (28 <=? c) && (c <=? 32)
   || (c =? 133) || (c =? 160) || (c =? 5760)
   || (8192 <=? c) && (c <=? 8202)
   || (c =? 8232) || (c =? 8233) || (c =? 8239) || (c =? 8287)
   || (c =? 12288))%N.

(** [s.split()]: maximal runs of characters that are not white space. *)
Fixpoint split_ws (s : str) (cur : str) : list str :=
  match s with
  | [] => match cur with [] => [] | _ => [rev cur] end
  | c :: s' =>
      if is_space c
      then match cur with
           | [] => split_ws s' []
           | _ => rev cur :: split_ws s' []
           end
      else split_ws s' (c :: cur)
  end.

Definition split (s : str) : list str := split_ws s [].

Fixpoint lstrip (s : str) : str :=
  match s with
  | [] => []
  | c :: s' => if is_space c then lstrip s' else s
  end.

(** [s.strip()] *)
Definition strip (s : str) : str := rev (lstrip (rev (lstrip s))).

Fixpoint starts_with (p s : str) : bool :=
  match p, s with
  | [], _ => true
  | _ :: _, [] => false
  | a :: p', b :: s' => (a =? b)%N && starts_with p' s'
  end.

(** [sub in s] for a non-empty [sub]. *)
Fixpoint contains (sub s : str) : bool :=
  starts_with sub s ||
  match s with
  | [] => false
  | _ :: s' => contains sub s'
  end.

(** [s.count(sub)] for a non-empty [sub]: occurrences that do not
    overlap, found from the left.  [skip] characters of a match found
    earlier are still to be passed over. *)
Fixpoint count_from (sub s : str) (skip : nat) : nat :=
  match s with
  | [] => 0
  | _ :: s' =>
      match skip with
      | S k => count_from sub s' k
      | O => if starts_with sub s
             then S (count_from sub s' (length sub - 1))
             else count_from sub s' 0
      end
  end.

Definition count (s sub : str) : nat := count_from sub s 0.

(** [s.split(sep)] for a non-empty [sep]; empty pieces are kept. *)
Fixpoint split_on (sep s : str) (skip : nat) (cur : str) : list str :=
  match s with
  | [] => [rev cur]
  | c :: s' =>
      match skip with
      | S k => split_on sep s' k cur
      | O => if starts_with sep s
             then rev cur :: split_on sep s' (length sep - 1) []
             else split_on sep s' 0 (c :: cur)
      end
  end.

Definition split_sep (s sep : str) : list str := split_on sep s 0 [].

(** ** Numbers *)

Definition of_int (z : Z) : Q := inject_Z z.
Definition of_nat (n : nat) : Q := inject_Z (Z.of_nat n).

Definition Qeqb (a b : Q) : bool := Qeq_bool a b.
Definition Qleb (a b : Q) : bool := Qle_bool a b.
Definition Qltb (a b : Q) : bool := negb (Qle_bool b a).

(** True division [a / b]. *)
Definition div (a b : Q) : result Q :=
  if Qeqb b 0 then Raise ZeroDivisionError else Ok (a / b).

Definition sum (l : list Q) : Q := fold_right Qplus 0 l.

(** Truth value of a list or of a string: it is not empty. *)
Definition nonempty {A : Type} (l : list A) : bool :=
  match l with [] => false | _ => true end.

(** [statistics.mean] *)
Definition mean (l : list Q) : result Q :=
  match l with
  | [] => Raise StatisticsError
  | _ => Ok (sum l / of_nat (length l))
  end.

(** [range(lo, hi)] *)
Definition range (lo hi : Z) : list Z :=
  List.map (fun i => (lo + Z.of_nat i)%Z) (seq 0 (Z.to_nat (hi - lo))).

(** [len(set(l))] *)
Definition distinct {A : Type} `{EqDecision A} (l : list A) : nat :=
  length (remove_dups l).

(** Number of elements of [l] equal to [x], as [Counter(l)[x]]. *)
Definition occurrences {A : Type} `{EqDecision A} (x : A) (l : list A) : nat :=
  length (List.filter (fun y => bool_decide (y = x)) l).

End Py.

Export Py.

Notation "x <- e ;; k" := (Py.bind e (fun x => k))
  (at level 100, e at next level, right associativity).

(** Primitives of the Python run time that the analyzer calls.  A
    pattern is the source text of the regular expression; the flag says
    whether [re.IGNORECASE] is passed. *)
Class PyLib : Type := {
  (** [re.search(pattern, s, flags)] found a match *)
  re_search : string -> bool -> str -> bool;
  (** [len(re.findall(pattern, s, flags))] *)
  re_findall : string -> bool -> str -> nat;
  (** [s.lower()] *)
  lower : str -> str;
  (** [statistics.stdev] of at least two values *)
  stdev : list Q -> Q
}.

(* ================================================================== *)
(** * quality_analyzer.py *)
(* ================================================================== *)

(** Location of a shared, mutable improvement record. *)
Definition loc : Type := nat.

Record QualityMetrics : Type := {
  readability_score : Q;
  sentence_complexity : Q;
  vocabulary_complexity : Q;
  structure_score : Q;
  clarity_score : Q;
  coherence_score : Q;
  precision_score : Q;
  grammar_accuracy : Q;
  style_consistency : Q;
  seo_optimization : Q;
  overall_quality : Q;
  confidence_level : Q;
  improvement_potential : Q
}.

(** The [clarity_balance] entry of the result of the SEO agent. *)
Record ClarityBalance : Type := { balance_score : option Q }.

(** The result dictionary of one agent, reduced to the keys the analyzer
    reads; a field is [None] when the key is absent, and [other_keys]
    counts the keys that the analyzer does not read. *)
Record AgentResult : Type := {
  corrections : option (list (gmap string string));
  clarity_balance : option ClarityBalance;
  other_keys : nat
}.

(** The [final_validation] entry of a result dictionary. *)
Record Validation : Type := { v_quality_score : option Q }.

(** The dictionary that the coordinator's [process_text] returns and
    that the analyzer receives as [context]; a field is [None] when the
    key is absent. *)
Record Results : Type := {
  r_corrected_text : option str;
  r_improvements : option (list loc);
  r_agent_results : option (gmap string AgentResult);
  r_final_validation : option Validation;
  r_timestamp : option Q
}.

Definition empty_agent_result : AgentResult :=
  {| corrections := None; clarity_balance := None; other_keys := 0 |}.

(** Truth value of an agent-result dictionary: it has some key. *)
Definition agent_result_truthy (r : AgentResult) : bool :=
  match corrections r, clarity_balance r, other_keys r with
  | None, None, O => false
  | _, _, _ => true
  end.

(** The [agent_results] entry of a context that is neither [None] nor
    lacks the key. *)
Definition context_agent_results (context : option Results)
  : option (gmap string AgentResult) :=
  match context with
  | Some c => r_agent_results c
  | None => None
  end.

Definition context_improvements (context : option Results) : option (list loc) :=
  match context with
  | Some c => r_improvements c
  | None => None
  end.

Module QualityAnalyzer.
Section WithPyLib.
Context `{PyLib}.

(** [self.spanish_complexity_indicators] *)
Definition complex_structures : list string :=
  [ "\b(no obstante|sin embargo|por consiguiente|a pesar de que|dado que)\b";
    "\b(cuyo|cuya|cuyos|cuyas)\b";
    "\b(mediante|respecto a|con respecto a|en relación con)\b" ]%string.

Definition passive_voice : list string :=
  [ "\b(fue|fueron|ha sido|han sido|será|serán)\s+\w+ado\b";
    "\b(fue|fueron|ha sido|han sido|será|serán)\s+\w+ido\b" ]%string.

Definition complex_vocabulary : list string :=
  [ "\w{15,}";
    "\b\w*(ción|sión|idad|mente|ismo|ística)\b" ]%string.

(** [self.convergence_thresholds] *)
Definition minimal_improvement_threshold : Q := 0.02.
Definition high_quality : Q := 0.85.
Definition excellent_quality : Q := 0.95.
Definition stability_threshold : Q := 0.01.

Definition zero_metrics : QualityMetrics :=
  {| readability_score := 0; sentence_complexity := 0;
     vocabulary_complexity := 0; structure_score := 0;
     clarity_score := 0; coherence_score := 0; precision_score := 0;
     grammar_accuracy := 0; style_consistency := 0;
     seo_optimization := 0; overall_quality := 0;
     confidence_level := 0; improvement_potential := 0 |}.

(** ** Segmentation *)

Definition is_terminator (c : char) : bool :=
  ((c =? 46) || (c =? 33) || (c =? 63))%N.

(** [re.split(r'[.!?]+', text)]: the pieces between maximal runs of
    terminal punctuation, empty pieces included. *)
Fixpoint re_split_terminators (s cur : str) (in_run : bool) : list str :=
  match s with
  | [] => [rev cur]
  | c :: s' =>
      if is_terminator c
      then if in_run
           then re_split_terminators s' [] true
           else rev cur :: re_split_terminators s' [] true
      else re_split_terminators s' (c :: cur) false
  end.

Definition _extract_sentences (text : str) : list str :=
  List.map strip
    (List.filter (fun s => nonempty (strip s))
       (re_split_terminators text [] false)).

Definition word_count (s : str) : nat := length (split s).

(** ** Readability *)

Definition vowels : str := lit "aeiouáéíóúü".

Definition is_vowel (c : char) : bool := existsb (N.eqb c) vowels.

Fixpoint vowel_groups (w : str) (prev_was_vowel : bool) (syllables : nat) : nat :=
  match w with
  | [] => syllables
  | c :: w' =>
      if is_vowel c
      then vowel_groups w' true (if prev_was_vowel then syllables else S syllables)
      else vowel_groups w' false syllables
  end.

Definition _count_spanish_syllables (word : str) : nat :=
  Nat.max 1 (vowel_groups (lower word) false 0).

Definition _calculate_readability (text : str) (sentences words : list str)
  : result Q :=
  if negb (nonempty sentences) || negb (nonempty words) then Ok 0
  else
    avg_sentence_length <- div (of_nat (length words)) (of_nat (length sentences)) ;;
    let syllable_count :=
      fold_left (fun n word => (n + _count_spanish_syllables word)%nat) words 0%nat in
    avg_syllables_per_word <-
      (if nonempty words
       then div (of_nat syllable_count) (of_nat (length words))
       else Ok 0) ;;
    if nonempty sentences && nonempty words
    then
      let flesch_score :=
        206.84 - (1.02 * avg_sentence_length) - (0.60 * avg_syllables_per_word) in
      Ok (Qmax 0 (Qmin 100 flesch_score) / 100)
    else Ok 0.

(** ** Sentence complexity *)

Definition length_complexity (n : nat) (complexity : Q) : Q :=
  if (30 <? n)%nat then complexity * 0.5
  else if (20 <? n)%nat then complexity * 0.7
  else if (n <? 5)%nat then complexity * 0.8
  else complexity.

Definition sentence_complexity_of (sentence : str) : Q :=
  let words := split sentence in
  let complexity := length_complexity (length words) 1 in
  fold_left
    (fun complexity pattern =>
       if re_search pattern true sentence then complexity * 0.8 else complexity)
    complex_structures complexity.

Definition _analyze_sentence_complexity (sentences : list str) : result Q :=
  match sentences with
  | [] => Ok 1
  | _ => mean (List.map sentence_complexity_of sentences)
  end.

(** ** Vocabulary complexity *)

Definition is_complex_word (word : str) : bool :=
  existsb (fun pattern => re_search pattern true word) complex_vocabulary.

Definition _analyze_vocabulary_complexity (words : list str) : result Q :=
  match words with
  | [] => Ok 1
  | _ =>
      let complex_word_count := length (List.filter is_complex_word words) in
      complexity_ratio <- div (of_nat complex_word_count) (of_nat (length words)) ;;
      Ok (Qmax 0.2 (1 - complexity_ratio * 2))
  end.

(** ** Structure *)

Definition paragraph_separator : str := [10; 10]%N.

Definition _analyze_text_structure (text : str) (sentences : list str)
  : result Q :=
  let structure_score := 1 in
  let paragraphs :=
    List.map strip
      (List.filter (fun p => nonempty (strip p)) (split_sep text paragraph_separator)) in
  structure_score <-
    (if (1 <? length paragraphs)%nat
     then
       avg_para_length <- div (of_nat (length sentences)) (of_nat (length paragraphs)) ;;
       Ok (if Qleb 2 avg_para_length && Qleb avg_para_length 8
           then structure_score * 1
           else structure_score * 0.8)
     else Ok structure_score) ;;
  let sentence_lengths := List.map word_count sentences in
  let structure_score :=
    if Qltb (of_nat (length sentence_lengths) * 0.3) (of_nat (distinct sentence_lengths))
    then structure_score * 1
    else structure_score * 0.9 in
  Ok (Qmin 1 structure_score).

(** ** Clarity *)

Definition flow_indicators : list str :=
  List.map lit
    ["primero"; "segundo"; "además"; "por tanto"; "finalmente"; "en conclusión"]%string.

Definition _calculate_clarity_score (text : str) (sentences : list str)
  : result Q :=
  let passive_count :=
    fold_left (fun n pattern => (n + re_findall pattern true text)%nat)
      passive_voice 0%nat in
  passive_ratio <-
    (match sentences with
     | [] => Ok 0
     | _ => div (of_nat passive_count) (of_nat (length sentences))
     end) ;;
  let active_voice_score := Qmax 0.5 (1 - passive_ratio) in
  let clarity_factors := [active_voice_score] in
  let lengths := List.map (fun s => of_nat (word_count s)) sentences in
  clarity_factors <-
    (match lengths with
     | [] => Ok clarity_factors
     | _ =>
         avg_length <- mean lengths ;;
         let length_score :=
           if Qleb 10 avg_length && Qleb avg_length 25 then 1 else 0.7 in
         Ok (clarity_factors ++ [length_score])
     end) ;;
  let text_lower := lower text in
  let flow_count :=
    length (List.filter (fun indicator => contains indicator text_lower) flow_indicators) in
  flow_ratio <- div (of_nat flow_count) (Qmax 1 (of_nat (length sentences) / 5)) ;;
  let flow_score := Qmin 1 flow_ratio in
  let clarity_factors := clarity_factors ++ [flow_score] in
  match clarity_factors with
  | [] => Ok 0.5
  | _ => mean clarity_factors
  end.

(** ** Coherence *)

Definition _calculate_coherence_score (sentences : list str) : result Q :=
  if (length sentences <? 2)%nat then Ok 1
  else
    let coherence_score := 0.8 in
    let all_words :=
      flat_map
        (fun sentence =>
           List.map lower (List.filter (fun w => (3 <? length w)%nat) (split sentence)))
        sentences in
    coherence_score <-
      (match all_words with
       | [] => Ok coherence_score
       | _ =>
           let repeated_words :=
             length (List.filter (fun w => (1 <? occurrences w all_words)%nat)
                       (remove_dups all_words)) in
           repetition_ratio <- div (of_nat repeated_words) (of_nat (distinct all_words)) ;;
           let repetition_score := Qmin 1 repetition_ratio in
           Ok (coherence_score + repetition_score * 0.2)
       end) ;;
    Ok (Qmin 1 coherence_score).

(** ** Precision *)

Definition redundant_phrases : list str :=
  List.map lit
    ["muy muy"; "que que"; "el el"; "la la"; "de de";
     "completamente total"; "absolutamente completo";
     "totalmente absoluto"]%string.

Definition filler_words : list str :=
  List.map lit
    ["realmente"; "básicamente"; "obviamente"; "claramente"; "simplemente"]%string.

Definition _calculate_precision_score (text : str) (words : list str)
  : result Q :=
  let text_lower := lower text in
  let redundancy_count :=
    fold_left (fun n phrase => (n + count text_lower phrase)%nat)
      redundant_phrases 0%nat in
  let filler_count :=
    length (List.filter
              (fun word => existsb (str_eqb (lower word)) filler_words) words) in
  let total_issues := (redundancy_count + filler_count)%nat in
  issue_ratio <- div (of_nat total_issues) (of_nat (length words)) ;;
  Ok (Qmax 0.5 (1 - issue_ratio * 10)).

(** ** Grammar accuracy *)

Definition _estimate_grammar_accuracy (text : str) (context : option Results)
  : result Q :=
  let base_score := 0.8 in
  match context_agent_results context with
  | Some agent_results =>
      let grammar_results := default empty_agent_result (agent_results !! "grammar"%string) in
      let corrections := default [] (corrections grammar_results) in
      match corrections with
      | [] => Ok 0.95
      | _ =>
          error_density <-
            div (of_nat (length corrections))
                (Qmax 1 (of_nat (length (split text)) / 10)) ;;
          Ok (Qmax 0.3 (0.9 - error_density * 0.1))
      end
  | None => Ok base_score
  end.

(** ** Style consistency *)

Definition present_tense_pattern : string := "\b(es|está|tiene|hace)\b".
Definition past_tense_pattern : string := "\b(fue|estuvo|tuvo|hizo)\b".
Definition future_tense_pattern : string := "\b(será|estará|tendrá|hará)\b".

Definition count_matching (pattern : string) (sentences : list str) : nat :=
  length (List.filter (re_search pattern false) sentences).

Definition _analyze_style_consistency (sentences : list str) : result Q :=
  if (length sentences <? 2)%nat then Ok 1
  else
    let lengths := List.map (fun s => of_nat (word_count s)) sentences in
    let length_std := if (1 <? length lengths)%nat then stdev lengths else 0 in
    mean_length <- mean lengths ;;
    relative_std <-
      (if Qltb 0 mean_length then div length_std mean_length else Ok 1) ;;
    let length_consistency := Qmax 0.5 (1 - relative_std) in
    let present_tense := count_matching present_tense_pattern sentences in
    let past_tense := count_matching past_tense_pattern sentences in
    let future_tense := count_matching future_tense_pattern sentences in
    let total_tense := (present_tense + past_tense + future_tense)%nat in
    tense_consistency <-
      (if (0 <? total_tense)%nat
       then
         let dominant_tense := Nat.max present_tense (Nat.max past_tense future_tense) in
         div (of_nat dominant_tense) (of_nat total_tense)
       else Ok 1) ;;
    Ok ((length_consistency + tense_consistency) / 2).

(** ** SEO quality *)

Definition basic_seo_quality (text : str) : Q :=
  let word_count := length (split text) in
  if (300 <=? word_count)%nat && (word_count <=? 2000)%nat then 0.8
  else if (word_count <? 100)%nat then 0.4
  else 0.6.

Definition _analyze_seo_quality (text : str) (context : option Results) : Q :=
  match context_agent_results context with
  | Some agent_results =>
      let seo_results := default empty_agent_result (agent_results !! "seo"%string) in
      if agent_result_truthy seo_results
      then
        match clarity_balance seo_results with
        | Some cb => default 0.7 (balance_score cb)
        | None => 0.7
        end
      else basic_seo_quality text
  | None => basic_seo_quality text
  end.

(** ** Overall quality *)

Definition weights : list (string * Q) :=
  [ ("readability", 0.25); ("clarity", 0.25); ("grammar", 0.20);
    ("structure", 0.15); ("coherence", 0.15) ]%string.

Fixpoint weight_of (metric : string) (ws : list (string * Q)) : option Q :=
  match ws with
  | [] => None
  | (name, w) :: ws' => if String.eqb metric name then Some w else weight_of metric ws'
  end.

Definition _calculate_overall_quality (metrics : list (string * Q)) : result Q :=
  let '(weighted_score, total_weight) :=
    fold_left
      (fun '(weighted_score, total_weight) '(metric, value) =>
         match weight_of metric weights with
         | Some w => (weighted_score + value * w, total_weight + w)
         | None => (weighted_score, total_weight)
         end)
      metrics (0, 0) in
  if Qltb 0 total_weight then div weighted_score total_weight else Ok 0.5.

(** ** Confidence and improvement potential *)

Definition _calculate_confidence_level (text : str) (context : option Results) : Q :=
  let confidence := 0.7 in
  let word_count := length (split text) in
  let confidence :=
    if (100 <? word_count)%nat then confidence + 0.2
    else if (word_count <? 20)%nat then confidence - 0.2
    else confidence in
  let confidence :=
    match context_agent_results context with
    | Some agent_results =>
        let agent_count := size agent_results in
        confidence + Qmin 0.2 (of_nat agent_count * 0.05)
    | None => confidence
    end in
  Qmin 1 (Qmax 0.3 confidence).

Definition _calculate_improvement_potential
    (current_quality : Q) (context : option Results) : Q :=
  let base_potential := 1 - current_quality in
  let base_potential :=
    match context_improvements context with
    | Some improvements =>
        let recent_improvements := length improvements in
        if (5 <? recent_improvements)%nat then base_potential * 0.7 else base_potential
    | None => base_potential
    end in
  Qmin 1 base_potential.

(** ** The assessment *)

Definition analyze_comprehensive_quality (text : str) (context : option Results)
  : result QualityMetrics :=
  let sentences := _extract_sentences text in
  let words := split text in
  if negb (nonempty sentences) || negb (nonempty words) then Ok zero_metrics
  else
      readability <- _calculate_readability text sentences words ;;
      sentence_complexity <- _analyze_sentence_complexity sentences ;;
      vocabulary_complexity <- _analyze_vocabulary_complexity words ;;
      structure_score <- _analyze_text_structure text sentences ;;
      clarity_score <- _calculate_clarity_score text sentences ;;
      coherence_score <- _calculate_coherence_score sentences ;;
      precision_score <- _calculate_precision_score text words ;;
      grammar_accuracy <- _estimate_grammar_accuracy text context ;;
      style_consistency <- _analyze_style_consistency sentences ;;
      let seo_optimization := _analyze_seo_quality text context in
      overall_quality <-
        _calculate_overall_quality
          [ ("readability", readability); ("clarity", clarity_score);
            ("grammar", grammar_accuracy); ("structure", structure_score);
            ("coherence", coherence_score) ]%string ;;
      let confidence_level := _calculate_confidence_level text context in
      let improvement_potential :=
        _calculate_improvement_potential overall_quality context in
      Ok {| readability_score := readability;
            sentence_complexity := sentence_complexity;
            vocabulary_complexity := vocabulary_complexity;
            structure_score := structure_score;
            clarity_score := clarity_score;
            coherence_score := coherence_score;
            precision_score := precision_score;
            grammar_accuracy := grammar_accuracy;
            style_consistency := style_consistency;
            seo_optimization := seo_optimization;
            overall_quality := overall_quality;
            confidence_level := confidence_level;
            improvement_potential := improvement_potential |}.

(** ** Convergence indicators *)

(** [l[-n:]] *)
Definition last_n {A : Type} (n : nat) (l : list A) : list A :=
  drop (length l - n) l.

Definition _detect_quality_plateau (quality_history : list QualityMetrics) : bool :=
  if (length quality_history <? 3)%nat then false
  else
    match List.map overall_quality (last_n 3 quality_history) with
    | q :: rest =>
        let score_range := fold_left Qmax rest q - fold_left Qmin rest q in
        Qltb score_range stability_threshold
    | [] => false
    end.

Definition _detect_stability (quality_history : list QualityMetrics) : bool :=
  if (length quality_history <? 2)%nat then false
  else
    match List.map overall_quality (last_n 2 quality_history) with
    | q0 :: q1 :: _ => Qltb (Qabs (q1 - q0)) stability_threshold
    | _ => false
    end.

(** One entry of the improvement history. *)
Record ImprovementEntry : Type := {
  e_improvements : list loc;
  e_agent_results : gmap string AgentResult;
  e_timestamp : Q
}.

Definition _detect_improvement_saturation
    (improvement_history : list ImprovementEntry) : bool :=
  if (length improvement_history <? 2)%nat then false
  else
    let recent_improvement_counts :=
      List.map (fun imp => length (e_improvements imp)) (last_n 2 improvement_history) in
    forallb (fun count => (count <=? 1)%nat) recent_improvement_counts.

(** The [convergence_analysis] dictionary. *)
Record ConvergenceAnalysis : Type := {
  quality_plateau : bool;
  minimal_improvement : bool;
  high_quality_reached : bool;
  stability_achieved : bool;
  improvement_saturation : bool
}.

(** [sum(analysis.values())] *)
Definition indicator_count (analysis : ConvergenceAnalysis) : nat :=
  (Nat.b2n (quality_plateau analysis) + Nat.b2n (minimal_improvement analysis)
   + Nat.b2n (high_quality_reached analysis) + Nat.b2n (stability_achieved analysis)
   + Nat.b2n (improvement_saturation analysis))%nat.

Definition _determine_convergence_status
    (analysis : ConvergenceAnalysis) (current : QualityMetrics)
  : bool * string * Q :=
  if Qleb excellent_quality (overall_quality current)
  then (true, "Excellent quality achieved"%string, 0.95)
  else
    let convergence_indicators := indicator_count analysis in
    if (3 <=? convergence_indicators)%nat
    then (true, "Multiple convergence indicators detected"%string, 0.8)
    else if Qleb high_quality (overall_quality current)
            && (2 <=? convergence_indicators)%nat
    then (true, "High quality with convergence indicators"%string, 0.85)
    else if quality_plateau analysis && stability_achieved analysis
    then (true, "Quality plateau with stability"%string, 0.75)
    else (false, "Convergence not detected"%string, 0.6).

Definition _generate_convergence_recommendation
    (analysis : ConvergenceAnalysis) (current : QualityMetrics)
    (improvement_history : list ImprovementEntry) : string :=
  if Qleb excellent_quality (overall_quality current) then "stop_excellent"
  else if Qleb high_quality (overall_quality current)
  then if stability_achieved analysis then "stop_good" else "continue_cautiously"
  else if improvement_saturation analysis && Qltb 0.6 (overall_quality current)
  then "manual_review"
  else if (2 <=? indicator_count analysis)%nat then "stop_convergence"
  else "continue".

(** The dictionary that [detect_convergence] returns; the last three
    keys are absent from the short answer. *)
Record ConvergenceDecision : Type := {
  converged : bool;
  reason : string;
  confidence : Q;
  recommendation : string;
  current_quality : option Q;
  improvement_rate : option Q;
  analysis_details : option ConvergenceAnalysis
}.

(** The guard [len(quality_history) < 2] and the two look-ups
    [quality_history[-1]], [quality_history[-2]] are one match on the
    reversed history. *)
Definition detect_convergence
    (quality_history : list QualityMetrics)
    (improvement_history : list ImprovementEntry) : ConvergenceDecision :=
  match rev quality_history with
  | current :: previous :: _ =>
      let improvement := overall_quality current - overall_quality previous in
      let convergence_analysis :=
        {| quality_plateau := _detect_quality_plateau quality_history;
           minimal_improvement := Qltb improvement minimal_improvement_threshold;
           high_quality_reached := Qleb high_quality (overall_quality current);
           stability_achieved := _detect_stability quality_history;
           improvement_saturation := _detect_improvement_saturation improvement_history |} in
      let '(converged, reason, confidence) :=
        _determine_convergence_status convergence_analysis current in
      let recommendation :=
        _generate_convergence_recommendation convergence_analysis current improvement_history in
      {| converged := converged;
         reason := reason;
         confidence := confidence;
         recommendation := recommendation;
         current_quality := Some (overall_quality current);
         improvement_rate := Some improvement;
         analysis_details := Some convergence_analysis |}
  | _ =>
      {| converged := false;
         reason := "Insufficient history";
         confidence := 0;
         recommendation := "continue";
         current_quality := None;
         improvement_rate := None;
         analysis_details := None |}
  end.

End WithPyLib.
End QualityAnalyzer.

Module ConvergenceDetector.
Section WithPyLib.
Context `{PyLib}.

Import QualityAnalyzer.

(** The state of one detector instance. *)
Record t : Type := {
  quality_history : list QualityMetrics;
  improvement_history : list ImprovementEntry
}.

Definition __init__ : t :=
  {| quality_history := []; improvement_history := [] |}.

(** [l.pop(0)] on a non-empty list, seen as the list that remains. *)
Definition pop_first {A : Type} (l : list A) : list A := tail l.

Definition add_processing_result (self : t) (text : str) (results : Results)
  : result t :=
  quality_metrics <- analyze_comprehensive_quality text (Some results) ;;
  let quality_history := quality_history self ++ [quality_metrics] in
  let improvement_history :=
    improvement_history self ++
      [ {| e_improvements := default [] (r_improvements results);
           e_agent_results := default ∅ (r_agent_results results);
           e_timestamp := default 0 (r_timestamp results) |} ] in
  if (10 <? length quality_history)%nat
  then Ok {| quality_history := pop_first quality_history;
             improvement_history := pop_first improvement_history |}
  else Ok {| quality_history := quality_history;
             improvement_history := improvement_history |}.

Definition check_convergence (self : t) : ConvergenceDecision :=
  detect_convergence (quality_history self) (improvement_history self).

(** The dictionary that [get_quality_trend] returns; the last three
    keys are absent from the short answer. *)
Record QualityTrend : Type := {
  trend : string;
  direction : string;
  trend_current_quality : option Q;
  quality_range : option (Q * Q);
  data_points : option nat
}.

Definition get_quality_trend (self : t) : QualityTrend :=
  if (length (quality_history self) <? 2)%nat
  then {| trend := "insufficient_data"; direction := "unknown";
          trend_current_quality := None; quality_range := None;
          data_points := None |}
  else
    let recent_qualities :=
      List.map overall_quality (last_n 3 (quality_history self)) in
    let direction :=
      match rev recent_qualities with
      | q1 :: q2 :: _ =>
          if Qltb q2 q1 then "improving"
          else if Qltb q1 q2 then "declining"
          else "stable"
      | _ => "unknown"
      end in
    {| trend := "tracked";
       direction := direction;
       trend_current_quality :=
         Some (match rev recent_qualities with q1 :: _ => q1 | [] => 0 end);
       quality_range :=
         Some (match recent_qualities with
               | q :: rest => (fold_left Qmin rest q, fold_left Qmax rest q)
               | [] => (0, 0)
               end);
       data_points := Some (length (quality_history self)) |}.

Definition reset_history (self : t) : t :=
  {| quality_history := []; improvement_history := [] |}.

(** A detector state that a sequence of calls can produce. *)
Inductive reachable : t -> Prop :=
| reach_init : reachable __init__
| reach_add self text results self' :
    reachable self ->
    add_processing_result self text results = Ok self' ->
    reachable self'
| reach_reset self : reachable self -> reachable (reset_history self).

(** Consecutive [add_processing_result] calls. *)
Fixpoint add_all (self : t) (calls : list (str * Results)) : result t :=
  match calls with
  | [] => Ok self
  | (text, results) :: calls' =>
      self' <- add_processing_result self text results ;;
      add_all self' calls'
  end.

(** The [current_metrics] entry of the detailed analysis. *)
Record CurrentMetrics : Type := {
  cm_overall_quality : Q;
  cm_readability : Q;
  cm_clarity : Q;
  cm_grammar_accuracy : Q;
  cm_confidence : Q
}.

Definition _get_quality_recommendations
    (current : QualityMetrics) (convergence : ConvergenceDecision)
  : list string :=
  let recommendations := [] in
  let recommendations :=
    if converged convergence
    then recommendations
           ++ [String.append "Processing converged: " (reason convergence)]
    else recommendations in
  let recommendations :=
    if Qltb (overall_quality current) 0.6
    then recommendations ++ ["Quality below 60% - consider manual review"%string]
    else recommendations in
  let recommendations :=
    if Qltb (readability_score current) 0.6
    then recommendations
           ++ ["Low readability - simplify vocabulary and sentence structure"%string]
    else recommendations in
  let recommendations :=
    if Qltb (grammar_accuracy current) 0.7
    then recommendations ++ ["Grammar accuracy concerns - review corrections"%string]
    else recommendations in
  let recommendations :=
    if Qltb 0.5 (improvement_potential current)
    then recommendations
           ++ ["High improvement potential - continue processing"%string]
    else recommendations in
  recommendations.

(** The dictionary that [get_detailed_analysis] returns: the answer
    [{'status': 'no_data'}], or the answer with status [analyzed] and
    its four other keys. *)
Inductive DetailedAnalysis : Type :=
| NoData
| Analyzed (current_metrics : CurrentMetrics)
           (convergence_analysis : ConvergenceDecision)
           (quality_trend : QualityTrend)
           (recommendations : list string).

Definition get_detailed_analysis (self : t) : DetailedAnalysis :=
  match last (quality_history self) with
  | None => NoData
  | Some current =>
      let convergence := check_convergence self in
      let trend := get_quality_trend self in
      Analyzed
        {| cm_overall_quality := overall_quality current;
           cm_readability := readability_score current;
           cm_clarity := clarity_score current;
           cm_grammar_accuracy := grammar_accuracy current;
           cm_confidence := confidence_level current |}
        convergence trend
        (_get_quality_recommendations current convergence)
  end.

End WithPyLib.
End ConvergenceDetector.

(* ================================================================== *)
(** * multi_pass_processor.py *)
(* ================================================================== *)

Module MultiPassProcessor.

(** ** Shared improvement records *)

(** A value stored in an improvement record. *)
Inductive value : Type :=
| VInt (z : Z)
| VStr (s : string).

#[global] Instance value_eq_dec : EqDecision value.
Proof. solve_decision. Defined.

(** An improvement record is a dictionary; the heap maps the location
    of a record to its present content. *)
Abbreviation Improvement := (gmap string value).
Abbreviation Heap := (gmap loc (gmap string value)).

(** What a run can observe and change outside itself: the improvement
    records, the texts handed to the coordinator so far and the number
    of clock readings taken so far. *)
Record World : Type := {
  heap : Heap;
  calls : list str;
  clock : nat
}.

(** The collaborators of a run.  [process_text] is the coordinator: it
    may depend on everything that happened before, may raise, and may
    create or change improvement records.  [time] is the reading of
    the n-th call of [time.time()]. *)
Class Environment : Type := {
  process_text : World -> str -> option (list string) -> result Results * Heap;
  time : nat -> Q
}.

(** Computations of a run: they read and change the world and may
    raise. *)
Definition M (A : Type) : Type := World -> result A * World.

Definition ret {A : Type} (a : A) : M A := fun w => (Ok a, w).

Definition throw {A : Type} (e : exn) : M A := fun w => (Raise e, w).

Definition mbind {A B : Type} (m : M A) (k : A -> M B) : M B :=
  fun w =>
    match m w with
    | (Ok a, w') => k a w'
    | (Raise e, w') => (Raise e, w')
    end.

Definition lift {A : Type} (r : result A) : M A := fun w => (r, w).

Notation "x <~ e ;; k" := (mbind e (fun x => k))
  (at level 100, e at next level, right associativity).

Record ConvergenceMetrics : Type := {
  text_similarity : Q;
  quality_improvement : Q;
  change_ratio : Q;
  changes_made : bool
}.

Record RefinementPass : Type := {
  pass_number : Z;
  input_text : str;
  output_text : str;
  improvements : list loc;
  quality_score : Q;
  processing_time : Q;
  convergence_metrics : ConvergenceMetrics
}.

(** The configuration fields of a processor. *)
Record t : Type := {
  max_passes : Z;
  convergence_threshold : Q;
  min_quality_threshold : Q
}.

Definition __init__ (max_passes : Z) : t :=
  {| max_passes := max_passes;
     convergence_threshold := 0.05;
     min_quality_threshold := 0.85 |}.

(** The second component of [_should_continue_processing]:
    - [MaximumPasses n]: "Maximum passes (n) reached"
    - [QualityThreshold q]: "Quality threshold reached (q)"
    - [ConvergenceDetected i]: "Convergence detected (improvement: i)"
    - [NoChanges]: "No changes made in this pass"
    - [Continue]: "Continue processing" *)
Inductive Reason : Type :=
| MaximumPasses (max_passes : Z)
| QualityThreshold (quality_score : Q)
| ConvergenceDetected (improvement : Q)
| NoChanges
| Continue.

Definition _calculate_convergence_metrics
    (input_text output_text : str) (prev_quality curr_quality : Q)
  : result ConvergenceMetrics :=
  text_similarity <-
    (if (0 <? len input_text)%Z
     then
       d <- div (of_int (Z.abs (len output_text - len input_text)))
                (of_int (len input_text)) ;;
       Ok (1 - d)
     else Ok 1) ;;
  let quality_improvement :=
    if Qltb 0 prev_quality then curr_quality - prev_quality else curr_quality in
  let changes_made := negb (str_eqb input_text output_text) in
  change_ratio <-
    (if negb changes_made then Ok 0
     else
       d <- div (of_int (Z.abs (len output_text - len input_text)))
                (of_int (len input_text)) ;;
       Ok (Qmin 1 d)) ;;
  Ok {| text_similarity := text_similarity;
        quality_improvement := quality_improvement;
        change_ratio := change_ratio;
        changes_made := changes_made |}.

Definition _should_continue_processing
    (self : t) (current_pass : RefinementPass) (previous_quality : Q)
    (pass_number : Z) : bool * Reason :=
  if (max_passes self <=? pass_number)%Z
  then (false, MaximumPasses (max_passes self))
  else if Qleb (min_quality_threshold self) (quality_score current_pass)
  then (false, QualityThreshold (quality_score current_pass))
  else
    let improvement := quality_improvement (convergence_metrics current_pass) in
    if (1 <? pass_number)%Z && Qltb improvement (convergence_threshold self)
    then (false, ConvergenceDetected improvement)
    else if negb (changes_made (convergence_metrics current_pass))
    then (false, NoChanges)
    else (true, Continue).

(** ** The report *)

Record OverallMetrics : Type := {
  total_passes : nat;
  total_time : Q;
  initial_quality : Q;
  final_quality : Q;
  overall_quality_improvement : Q;
  total_improvements : nat;
  convergence_achieved : bool
}.

Record PassSummary : Type := {
  s_pass : Z;
  s_quality : Q;
  s_improvements : nat;
  s_time : Q;
  s_changes_made : bool
}.

Record ReportData : Type := {
  original_text : str;
  final_text : str;
  all_improvements : list loc;
  overall_metrics : OverallMetrics;
  pass_summary : list PassSummary;
  passes_detail : list RefinementPass;
  processing_type : string
}.

Inductive Report : Type :=
| ErrorReport (error : string)
| FullReport (data : ReportData).

(** [improvement["pass_number"] = n] on the record at [l]. *)
Definition tag (n : Z) (h : Heap) (l : loc) : Heap :=
  alter (insert "pass_number"%string (VInt n)) l h.

Definition tag_pass (h : Heap) (pass_obj : RefinementPass) : Heap :=
  fold_left (tag (pass_number pass_obj)) (improvements pass_obj) h.

(** [h'] is [h] where, for the pairs [(l, n)] of [tags], the record at
    [l] carries the [pass_number] [n] of one of its pairs, and nothing
    else differs. *)
Definition tagged (h h' : Heap) (tags : list (loc * Z)) : Prop :=
  forall l : loc,
    ((forall n : Z, (l, n) ∉ tags) /\ (h' !! l) = (h !! l))
    \/ (exists n : Z,
          ((l, n) ∈ tags)
          /\ (h' !! l) = (insert "pass_number"%string (VInt n) <$> (h !! l))).

(** The pairs that the tagging loop visits for one pass. *)
Definition tags_of (pass_obj : RefinementPass) : list (loc * Z) :=
  List.map (fun l => (l, pass_number pass_obj)) (improvements pass_obj).

Definition summarize (pass_obj : RefinementPass) : PassSummary :=
  {| s_pass := pass_number pass_obj;
     s_quality := quality_score pass_obj;
     s_improvements := length (improvements pass_obj);
     s_time := processing_time pass_obj;
     s_changes_made := changes_made (convergence_metrics pass_obj) |}.

Definition _compile_multi_pass_results
    (self : t) (passes : list RefinementPass) (total_time : Q)
    (user_preferences : option (gmap string string)) : M Report :=
  fun w =>
    match passes, rev passes with
    | first_pass :: _, final_pass :: _ =>
        let initial_text := input_text first_pass in
        let heap' := fold_left tag_pass passes (heap w) in
        let all_improvements := flat_map improvements passes in
        let overall_metrics :=
          {| total_passes := length passes;
             total_time := total_time;
             initial_quality := quality_score first_pass;
             final_quality := quality_score final_pass;
             overall_quality_improvement :=
               quality_score final_pass - quality_score first_pass;
             total_improvements := length all_improvements;
             convergence_achieved :=
               Qleb (min_quality_threshold self) (quality_score final_pass) |} in
        let pass_summary := List.map summarize passes in
        (Ok (FullReport
               {| original_text := initial_text;
                  final_text := output_text final_pass;
                  all_improvements := all_improvements;
                  overall_metrics := overall_metrics;
                  pass_summary := pass_summary;
                  passes_detail := passes;
                  processing_type := "multi_pass_refinement" |}),
         {| heap := heap'; calls := calls w; clock := clock w |})
    | _, _ => (Ok (ErrorReport "No passes completed"), w)
    end.

Section WithEnvironment.
Context `{Environment}.

Definition call_process_text (text : str) (selected_agents : option (list string))
  : M Results :=
  fun w =>
    let '(r, h) := process_text w text selected_agents in
    (r, {| heap := h; calls := calls w ++ [text]; clock := clock w |}).

Definition time_time : M Q :=
  fun w => (Ok (time (clock w)),
            {| heap := heap w; calls := calls w; clock := S (clock w) |}).

Definition get_corrected_text (results : Results) : result str :=
  match r_corrected_text results with
  | Some s => Ok s
  | None => Raise (KeyError "corrected_text")
  end.

Definition get_quality_score (results : Results) : Q :=
  match r_final_validation results with
  | Some v => default 0 (v_quality_score v)
  | None => 0
  end.

(** The body of [for pass_num in range(1, self.max_passes + 1)]. *)
Fixpoint pass_loop (self : t) (selected_agents : option (list string))
    (pass_nums : list Z) (current_text : str) (previous_quality : Q)
    (passes : list RefinementPass) : M (list RefinementPass) :=
  match pass_nums with
  | [] => ret passes
  | pass_num :: rest =>
      pass_start_time <~ time_time ;;
      results <~ call_process_text current_text selected_agents ;;
      let quality_score := get_quality_score results in
      pass_end_time <~ time_time ;;
      let processing_time := pass_end_time - pass_start_time in
      corrected_text <~ lift (get_corrected_text results) ;;
      metrics <~ lift (_calculate_convergence_metrics
                         current_text corrected_text previous_quality quality_score) ;;
      let current_pass :=
        {| pass_number := pass_num;
           input_text := current_text;
           output_text := corrected_text;
           improvements := default [] (r_improvements results);
           quality_score := quality_score;
           processing_time := processing_time;
           convergence_metrics := metrics |} in
      let passes := passes ++ [current_pass] in
      let '(should_continue, reason) :=
        _should_continue_processing self current_pass previous_quality pass_num in
      if negb should_continue
      then ret passes
      else pass_loop self selected_agents rest corrected_text quality_score passes
  end.

Definition process_with_multiple_passes
    (self : t) (text : str) (selected_agents : option (list string))
    (user_preferences : option (gmap string string)) : M Report :=
  total_start_time <~ time_time ;;
  passes <~ pass_loop self selected_agents (range 1 (max_passes self + 1))
              text 0 [] ;;
  total_end_time <~ time_time ;;
  let total_time := total_end_time - total_start_time in
  _compile_multi_pass_results self passes total_time user_preferences.

(** The world after the two clock readings and the coordinator call of
    one pass that starts in [w]. *)
Definition after_pass (w : World) (text : str)
    (selected_agents : option (list string)) : World :=
  {| heap := snd (process_text
                    {| heap := heap w; calls := calls w; clock := S (clock w) |}
                    text selected_agents);
     calls := calls w ++ [text];
     clock := S (S (clock w)) |}.

End WithEnvironment.

(** ** Recommendations *)

(** [results.get("overall_metrics", {})] with the defaults of the three
    look-ups: a report without metrics counts as quality 0, no pass and
    no improvement. *)
Definition reported_metrics (results : Report) : Q * Z * nat :=
  match results with
  | FullReport data =>
      (final_quality (overall_metrics data),
       Z.of_nat (total_passes (overall_metrics data)),
       total_improvements (overall_metrics data))
  | ErrorReport _ => (0, 0%Z, 0%nat)
  end.

Definition get_optimization_recommendations (self : t) (results : Report)
  : list string :=
  let '(final_quality, total_passes, improvement_count) := reported_metrics results in
  let recommendations := [] in
  let recommendations :=
    if Qltb final_quality 0.7
    then recommendations ++ ["Consider manual review - quality below 70%"%string]
    else if Qltb final_quality 0.85
    then recommendations ++ ["Good quality achieved - minor improvements possible"%string]
    else recommendations ++ ["Excellent quality achieved!"%string] in
  let recommendations :=
    if (total_passes =? 1)%Z
    then recommendations ++ ["Single pass was sufficient - text was already clear"%string]
    else if (max_passes self <=? total_passes)%Z
    then recommendations ++ ["Maximum passes used - consider manual refinement"%string]
    else recommendations in
  let recommendations :=
    if (improvement_count =? 0)%nat
    then recommendations
           ++ ["No automatic improvements made - text may already be optimal"%string]
    else if (10 <? improvement_count)%nat
    then recommendations
           ++ ["Many improvements applied - verify meaning preservation"%string]
    else recommendations in
  recommendations.

(** ** The shape of a completed loop *)

(** [run_trace self pass_nums text prev new]: the passes [new] are what
    the loop over [pass_nums] records when it starts on [text] with the
    previous quality [prev] and no call raises.  Each pass carries its
    number, its input, the metrics computed from its texts, and the
    loop goes on exactly when [_should_continue_processing] says so. *)
Inductive run_trace (self : t) : list Z -> str -> Q -> list RefinementPass -> Prop :=
| run_trace_exhausted (text : str) (prev : Q) :
    run_trace self [] text prev []
| run_trace_stop (n : Z) (rest : list Z) (text : str) (prev : Q)
    (p : RefinementPass) :
    pass_number p = n ->
    input_text p = text ->
    _calculate_convergence_metrics text (output_text p) prev (quality_score p)
      = Ok (convergence_metrics p) ->
    fst (_should_continue_processing self p prev n) = false ->
    run_trace self (n :: rest) text prev [p]
| run_trace_continue (n : Z) (rest : list Z) (text : str) (prev : Q)
    (p : RefinementPass) (ps : list RefinementPass) :
    pass_number p = n ->
    input_text p = text ->
    _calculate_convergence_metrics text (output_text p) prev (quality_score p)
      = Ok (convergence_metrics p) ->
    fst (_should_continue_processing self p prev n) = true ->
    run_trace self rest (output_text p) (quality_score p) ps ->
    run_trace self (n :: rest) text prev (p :: ps).

(** ** Processing modes *)

Record ProcessingConfig : Type := {
  cfg_max_passes : Z;
  cfg_convergence_threshold : Q;
  cfg_min_quality_threshold : Q;
  cfg_description : string
}.

Definition conservative : ProcessingConfig :=
  {| cfg_max_passes := 2; cfg_convergence_threshold := 0.10;
     cfg_min_quality_threshold := 0.75;
     cfg_description := "Minimal changes, preserve original style" |}.

Definition balanced : ProcessingConfig :=
  {| cfg_max_passes := 3; cfg_convergence_threshold := 0.05;
     cfg_min_quality_threshold := 0.85;
     cfg_description := "Balanced improvement with reasonable changes" |}.

Definition aggressive : ProcessingConfig :=
  {| cfg_max_passes := 5; cfg_convergence_threshold := 0.02;
     cfg_min_quality_threshold := 0.95;
     cfg_description := "Maximum clarity, extensive improvements" |}.

Definition get_processing_config (mode : string) : ProcessingConfig :=
  if String.eqb mode "conservative" then conservative
  else if String.eqb mode "aggressive" then aggressive
  else balanced.

Definition create_custom_processor (mode : string) : t :=
  let config := get_processing_config mode in
  let processor := __init__ (cfg_max_passes config) in
  {| max_passes := max_passes processor;
     convergence_threshold := cfg_convergence_threshold config;
     min_quality_threshold := cfg_min_quality_threshold config |}.

End MultiPassProcessor.

(* ================================================================== *)
(** * Reference collaborators *)
(* ================================================================== *)

(** A run time for text in the Latin-1 range, used to evaluate the
    analyzer on concrete texts.  The theorems below hold for every
    [PyLib]; only the worked examples use this one. *)
Module Latin1.

Definition in_range (lo hi c : N) : bool := ((lo <=? c) && (c <=? hi))%N.

Definition lower_char (c : char) : char :=
  if in_range 65 90 c then (c + 32)%N
  else if in_range 192 222 c && negb (c =? 215)%N then (c + 32)%N
  else c.

Definition is_word (c : char) : bool :=
  in_range 48 57 c || in_range 65 90 c || in_range 97 122 c || (c =? 95)%N
  || (c =? 170)%N || in_range 178 179 c || (c =? 181)%N
  || in_range 185 186 c || in_range 188 190 c
  || in_range 192 214 c || in_range 216 246 c || in_range 248 255 c.

(** The fragment of regular expressions that the analyzer's patterns
    use. *)
Inductive regex : Type :=
| Chars (s : str)
| Boundary
| Words (min : nat)
| Spaces (min : nat)
| Seq (r1 r2 : regex)
| Alt (r1 r2 : regex).

Definition char_matches (ignorecase : bool) (p c : char) : bool :=
  if ignorecase then (lower_char p =? lower_char c)%N else (p =? c)%N.

Definition is_word_at (c : option char) : bool :=
  match c with Some c => is_word c | None => false end.

(** A matcher threads the character before the position, the rest of
    the input and a continuation; it answers how much input is left
    after the first match in priority order. *)
Definition cont : Type := option char -> str -> option nat.

Fixpoint match_chars (ignorecase : bool) (p : str) (prev : option char)
    (s : str) (k : cont) : option nat :=
  match p, s with
  | [], _ => k prev s
  | _ :: _, [] => None
  | a :: p', c :: s' =>
      if char_matches ignorecase a c
      then match_chars ignorecase p' (Some c) s' k
      else None
  end.

Fixpoint match_class (cls : char -> bool) (min : nat) (prev : option char)
    (s : str) (k : cont) : option nat :=
  let stop := match min with O => k prev s | S _ => None end in
  match s with
  | [] => stop
  | c :: s' =>
      if cls c
      then match match_class cls (pred min) (Some c) s' k with
           | Some rest => Some rest
           | None => stop
           end
      else stop
  end.

Fixpoint run (r : regex) (ignorecase : bool) (prev : option char) (s : str)
    (k : cont) : option nat :=
  match r with
  | Chars p => match_chars ignorecase p prev s k
  | Boundary =>
      if xorb (is_word_at prev) (is_word_at (head s)) then k prev s else None
  | Words min => match_class is_word min prev s k
  | Spaces min => match_class is_space min prev s k
  | Seq r1 r2 => run r1 ignorecase prev s (fun prev' s' => run r2 ignorecase prev' s' k)
  | Alt r1 r2 =>
      match run r1 ignorecase prev s k with
      | Some rest => Some rest
      | None => run r2 ignorecase prev s k
      end
  end.

Definition match_here (r : regex) (ignorecase : bool) (prev : option char) (s : str)
  : option nat :=
  run r ignorecase prev s (fun _ s' => Some (length s')).

Fixpoint search_from (r : regex) (ignorecase : bool) (prev : option char) (s : str)
  : bool :=
  match match_here r ignorecase prev s with
  | Some _ => true
  | None =>
      match s with
      | [] => false
      | c :: s' => search_from r ignorecase (Some c) s'
      end
  end.

Fixpoint findall_from (r : regex) (ignorecase : bool) (prev : option char)
    (s : str) (skip : nat) : nat :=
  match s with
  | [] => 0
  | c :: s' =>
      match skip with
      | S k => findall_from r ignorecase (Some c) s' k
      | O =>
          match match_here r ignorecase prev s with
          | Some rest =>
              S (findall_from r ignorecase (Some c) s' (length s - rest - 1))
          | None => findall_from r ignorecase (Some c) s' 0
          end
      end
  end.

Definition one_of (alternatives : list string) : regex :=
  match List.map (fun a => Chars (lit a)) alternatives with
  | [] => Chars []
  | r :: rs => fold_left Alt rs r
  end.

Definition whole_word (r : regex) : regex := Seq Boundary (Seq r Boundary).

Definition auxiliaries : regex :=
  one_of ["fue"; "fueron"; "ha sido"; "han sido"; "será"; "serán"]%string.

(** The patterns of the analyzer, parsed. *)
Definition patterns : list (string * regex) :=
  [ ("\b(no obstante|sin embargo|por consiguiente|a pesar de que|dado que)\b",
     whole_word (one_of ["no obstante"; "sin embargo"; "por consiguiente";
                         "a pesar de que"; "dado que"]));
    ("\b(cuyo|cuya|cuyos|cuyas)\b",
     whole_word (one_of ["cuyo"; "cuya"; "cuyos"; "cuyas"]));
    ("\b(mediante|respecto a|con respecto a|en relación con)\b",
     whole_word (one_of ["mediante"; "respecto a"; "con respecto a";
                         "en relación con"]));
    ("\b(fue|fueron|ha sido|han sido|será|serán)\s+\w+ado\b",
     Seq Boundary (Seq auxiliaries (Seq (Spaces 1) (Seq (Words 1)
       (Seq (Chars (lit "ado")) Boundary)))));
    ("\b(fue|fueron|ha sido|han sido|será|serán)\s+\w+ido\b",
     Seq Boundary (Seq auxiliaries (Seq (Spaces 1) (Seq (Words 1)
       (Seq (Chars (lit "ido")) Boundary)))));
    ("\w{15,}", Words 15);
    ("\b\w*(ción|sión|idad|mente|ismo|ística)\b",
     Seq Boundary (Seq (Words 0)
       (Seq (one_of ["ción"; "sión"; "idad"; "mente"; "ismo"; "ística"]) Boundary)));
    ("\b(es|está|tiene|hace)\b",
     whole_word (one_of ["es"; "está"; "tiene"; "hace"]));
    ("\b(fue|estuvo|tuvo|hizo)\b",
     whole_word (one_of ["fue"; "estuvo"; "tuvo"; "hizo"]));
    ("\b(será|estará|tendrá|hará)\b",
     whole_word (one_of ["será"; "estará"; "tendrá"; "hará"])) ]%string.

Fixpoint compile (pattern : string) (table : list (string * regex)) : option regex :=
  match table with
  | [] => None
  | (p, r) :: table' => if String.eqb pattern p then Some r else compile pattern table'
  end.

Definition search (pattern : string) (ignorecase : bool) (s : str) : bool :=
  match compile pattern patterns with
  | Some r => search_from r ignorecase None s
  | None => false
  end.

Definition findall (pattern : string) (ignorecase : bool) (s : str) : nat :=
  match compile pattern patterns with
  | Some r => findall_from r ignorecase None s 0
  | None => 0
  end.

(** Square root of a non-negative rational, rounded down to six
    decimal places. *)
Definition sqrt6 (q : Q) : Q :=
  Z.sqrt (Qnum q * Zpos (Qden q) * 10 ^ 12) # (Qden q * 10 ^ 6).

Definition sample_stdev (l : list Q) : Q :=
  let n := of_nat (length l) in
  let m := sum l / n in
  sqrt6 (sum (List.map (fun x => (x - m) * (x - m)) l) / (n - 1)).

#[global] Instance runtime : PyLib :=
  {| re_search := search;
     re_findall := findall;
     lower := List.map lower_char;
     stdev := sample_stdev |}.

End Latin1.

(** A coordinator that replays a script: the n-th call returns the n-th
    step, with the step's improvement records created at fresh
    locations; a call beyond the script fails.  The clock ticks once
    per reading. *)
Module Scripted.
Import MultiPassProcessor.

Record Step : Type := {
  out_text : str;
  out_records : list (gmap string value);
  out_quality : option Q
}.

Definition next_loc (h : gmap loc (gmap string value)) : loc :=
  map_fold (fun l _ n => Nat.max (S l) n) 0%nat h.

Fixpoint allocate (h : gmap loc (gmap string value))
    (records : list (gmap string value))
  : gmap loc (gmap string value) * list loc :=
  match records with
  | [] => (h, [])
  | r :: records' =>
      let l := next_loc h in
      let '(h', ls) := allocate (<[l := r]> h) records' in
      (h', l :: ls)
  end.

Definition replay (script : list Step) (w : World) (text : str)
    (selected_agents : option (list string))
  : result Results * gmap loc (gmap string value) :=
  match nth_error script (length (calls w)) with
  | Some step =>
      let '(h, ls) := allocate (heap w) (out_records step) in
      (Ok {| r_corrected_text := Some (out_text step);
             r_improvements := Some ls;
             r_agent_results := Some ∅;
             r_final_validation := Some {| v_quality_score := out_quality step |};
             r_timestamp := None |}, h)
  | None => (Raise (PipelineFailure "the script has no further step"), heap w)
  end.

Definition environment (script : list Step) : Environment :=
  {| process_text := replay script; time := of_nat |}.

Definition initial_world : World :=
  {| heap := ∅; calls := []; clock := 0 |}.

End Scripted.

(** A coordinator that returns every text as it is, with no
    improvement and a fixed quality score. *)
Module Echo.
Import MultiPassProcessor.

Definition answer (quality : Q) (w : World) (text : str)
    (selected_agents : option (list string))
  : result Results * gmap loc (gmap string value) :=
  (Ok {| r_corrected_text := Some text;
         r_improvements := Some [];
         r_agent_results := Some ∅;
         r_final_validation := Some {| v_quality_score := Some quality |};
         r_timestamp := None |}, heap w).

Definition environment (quality : Q) : Environment :=
  {| process_text := answer quality; time := of_nat |}.

End Echo.

(* ================================================================== *)
(** * Worked inputs *)
(* ================================================================== *)

Module Examples.
Import QualityAnalyzer.

(** An assessment whose every score is 0.8. *)
Definition steady_quality : QualityMetrics :=
  {| readability_score := 0.8; sentence_complexity := 0.8;
     vocabulary_complexity := 0.8; structure_score := 0.8;
     clarity_score := 0.8; coherence_score := 0.8; precision_score := 0.8;
     grammar_accuracy := 0.8; style_consistency := 0.8;
     seo_optimization := 0.8; overall_quality := 0.8;
     confidence_level := 0.8; improvement_potential := 0.2 |}.

(** Three identical assessments in a row. *)
Definition steady_history : list QualityMetrics :=
  [steady_quality; steady_quality; steady_quality].

(** Indicators where only the plateau and the stability hold. *)
Definition plateau_only : ConvergenceAnalysis :=
  {| quality_plateau := true; minimal_improvement := false;
     high_quality_reached := false; stability_achieved := true;
     improvement_saturation := false |}.

(** A sentence of exactly twenty words, none of them a connective. *)
Definition twenty_words : str :=
  lit "a a a a a a a a a a a a a a a a a a a a".

(** A sentence of twenty-one words. *)
Definition twenty_one_words : str :=
  lit "a a a a a a a a a a a a a a a a a a a a a".

(** A result dictionary with no key. *)
Definition no_results : Results :=
  {| r_corrected_text := None; r_improvements := None;
     r_agent_results := None; r_final_validation := None;
     r_timestamp := None |}.

(** Eleven calls of the detector, on texts of one to eleven words. *)
Definition eleven_calls : list (str * Results) :=
  List.map (fun n => (lit "hola " ++ concat (repeat (lit "que ") n) ++ lit "tal.", no_results))
    (seq 0 11).

(** A short text. *)
Definition greeting : str := lit "hola que que tal".

(** A coordinator script of one step: the duplicated connective is
    removed, one improvement record is created and the quality is 0.5. *)
Definition one_step : list Scripted.Step :=
  [ {| Scripted.out_text := lit "hola que tal";
       Scripted.out_records :=
         [ {[ "agent"%string := MultiPassProcessor.VStr "grammar" ]} ];
       Scripted.out_quality := Some 0.5 |} ].

(** A processor that may run no pass. *)
Definition no_budget : MultiPassProcessor.t :=
  {| MultiPassProcessor.max_passes := 0;
     MultiPassProcessor.convergence_threshold := 0.05;
     MultiPassProcessor.min_quality_threshold := 0.85 |}.

(** A processor whose thresholds are outside the interval (0,1). *)
Definition odd_thresholds : MultiPassProcessor.t :=
  {| MultiPassProcessor.max_passes := 1;
     MultiPassProcessor.convergence_threshold := 5;
     MultiPassProcessor.min_quality_threshold := -1 |}.

(** The improvement record that the step of [one_step] creates. *)
Definition grammar_record : gmap string MultiPassProcessor.value :=
  {[ "agent"%string := MultiPassProcessor.VStr "grammar" ]}.

(** A pass that refers to the improvement record at location 0, and a
    world that holds this record. *)
Definition recorded_pass : MultiPassProcessor.RefinementPass :=
  {| MultiPassProcessor.pass_number := 1;
     MultiPassProcessor.input_text := greeting;
     MultiPassProcessor.output_text := lit "hola que tal";
     MultiPassProcessor.improvements := [0%nat];
     MultiPassProcessor.quality_score := 0.5;
     MultiPassProcessor.processing_time := 1;
     MultiPassProcessor.convergence_metrics :=
       {| MultiPassProcessor.text_similarity := 0.75;
          MultiPassProcessor.quality_improvement := 0.5;
          MultiPassProcessor.change_ratio := 0.25;
          MultiPassProcessor.changes_made := true |} |}.

Definition world_after_pass : MultiPassProcessor.World :=
  {| MultiPassProcessor.heap := {[ 0%nat := grammar_record ]};
     MultiPassProcessor.calls := [greeting];
     MultiPassProcessor.clock := 3 |}.

(** A coordinator script whose step answers an empty text with a text
    of one character. *)
Definition invented_text : list Scripted.Step :=
  [ {| Scripted.out_text := lit "x";
       Scripted.out_records := [];
       Scripted.out_quality := Some 0.5 |} ].

(** A coordinator script of two steps: the first removes the
    duplicated connective, the second finds nothing more to change. *)
Definition two_steps : list Scripted.Step :=
  [ {| Scripted.out_text := lit "hola que tal";
       Scripted.out_records :=
         [ {[ "agent"%string := MultiPassProcessor.VStr "grammar" ]} ];
       Scripted.out_quality := Some 0.5 |};
    {| Scripted.out_text := lit "hola que tal";
       Scripted.out_records := [];
       Scripted.out_quality := Some 0.51 |} ].

(** A second pass that lists the improvement record at location 0
    again. *)
Definition second_listing : MultiPassProcessor.RefinementPass :=
  {| MultiPassProcessor.pass_number := 2;
     MultiPassProcessor.input_text := lit "hola que tal";
     MultiPassProcessor.output_text := lit "hola, que tal";
     MultiPassProcessor.improvements := [0%nat];
     MultiPassProcessor.quality_score := 0.6;
     MultiPassProcessor.processing_time := 1;
     MultiPassProcessor.convergence_metrics :=
       {| MultiPassProcessor.text_similarity := 11 # 12;
          MultiPassProcessor.quality_improvement := 0.1;
          MultiPassProcessor.change_ratio := 1 # 12;
          MultiPassProcessor.changes_made := true |} |}.

End Examples.

(* ================================================================== *)
(** * Properties *)
(* ================================================================== *)

(** ** Arithmetic of the run-time conventions *)

Lemma Qleb_true (a b : Q) : Qleb a b = true <-> a <= b.
Proof. apply Qle_bool_iff. Qed.

Lemma Qleb_false (a b : Q) : Qleb a b = false <-> b < a.
Proof.
  unfold Qleb. split; intros Hab.
  - apply Qnot_le_lt. intros Hle. apply Qle_bool_iff in Hle. congruence.
  - destruct (Qle_bool a b) eqn:E; [|reflexivity].
    apply Qle_bool_iff in E. exfalso. apply (Qlt_not_le _ _ Hab E).
Qed.

Lemma Qltb_true (a b : Q) : Qltb a b = true <-> a < b.
Proof.
  unfold Qltb. rewrite negb_true_iff. apply Qleb_false.
Qed.

Lemma Qltb_false (a b : Q) : Qltb a b = false <-> b <= a.
Proof.
  unfold Qltb. rewrite negb_false_iff. apply Qleb_true.
Qed.

Lemma Qeqb_true (a b : Q) : Qeqb a b = true <-> a == b.
Proof. apply Qeq_bool_iff. Qed.

Lemma div_ok (a b : Q) : ~ b == 0 -> div a b = Ok (a / b).
Proof.
  intros Hb. unfold div. destruct (Qeqb b 0) eqn:E; [|reflexivity].
  apply Qeqb_true in E. contradiction.
Qed.

Lemma div_zero (a b : Q) : b == 0 -> div a b = Raise ZeroDivisionError.
Proof.
  intros Hb. unfold div. apply Qeqb_true in Hb. now rewrite Hb.
Qed.

Lemma of_nat_nonneg (n : nat) : 0 <= of_nat n.
Proof.
  unfold of_nat. change 0 with (inject_Z 0). rewrite <- Zle_Qle. lia.
Qed.

Lemma of_nat_pos (n : nat) : (0 < n)%nat -> 0 < of_nat n.
Proof.
  intros Hn. unfold of_nat. change 0 with (inject_Z 0). rewrite <- Zlt_Qlt. lia.
Qed.

Lemma of_nat_le (n m : nat) : (n <= m)%nat -> of_nat n <= of_nat m.
Proof.
  intros Hn. unfold of_nat. rewrite <- Zle_Qle. lia.
Qed.

Lemma Qdiv_nonneg (a b : Q) : 0 <= a -> 0 < b -> 0 <= a / b.
Proof.
  intros Ha Hb. apply Qle_shift_div_l; [exact Hb|]. lra.
Qed.

Lemma Qdiv_le_1 (a b : Q) : a <= b -> 0 < b -> a / b <= 1.
Proof.
  intros Ha Hb. apply Qle_shift_div_r; [exact Hb|]. lra.
Qed.

(** ** The stop conditions of the pass loop *)

Module MultiPassFacts.
Import MultiPassProcessor.

(** C1: after every pass the stop conditions are tried in the order
    maximum passes, quality threshold, convergence (from the second pass
    on), no changes; the first that holds stops the run with its reason,
    and when none holds the loop goes on with the pass's output text as
    the next input text. *)
Theorem stop_conditions_in_order `{Environment}
    (self : t) (selected_agents : option (list string))
    (pass_num : Z) (rest : list Z) (current_text : str) (previous_quality : Q)
    (passes : list RefinementPass) (w : World)
    (results : Results) (corrected_text : str) (metrics : ConvergenceMetrics) :
  let w1 := {| heap := heap w; calls := calls w; clock := S (clock w) |} in
  let quality := get_quality_score results in
  let current_pass :=
    {| pass_number := pass_num;
       input_text := current_text;
       output_text := corrected_text;
       improvements := default [] (r_improvements results);
       quality_score := quality;
       processing_time := time (S (clock w)) - time (clock w);
       convergence_metrics := metrics |} in
  let decision :=
    _should_continue_processing self current_pass previous_quality pass_num in
  let stopped := (Ok (passes ++ [current_pass]), after_pass w current_text selected_agents) in
  fst (process_text w1 current_text selected_agents) = Ok results ->
  get_corrected_text results = Ok corrected_text ->
  _calculate_convergence_metrics current_text corrected_text previous_quality quality
    = Ok metrics ->
  let outcome :=
    pass_loop self selected_agents (pass_num :: rest) current_text
      previous_quality passes w in
  ((max_passes self <= pass_num)%Z ->
     decision = (false, MaximumPasses (max_passes self)) /\ outcome = stopped)
  /\ ((pass_num < max_passes self)%Z ->
      min_quality_threshold self <= quality ->
      decision = (false, QualityThreshold quality) /\ outcome = stopped)
  /\ ((pass_num < max_passes self)%Z ->
      quality < min_quality_threshold self ->
      (1 < pass_num)%Z ->
      quality_improvement metrics < convergence_threshold self ->
      decision = (false, ConvergenceDetected (quality_improvement metrics))
      /\ outcome = stopped)
  /\ ((pass_num < max_passes self)%Z ->
      quality < min_quality_threshold self ->
      ((pass_num <= 1)%Z \/ convergence_threshold self <= quality_improvement metrics) ->
      changes_made metrics = false ->
      decision = (false, NoChanges) /\ outcome = stopped)
  /\ ((pass_num < max_passes self)%Z ->
      quality < min_quality_threshold self ->
      ((pass_num <= 1)%Z \/ convergence_threshold self <= quality_improvement metrics) ->
      changes_made metrics = true ->
      decision = (true, Continue)
      /\ outcome =
           pass_loop self selected_agents rest corrected_text quality
             (passes ++ [current_pass]) (after_pass w current_text selected_agents)).
Proof.
  intros w1 quality current_pass decision stopped Hcall Htext Hmetrics outcome.
  assert (Hstep : outcome =
    if negb (fst decision) then stopped
    else pass_loop self selected_agents rest corrected_text quality
           (passes ++ [current_pass]) (after_pass w current_text selected_agents)).
  { subst outcome. cbn [pass_loop]. unfold mbind at 1. cbn [time_time].
    unfold mbind at 1. unfold call_process_text. fold w1.
    destruct (process_text w1 current_text selected_agents) as [r h] eqn:E.
    cbn [fst] in Hcall. subst r. cbn [heap calls clock w1].
    unfold mbind at 1. cbn [time_time heap calls clock].
    unfold mbind at 1. unfold lift at 1. rewrite Htext.
    unfold mbind at 1. unfold lift at 1. fold quality. rewrite Hmetrics.
    fold current_pass. fold decision.
    assert (Hw : after_pass w current_text selected_agents =
                 {| heap := h; calls := calls w ++ [current_text];
                    clock := S (S (clock w)) |}).
    { unfold after_pass. fold w1. now rewrite E. }
    subst stopped. rewrite Hw.
    destruct decision as [should_continue reason]. cbn [fst].
    destruct should_continue; reflexivity. }
  assert (Hdec : decision =
    _should_continue_processing self current_pass previous_quality pass_num)
    by reflexivity.
  unfold _should_continue_processing in Hdec.
  cbn [quality_score convergence_metrics current_pass] in Hdec.
  assert (Hguard :
    (pass_num <= 1)%Z \/ convergence_threshold self <= quality_improvement metrics ->
    (1 <? pass_num)%Z
    && Qltb (quality_improvement metrics) (convergence_threshold self) = false).
  { intros [Hp|Hq].
    - apply Z.ltb_ge in Hp. now rewrite Hp.
    - apply Qltb_false in Hq. rewrite Hq. apply andb_false_r. }
  split; [|split; [|split; [|split]]].
  - intros Hmax. apply Z.leb_le in Hmax. rewrite Hmax in Hdec.
    now rewrite Hstep, Hdec.
  - intros Hmax Hquality. apply Z.leb_gt in Hmax. apply Qleb_true in Hquality.
    rewrite Hmax, Hquality in Hdec. now rewrite Hstep, Hdec.
  - intros Hmax Hquality Hsecond Hsmall.
    apply Z.leb_gt in Hmax. apply Qleb_false in Hquality.
    apply Z.ltb_lt in Hsecond. apply Qltb_true in Hsmall.
    rewrite Hmax, Hquality, Hsecond, Hsmall in Hdec. now rewrite Hstep, Hdec.
  - intros Hmax Hquality Hno Hsame.
    apply Z.leb_gt in Hmax. apply Qleb_false in Hquality.
    rewrite Hmax, Hquality, (Hguard Hno), Hsame in Hdec. now rewrite Hstep, Hdec.
  - intros Hmax Hquality Hno Hchanged.
    apply Z.leb_gt in Hmax. apply Qleb_false in Hquality.
    rewrite Hmax, Hquality, (Hguard Hno), Hchanged in Hdec. now rewrite Hstep, Hdec.
Qed.

Lemma stop_conditions_in_order_witness :
  exists (p : RefinementPass) (w' : World),
    _should_continue_processing (__init__ 1) p 0 1 = (false, MaximumPasses 1)
    /\ @pass_loop (Scripted.environment Examples.one_step) (__init__ 1) None [1%Z]
         Examples.greeting 0 [] Scripted.initial_world
       = (Ok ([] ++ [p]), w').
Proof.
  pose proof (fun results corrected_text metrics Hcall Htext Hmetrics =>
                proj1 (@stop_conditions_in_order
                         (Scripted.environment Examples.one_step) (__init__ 1)
                         None 1 [] Examples.greeting 0 [] Scripted.initial_world
                         results corrected_text metrics Hcall Htext Hmetrics))
    as Hchain.
  edestruct Hchain as [Hdecision Houtcome].
  - vm_compute. reflexivity.
  - vm_compute. reflexivity.
  - vm_compute. reflexivity.
  - cbn. lia.
  - do 2 eexists. split; [exact Hdecision | exact Houtcome].
Defined.

End MultiPassFacts.

(** ** The per-pass convergence metrics *)

Module ConvergenceMetricsFacts.
Import MultiPassProcessor.

Lemma str_eqb_eq (a b : str) : str_eqb a b = true <-> a = b.
Proof. unfold str_eqb. apply bool_decide_eq_true. Qed.

Lemma len_nonempty (s : str) : s <> [] -> (0 < len s)%Z.
Proof. destruct s; [congruence|]. intros _. unfold len. cbn [length]. lia. Qed.

Lemma of_int_nonzero (z : Z) : (0 < z)%Z -> ~ of_int z == 0.
Proof.
  intros Hz E. unfold of_int, Qeq in E. cbn in E. lia.
Qed.

(** With a non-empty input text the metrics are computed without an
    exception, and they are the documented ones. *)
Lemma convergence_metrics_nonempty_input
    (input_text output_text : str) (prev_quality curr_quality : Q) :
  input_text <> [] ->
  let delta := of_int (Z.abs (len output_text - len input_text)) in
  _calculate_convergence_metrics input_text output_text prev_quality curr_quality
  = Ok {| text_similarity := 1 - delta / of_int (len input_text);
          quality_improvement :=
            if Qltb 0 prev_quality then curr_quality - prev_quality else curr_quality;
          change_ratio :=
            if str_eqb input_text output_text then 0
            else Qmin 1 (delta / of_int (len input_text));
          changes_made := negb (str_eqb input_text output_text) |}.
Proof.
  intros Hin delta. unfold _calculate_convergence_metrics.
  pose proof (len_nonempty _ Hin) as Hlen.
  assert (Hpos : (0 <? len input_text)%Z = true) by now apply Z.ltb_lt.
  rewrite Hpos. fold delta.
  rewrite (div_ok delta _ (of_int_nonzero _ Hlen)). cbn [bind].
  destruct (str_eqb input_text output_text); reflexivity.
Qed.

(** An unchanged text never divides: the change ratio is 0. *)
Lemma convergence_metrics_unchanged (text : str) (prev_quality curr_quality : Q) :
  exists m,
    _calculate_convergence_metrics text text prev_quality curr_quality = Ok m
    /\ change_ratio m = 0 /\ changes_made m = false.
Proof.
  destruct text as [|c text].
  - eexists. split; [reflexivity|]. split; reflexivity.
  - eexists. split.
    + apply convergence_metrics_nonempty_input. congruence.
    + cbn [change_ratio changes_made].
      assert (E : str_eqb (c :: text) (c :: text) = true) by now apply str_eqb_eq.
      rewrite E. split; reflexivity.
Qed.

(** C2 (as the code behaves): an empty input text with a non-empty
    output text makes the change ratio divide by the length of the
    input, which is zero; the call raises [ZeroDivisionError], although
    the text similarity just above guards the same denominator. *)
Theorem convergence_metrics_raise_on_empty_input
    (output_text : str) (prev_quality curr_quality : Q) :
  output_text <> [] ->
  _calculate_convergence_metrics [] output_text prev_quality curr_quality
  = Raise ZeroDivisionError.
Proof.
  intros Hout. unfold _calculate_convergence_metrics.
  assert (E : str_eqb [] output_text = false).
  { destruct (str_eqb [] output_text) eqn:E; [|reflexivity].
    apply str_eqb_eq in E. congruence. }
  rewrite E. cbn [len length Z.of_nat Z.ltb Z.compare bind negb].
  rewrite div_zero; reflexivity.
Qed.

Lemma convergence_metrics_raise_on_empty_input_witness :
  _calculate_convergence_metrics [] (lit "x") 0 0 = Raise ZeroDivisionError.
Proof.
  apply (convergence_metrics_raise_on_empty_input (lit "x") 0 0).
  vm_compute. discriminate.
Defined.

End ConvergenceMetricsFacts.

(** ** The convergence decision *)

Module ConvergenceFacts.
Import QualityAnalyzer ConvergenceDetector.

Lemma rev_short {A : Type} (l : list A) :
  (length l < 2)%nat -> rev l = [] \/ exists x, rev l = [x].
Proof.
  destruct l as [|x [|y l]]; cbn [length]; intros Hl.
  - now left.
  - right. now exists x.
  - lia.
Qed.

Lemma rev_long {A : Type} (l : list A) :
  (2 <= length l)%nat ->
  exists current previous older, rev l = current :: previous :: older.
Proof.
  intros Hl. rewrite <- length_rev in Hl.
  destruct (rev l) as [|x [|y r]]; cbn [length] in Hl; try lia.
  now exists x, y, r.
Qed.

Lemma last_rev_head {A : Type} (l : list A) (x : A) (r : list A) :
  rev l = x :: r -> last l = Some x.
Proof.
  intros E. rewrite <- (rev_involutive l), E. cbn [rev].
  apply last_snoc.
Qed.

(** C3: the decision chain of [_determine_convergence_status], first
    match winning: excellent quality (0.95), then at least three
    indicators (0.8), then high quality with at least two indicators
    (0.85), then plateau with stability (0.75), else not converged
    (0.6); and with at least two history entries [detect_convergence]
    answers with exactly this chain applied to its five indicators and
    the latest assessment. *)
Theorem convergence_precedence_chain :
  (forall (analysis : ConvergenceAnalysis) (current : QualityMetrics),
     let q := overall_quality current in
     let n := indicator_count analysis in
     let status := _determine_convergence_status analysis current in
     (0.95 <= q ->
        status = (true, "Excellent quality achieved"%string, 0.95))
     /\ (q < 0.95 -> (3 <= n)%nat ->
         status = (true, "Multiple convergence indicators detected"%string, 0.8))
     /\ (q < 0.95 -> (n < 3)%nat -> 0.85 <= q -> (2 <= n)%nat ->
         status = (true, "High quality with convergence indicators"%string, 0.85))
     /\ (q < 0.95 -> (n < 3)%nat -> (q < 0.85 \/ (n < 2)%nat) ->
         quality_plateau analysis = true -> stability_achieved analysis = true ->
         status = (true, "Quality plateau with stability"%string, 0.75))
     /\ (q < 0.95 -> (n < 3)%nat -> (q < 0.85 \/ (n < 2)%nat) ->
         (quality_plateau analysis = false \/ stability_achieved analysis = false) ->
         status = (false, "Convergence not detected"%string, 0.6)))
  /\ (forall (quality_history : list QualityMetrics)
             (improvement_history : list ImprovementEntry),
        (2 <= length quality_history)%nat ->
        exists current previous analysis,
          let decision := detect_convergence quality_history improvement_history in
          last quality_history = Some current
          /\ analysis =
               {| quality_plateau := _detect_quality_plateau quality_history;
                  minimal_improvement :=
                    Qltb (overall_quality current - overall_quality previous) 0.02;
                  high_quality_reached := Qleb 0.85 (overall_quality current);
                  stability_achieved := _detect_stability quality_history;
                  improvement_saturation :=
                    _detect_improvement_saturation improvement_history |}
          /\ analysis_details decision = Some analysis
          /\ (converged decision, reason decision, confidence decision)
             = _determine_convergence_status analysis current).
Proof.
  split.
  - intros analysis current q n status.
    unfold status, _determine_convergence_status. fold q. fold n.
    change excellent_quality with 0.95. change high_quality with 0.85.
    repeat split.
    + intros Hq. apply Qleb_true in Hq. now rewrite Hq.
    + intros Hq Hn. apply Qleb_false in Hq. apply Nat.leb_le in Hn.
      now rewrite Hq, Hn.
    + intros Hq Hn Hh Hn2. apply Qleb_false in Hq. apply Nat.leb_gt in Hn.
      apply Qleb_true in Hh. apply Nat.leb_le in Hn2.
      now rewrite Hq, Hn, Hh, Hn2.
    + intros Hq Hn Hor Hp Hs. apply Qleb_false in Hq. apply Nat.leb_gt in Hn.
      rewrite Hq, Hn, Hp, Hs.
      destruct Hor as [Hh|Hn2].
      * apply Qleb_false in Hh. now rewrite Hh.
      * apply Nat.leb_gt in Hn2. rewrite Hn2. now rewrite andb_false_r.
    + intros Hq Hn Hor Hps. apply Qleb_false in Hq. apply Nat.leb_gt in Hn.
      rewrite Hq, Hn.
      assert (Hc : Qleb 0.85 q && (2 <=? n)%nat = false).
      { destruct Hor as [Hh|Hn2].
        - apply Qleb_false in Hh. now rewrite Hh.
        - apply Nat.leb_gt in Hn2. rewrite Hn2. apply andb_false_r. }
      rewrite Hc.
      destruct Hps as [Hp|Hs]; [rewrite Hp | rewrite Hs, andb_false_r]; reflexivity.
  - intros quality_history improvement_history Hlen.
    destruct (rev_long _ Hlen) as (current & previous & older & Hrev).
    exists current, previous. eexists. cbv zeta.
    split; [exact (last_rev_head _ _ _ Hrev)|].
    split; [reflexivity|].
    unfold detect_convergence. rewrite Hrev.
    change minimal_improvement_threshold with 0.02.
    change high_quality with 0.85.
    match goal with
    | |- context [_determine_convergence_status ?a ?c] =>
        destruct (_determine_convergence_status a c) as [[cv rs] cf] eqn:E
    end.
    cbn [analysis_details converged reason confidence].
    split; reflexivity.
Qed.

Lemma convergence_precedence_chain_witness :
  _determine_convergence_status Examples.plateau_only Examples.steady_quality
  = (true, "Quality plateau with stability"%string, 0.75)
  /\ exists current previous analysis,
       last Examples.steady_history = Some current
       /\ analysis =
            {| quality_plateau := _detect_quality_plateau Examples.steady_history;
               minimal_improvement :=
                 Qltb (overall_quality current - overall_quality previous) 0.02;
               high_quality_reached := Qleb 0.85 (overall_quality current);
               stability_achieved := _detect_stability Examples.steady_history;
               improvement_saturation := _detect_improvement_saturation [] |}
       /\ analysis_details (detect_convergence Examples.steady_history [])
          = Some analysis
       /\ (converged (detect_convergence Examples.steady_history []),
           reason (detect_convergence Examples.steady_history []),
           confidence (detect_convergence Examples.steady_history []))
          = _determine_convergence_status analysis current.
Proof.
  split.
  - apply (proj1 convergence_precedence_chain
             Examples.plateau_only Examples.steady_quality).
    + vm_compute. reflexivity.
    + vm_compute. lia.
    + left. vm_compute. reflexivity.
    + reflexivity.
    + reflexivity.
  - apply (proj2 convergence_precedence_chain Examples.steady_history []).
    vm_compute. lia.
Defined.

Lemma last_two_of_rev {A : Type} (l : list A) (x y : A) (older : list A) :
  rev l = x :: y :: older -> last_n 2 l = [y; x].
Proof.
  intros E. rewrite <- (rev_involutive l), E. cbn [rev].
  rewrite <- app_assoc. cbn [app]. unfold last_n.
  rewrite length_app. cbn [length].
  replace (length (rev older) + 2 - 2)%nat with (length (rev older) + 0)%nat by lia.
  rewrite drop_app_add. reflexivity.
Qed.

Lemma stability_gives_minimal_improvement
    (quality_history : list QualityMetrics) (current previous : QualityMetrics)
    (older : list QualityMetrics) :
  rev quality_history = current :: previous :: older ->
  _detect_stability quality_history = true ->
  Qltb (overall_quality current - overall_quality previous) 0.02 = true.
Proof.
  intros Erev Hst. unfold _detect_stability in Hst.
  rewrite (last_two_of_rev _ _ _ _ Erev) in Hst.
  destruct (length quality_history <? 2)%nat; [discriminate|].
  cbn [List.map] in Hst. apply Qltb_true in Hst. apply Qltb_true.
  change stability_threshold with 0.01 in Hst.
  pose proof (Qle_Qabs (overall_quality current - overall_quality previous)) as Habs.
  lra.
Qed.

(** X16: the plateau rule never decides, whatever the histories: the
    reason of a decision is never [Quality plateau with stability].
    Whenever the stability indicator holds, so does the minimal
    improvement, and plateau, stability and minimal improvement
    together satisfy the second rule. *)
Lemma plateau_rule_is_shadowed
    (quality_history : list QualityMetrics)
    (improvement_history : list ImprovementEntry) :
  String.eqb (reason (detect_convergence quality_history improvement_history))
    "Quality plateau with stability" = false.
Proof.
  unfold detect_convergence.
  destruct (rev quality_history) as [|current [|previous older]] eqn:Erev;
    [reflexivity | reflexivity |].
  change minimal_improvement_threshold with 0.02.
  unfold _determine_convergence_status.
  destruct (Qleb excellent_quality (overall_quality current)); [reflexivity|].
  cbn [quality_plateau stability_achieved].
  destruct (_detect_stability quality_history) eqn:Hst.
  - rewrite (stability_gives_minimal_improvement _ _ _ _ Erev Hst).
    unfold indicator_count.
    cbn [quality_plateau minimal_improvement high_quality_reached
         stability_achieved improvement_saturation].
    destruct (_detect_quality_plateau quality_history).
    + cbn [Nat.b2n].
      destruct (Qleb high_quality (overall_quality current)),
               (_detect_improvement_saturation improvement_history); reflexivity.
    + cbn [andb].
      destruct (3 <=? _)%nat; [reflexivity|].
      destruct (_ && _); reflexivity.
  - rewrite andb_false_r.
    destruct (3 <=? _)%nat; [reflexivity|].
    destruct (_ && _); reflexivity.
Qed.

(** Three identical assessments of quality 0.8: the plateau, the
    stability and the minimal improvement hold together, so the second
    rule answers before the plateau rule is reached. *)
Example steady_history_decision :
  converged (detect_convergence Examples.steady_history []) = true
  /\ reason (detect_convergence Examples.steady_history [])
     = "Multiple convergence indicators detected"%string
  /\ confidence (detect_convergence Examples.steady_history []) = 0.8
  /\ recommendation (detect_convergence Examples.steady_history [])
     = "stop_convergence"%string.
Proof. repeat split; vm_compute; reflexivity. Qed.

(** C9: with fewer than two history entries, in particular right after
    construction and after a reset, the decision is the short answer:
    not converged, reason [Insufficient history], confidence 0,
    recommendation [continue], and nothing else. *)
Theorem insufficient_history_decision :
  let short_answer :=
    {| converged := false;
       reason := "Insufficient history";
       confidence := 0;
       recommendation := "continue";
       current_quality := None;
       improvement_rate := None;
       analysis_details := None |} in
  (forall self : ConvergenceDetector.t,
     (length (quality_history self) < 2)%nat ->
     check_convergence self = short_answer)
  /\ check_convergence __init__ = short_answer
  /\ (forall self : ConvergenceDetector.t,
        check_convergence (reset_history self) = short_answer).
Proof.
  intros short_answer. split; [|split].
  - intros self Hlen. unfold check_convergence, detect_convergence.
    destruct (rev_short _ Hlen) as [E|[x E]]; rewrite E; reflexivity.
  - reflexivity.
  - intros self. reflexivity.
Qed.

Lemma insufficient_history_decision_witness :
  check_convergence
    {| quality_history := [Examples.steady_quality]; improvement_history := [] |}
  = {| converged := false;
       reason := "Insufficient history";
       confidence := 0;
       recommendation := "continue";
       current_quality := None;
       improvement_rate := None;
       analysis_details := None |}.
Proof.
  apply (proj1 insufficient_history_decision).
  cbn [quality_history length]. lia.
Defined.

End ConvergenceFacts.

(** ** The quality assessment *)

Module QualityFacts.
Import QualityAnalyzer.

Lemma of_nat_S (n : nat) : of_nat (S n) == of_nat n + 1.
Proof.
  unfold of_nat. rewrite Nat2Z.inj_succ, <- Z.add_1_r, inject_Z_plus. reflexivity.
Qed.

Lemma of_nat_nonzero (n : nat) : (0 < n)%nat -> ~ of_nat n == 0.
Proof.
  intros Hn E. pose proof (of_nat_pos n Hn) as Hp. rewrite E in Hp.
  apply (Qlt_irrefl 0 Hp).
Qed.

Lemma nonempty_length {A : Type} (l : list A) : nonempty l = true -> (0 < length l)%nat.
Proof. destruct l; cbn; [discriminate | lia]. Qed.

Lemma nonempty_true {A : Type} (l : list A) : l <> [] -> nonempty l = true.
Proof. destruct l; [congruence | reflexivity]. Qed.

Lemma mean_ok (l : list Q) :
  l <> [] -> mean l = Ok (sum l / of_nat (length l)).
Proof. destruct l; [congruence | reflexivity]. Qed.

Lemma sum_bounds (a b : Q) (l : list Q) :
  Forall (fun x => a <= x /\ x <= b) l ->
  of_nat (length l) * a <= sum l /\ sum l <= of_nat (length l) * b.
Proof.
  induction 1 as [|x l [Hax Hxb] _ [IHa IHb]].
  - split; [change (0 * a <= 0) | change (0 <= 0 * b)]; lra.
  - cbn [length sum fold_right]. fold (sum l). rewrite of_nat_S. split; lra.
Qed.

Lemma mean_bounds (a b : Q) (l : list Q) :
  l <> [] ->
  Forall (fun x => a <= x /\ x <= b) l ->
  exists m, mean l = Ok m /\ a <= m /\ m <= b.
Proof.
  intros Hne Hall. exists (sum l / of_nat (length l)).
  split; [now apply mean_ok|].
  destruct (sum_bounds a b l Hall) as [Ha Hb].
  assert (Hpos : 0 < of_nat (length l)).
  { apply of_nat_pos. destruct l; [congruence | cbn; lia]. }
  split.
  - apply Qle_shift_div_l; [exact Hpos|]. lra.
  - apply Qle_shift_div_r; [exact Hpos|]. lra.
Qed.

Lemma Qmax_lower_l (a b : Q) : a <= Qmax a b.
Proof. apply Q.le_max_l. Qed.

Lemma Qmax_upper (a b c : Q) : a <= c -> b <= c -> Qmax a b <= c.
Proof. apply Q.max_lub. Qed.

Lemma Qmin_upper_l (a b : Q) : Qmin a b <= a.
Proof. apply Q.le_min_l. Qed.

Lemma Qmin_lower (a b c : Q) : c <= a -> c <= b -> c <= Qmin a b.
Proof. apply Q.min_glb. Qed.

Lemma Qmax_1_nonzero (x : Q) : ~ Qmax 1 x == 0.
Proof.
  intros E. pose proof (Qmax_lower_l 1 x) as Hl. rewrite E in Hl.
  apply (Qlt_not_le 0 1); [reflexivity | exact Hl].
Qed.

Lemma Qmax_1_pos (x : Q) : 0 < Qmax 1 x.
Proof.
  apply Qlt_le_trans with 1; [reflexivity | apply Qmax_lower_l].
Qed.

Section WithPyLib.
Context `{PyLib}.

(** *** Every sub-analysis returns *)

Lemma readability_ok (text : str) (sentences words : list str) :
  sentences <> [] -> words <> [] ->
  exists r, _calculate_readability text sentences words = Ok r /\ 0 <= r /\ r <= 1.
Proof.
  intros Hs Hw. unfold _calculate_readability.
  rewrite (nonempty_true _ Hs), (nonempty_true _ Hw). cbn [negb orb andb].
  rewrite div_ok by (apply of_nat_nonzero, nonempty_length, nonempty_true, Hs).
  cbn [bind].
  rewrite div_ok by (apply of_nat_nonzero, nonempty_length, nonempty_true, Hw).
  cbn [bind]. eexists. split; [reflexivity|].
  split.
  - apply Qdiv_nonneg; [apply Qmax_lower_l | reflexivity].
  - apply Qle_shift_div_r; [reflexivity|].
    apply Qmax_upper; [discriminate|].
    eapply Qle_trans; [apply Qmin_upper_l|]. discriminate.
Qed.

Lemma sentence_complexity_ok (sentences : list str) :
  exists c, _analyze_sentence_complexity sentences = Ok c.
Proof.
  destruct sentences as [|s sentences]; [now exists 1|].
  eexists. reflexivity.
Qed.

Lemma vocabulary_complexity_ok (words : list str) :
  exists v, _analyze_vocabulary_complexity words = Ok v.
Proof.
  destruct words as [|w words]; [now exists 1|].
  unfold _analyze_vocabulary_complexity.
  rewrite div_ok by (apply of_nat_nonzero; cbn; lia).
  eexists. reflexivity.
Qed.

Lemma text_structure_ok (text : str) (sentences : list str) :
  exists s, _analyze_text_structure text sentences = Ok s /\ 0 <= s /\ s <= 1.
Proof.
  unfold _analyze_text_structure.
  set (paragraphs := List.map strip _).
  set (variety := Qltb _ _).
  destruct (1 <? length paragraphs)%nat eqn:Ep.
  - apply Nat.ltb_lt in Ep.
    rewrite div_ok by (apply of_nat_nonzero; lia). cbn [bind].
    eexists. split; [reflexivity|].
    split; [|apply Qmin_upper_l].
    apply Qmin_lower; [discriminate|].
    destruct (_ && _), variety; discriminate.
  - cbn [bind]. eexists. split; [reflexivity|].
    split; [|apply Qmin_upper_l].
    apply Qmin_lower; [discriminate|].
    destruct variety; discriminate.
Qed.

Lemma clarity_score_ok (text : str) (sentences : list str) :
  sentences <> [] ->
  exists c, _calculate_clarity_score text sentences = Ok c /\ 0 <= c /\ c <= 1.
Proof.
  intros Hs. unfold _calculate_clarity_score.
  set (passive_count := fold_left _ passive_voice 0%nat).
  set (flow_count := length (List.filter _ flow_indicators)).
  assert (Hlen : (0 < length sentences)%nat)
    by (apply nonempty_length, nonempty_true, Hs).
  destruct sentences as [|s0 sentences]; [congruence|].
  set (all := s0 :: sentences) in *.
  rewrite div_ok by (now apply of_nat_nonzero). cbn [bind].
  set (passive_ratio := of_nat passive_count / of_nat (length all)).
  assert (Hratio : 0 <= passive_ratio).
  { apply Qdiv_nonneg; [apply of_nat_nonneg | now apply of_nat_pos]. }
  set (active := Qmax 0.5 (1 - passive_ratio)).
  assert (Hactive : 0 <= active /\ active <= 1).
  { split.
    - eapply Qle_trans; [|apply Qmax_lower_l]. discriminate.
    - apply Qmax_upper; [discriminate | lra]. }
  unfold all at 1. cbn [List.map]. fold all.
  cbn [mean bind].
  rewrite (mean_ok (List.map _ all)) by (unfold all; discriminate). cbn [bind].
  set (length_score := if _ && _ then 1 else 0.7).
  assert (Hls : 0 <= length_score /\ length_score <= 1).
  { unfold length_score. destruct (_ && _); split; discriminate. }
  rewrite div_ok by apply Qmax_1_nonzero. cbn [bind].
  set (flow_ratio := of_nat flow_count / _).
  assert (Hflow : 0 <= Qmin 1 flow_ratio /\ Qmin 1 flow_ratio <= 1).
  { split; [|apply Qmin_upper_l].
    apply Qmin_lower; [discriminate|].
    apply Qdiv_nonneg; [apply of_nat_nonneg | apply Qmax_1_pos]. }
  cbn [app].
  apply mean_bounds; [discriminate|].
  repeat constructor; tauto.
Qed.

Lemma remove_dups_nonempty {A : Type} `{EqDecision A} (l : list A) :
  l <> [] -> (0 < length (remove_dups l))%nat.
Proof.
  destruct l as [|x l]; [congruence|]. intros _.
  assert (Hx : x ∈ remove_dups (x :: l)) by (apply elem_of_remove_dups; left).
  destruct (remove_dups (x :: l)); [inversion Hx | cbn; lia].
Qed.

Lemma coherence_score_ok (sentences : list str) :
  exists c, _calculate_coherence_score sentences = Ok c /\ 0 <= c /\ c <= 1.
Proof.
  unfold _calculate_coherence_score.
  destruct (length sentences <? 2)%nat.
  { exists 1. split; [reflexivity|]. split; discriminate. }
  set (all_words := flat_map _ sentences). clearbody all_words.
  destruct all_words as [|w ws].
  - cbn [bind]. eexists. split; [reflexivity|].
    split; [|apply Qmin_upper_l]. apply Qmin_lower; discriminate.
  - assert (Hd : (0 < distinct (w :: ws))%nat)
      by (apply remove_dups_nonempty; discriminate).
    rewrite div_ok by (now apply of_nat_nonzero). cbn [bind].
    eexists. split; [reflexivity|].
    split; [|apply Qmin_upper_l].
    apply Qmin_lower; [discriminate|].
    set (ratio := _ / _).
    assert (Hr : 0 <= Qmin 1 ratio).
    { apply Qmin_lower; [discriminate|].
      apply Qdiv_nonneg; [apply of_nat_nonneg | now apply of_nat_pos]. }
    lra.
Qed.

Lemma precision_score_ok (text : str) (words : list str) :
  words <> [] -> exists p, _calculate_precision_score text words = Ok p.
Proof.
  intros Hw. unfold _calculate_precision_score.
  rewrite div_ok
    by (apply of_nat_nonzero, nonempty_length, nonempty_true, Hw).
  eexists. reflexivity.
Qed.

Lemma grammar_accuracy_ok (text : str) (context : option Results) :
  exists g, _estimate_grammar_accuracy text context = Ok g /\ 0 <= g /\ g <= 1.
Proof.
  unfold _estimate_grammar_accuracy.
  destruct (context_agent_results context) as [agent_results|].
  - destruct (default [] _) as [|c cs].
    + exists 0.95. split; [reflexivity|]. split; discriminate.
    + rewrite div_ok by apply Qmax_1_nonzero. cbn [bind].
      eexists. split; [reflexivity|]. split.
      * eapply Qle_trans; [|apply Qmax_lower_l]. discriminate.
      * apply Qmax_upper; [discriminate|].
        set (density := _ / _).
        assert (Hd : 0 <= density).
        { apply Qdiv_nonneg; [apply of_nat_nonneg | apply Qmax_1_pos]. }
        lra.
  - exists 0.8. split; [reflexivity|]. split; discriminate.
Qed.

Lemma style_consistency_ok (sentences : list str) :
  exists s, _analyze_style_consistency sentences = Ok s.
Proof.
  unfold _analyze_style_consistency.
  destruct (length sentences <? 2)%nat eqn:El; [now exists 1|].
  apply Nat.ltb_ge in El.
  destruct sentences as [|s0 sentences]; [cbn in El; lia|].
  cbn [List.map mean bind].
  set (mean_length := _ / _).
  destruct (Qltb 0 mean_length) eqn:Em.
  - apply Qltb_true in Em.
    rewrite div_ok by (intros E; rewrite E in Em; apply (Qlt_irrefl 0 Em)).
    cbn [bind].
    destruct (0 <? _)%nat eqn:Et.
    + apply Nat.ltb_lt in Et. rewrite div_ok by (now apply of_nat_nonzero).
      eexists. reflexivity.
    + eexists. reflexivity.
  - cbn [bind].
    destruct (0 <? _)%nat eqn:Et.
    + apply Nat.ltb_lt in Et. rewrite div_ok by (now apply of_nat_nonzero).
      eexists. reflexivity.
    + eexists. reflexivity.
Qed.

Lemma overall_quality_ok (r c g s co : Q) :
  exists q,
    _calculate_overall_quality
      [ ("readability", r); ("clarity", c); ("grammar", g);
        ("structure", s); ("coherence", co) ]%string = Ok q
    /\ q == 0.25 * r + 0.25 * c + 0.20 * g + 0.15 * s + 0.15 * co.
Proof.
  unfold _calculate_overall_quality. cbn [fold_left weight_of weights String.eqb
    Ascii.eqb Bool.eqb].
  set (total := 0 + 0.25 + 0.25 + 0.20 + 0.15 + 0.15).
  assert (Ht : total == 1) by reflexivity.
  assert (Hlt : Qltb 0 total = true) by reflexivity.
  rewrite Hlt.
  rewrite div_ok by (rewrite Ht; discriminate).
  eexists. split; [reflexivity|].
  rewrite Ht. field.
Qed.

(** *** Degenerate segmentation *)

Lemma guard_degenerate (text : str) (context : option Results) :
  _extract_sentences text = [] \/ split text = [] ->
  analyze_comprehensive_quality text context = Ok zero_metrics.
Proof.
  intros Hd. unfold analyze_comprehensive_quality.
  destruct Hd as [E|E]; rewrite E; cbn [nonempty negb orb]; [reflexivity|].
  now rewrite orb_true_r.
Qed.

Lemma lstrip_spaces (s : str) :
  Forall (fun c => is_space c = true) s -> lstrip s = [].
Proof.
  induction 1 as [|c s Hc _ IH]; [reflexivity|].
  cbn [lstrip]. now rewrite Hc.
Qed.

Lemma strip_spaces (s : str) :
  Forall (fun c => is_space c = true) s -> strip s = [].
Proof.
  intros Hs. unfold strip. now rewrite (lstrip_spaces s Hs).
Qed.

Lemma split_ws_spaces (s : str) :
  Forall (fun c => is_space c = true) s -> split_ws s [] = [].
Proof.
  induction 1 as [|c s Hc _ IH]; [reflexivity|].
  cbn [split_ws]. now rewrite Hc.
Qed.

Lemma pieces_of_blank_text (s cur : str) (in_run : bool) :
  Forall (fun c => is_space c = true \/ is_terminator c = true) s ->
  Forall (fun c => is_space c = true) cur ->
  Forall (fun piece => strip piece = []) (re_split_terminators s cur in_run).
Proof.
  intros Hs. revert cur in_run.
  induction Hs as [|c s Hc _ IH]; intros cur in_run Hcur.
  - cbn [re_split_terminators]. constructor; [|constructor].
    apply strip_spaces. apply Forall_rev. exact Hcur.
  - cbn [re_split_terminators].
    destruct (is_terminator c) eqn:Et.
    + destruct in_run.
      * apply IH. constructor.
      * constructor; [|apply IH; constructor].
        apply strip_spaces. apply Forall_rev. exact Hcur.
    + apply IH. constructor; [|exact Hcur].
      destruct Hc as [Hc|Hc]; [exact Hc | congruence].
Qed.

Lemma filter_none {A : Type} (f : A -> bool) (l : list A) :
  Forall (fun x => f x = false) l -> List.filter f l = [].
Proof.
  induction 1 as [|x l Hx _ IH]; [reflexivity|].
  cbn [List.filter]. now rewrite Hx.
Qed.

Lemma no_sentences_in_blank_text (text : str) :
  Forall (fun c => is_space c = true \/ is_terminator c = true) text ->
  _extract_sentences text = [].
Proof.
  intros Ht. unfold _extract_sentences.
  rewrite filter_none; [reflexivity|].
  eapply Forall_impl; [apply (pieces_of_blank_text text [] false Ht); constructor|].
  intros piece E. cbn beta in E |- *. now rewrite E.
Qed.

(** C10: the all-zero assessment is returned, without an exception,
    whenever the text segments to no sentence or to no word, not only
    for the empty string: for every text made of white space only, of
    terminal punctuation only, or of both. *)
Theorem degenerate_segmentation_yields_zero :
  (forall (text : str) (context : option Results),
     _extract_sentences text = [] \/ split text = [] ->
     analyze_comprehensive_quality text context = Ok zero_metrics)
  /\ (forall (text : str) (context : option Results),
       Forall (fun c => is_space c = true) text ->
       split text = []
       /\ analyze_comprehensive_quality text context
          = analyze_comprehensive_quality [] context)
  /\ (forall (text : str) (context : option Results),
       Forall (fun c => is_space c = true \/ is_terminator c = true) text ->
       _extract_sentences text = []
       /\ analyze_comprehensive_quality text context
          = analyze_comprehensive_quality [] context)
  /\ (forall context : option Results,
       analyze_comprehensive_quality [] context = Ok zero_metrics).
Proof.
  split; [exact guard_degenerate|].
  split; [|split].
  - intros text context Hs.
    pose proof (split_ws_spaces text Hs) as E. fold (split text) in E.
    split; [exact E|].
    rewrite (guard_degenerate text context) by now right.
    reflexivity.
  - intros text context Hb.
    pose proof (no_sentences_in_blank_text text Hb) as E.
    split; [exact E|].
    rewrite (guard_degenerate text context) by now left.
    reflexivity.
  - intros context. reflexivity.
Qed.

(** *** Overall quality *)

(** The assessment of any text returns, and its overall quality is the
    weighted combination of its sub-scores, between 0 and 1. *)
Lemma assessment_ok (text : str) (context : option Results) :
  exists m,
    analyze_comprehensive_quality text context = Ok m
    /\ overall_quality m ==
         0.25 * readability_score m + 0.25 * clarity_score m
         + 0.20 * grammar_accuracy m + 0.15 * structure_score m
         + 0.15 * coherence_score m
    /\ 0 <= overall_quality m /\ overall_quality m <= 1.
Proof.
  unfold analyze_comprehensive_quality.
  destruct (_extract_sentences text) as [|s0 sentences] eqn:Es.
  { exists zero_metrics. split; [reflexivity|]. split; [reflexivity|].
    split; discriminate. }
  destruct (split text) as [|w0 words] eqn:Ew.
  { exists zero_metrics. split; [reflexivity|]. split; [reflexivity|].
    split; discriminate. }
  cbn [nonempty negb orb].
  set (all_sentences := s0 :: sentences).
  set (all_words := w0 :: words).
  assert (Hs : all_sentences <> []) by discriminate.
  assert (Hw : all_words <> []) by discriminate.
  clearbody all_sentences all_words.
  destruct (readability_ok text all_sentences all_words Hs Hw) as (r & -> & Hr0 & Hr1).
  destruct (sentence_complexity_ok all_sentences) as (sc & ->).
  destruct (vocabulary_complexity_ok all_words) as (vc & ->).
  destruct (text_structure_ok text all_sentences) as (st & -> & Hst0 & Hst1).
  destruct (clarity_score_ok text all_sentences Hs) as (cl & -> & Hcl0 & Hcl1).
  destruct (coherence_score_ok all_sentences) as (co & -> & Hco0 & Hco1).
  destruct (precision_score_ok text all_words Hw) as (pr & ->).
  destruct (grammar_accuracy_ok text context) as (g & -> & Hg0 & Hg1).
  destruct (style_consistency_ok all_sentences) as (sy & ->).
  cbn [bind].
  destruct (overall_quality_ok r cl g st co) as (q & -> & Hq).
  cbn [bind]. eexists. split; [reflexivity|].
  cbn [overall_quality readability_score clarity_score grammar_accuracy
       structure_score coherence_score].
  split; [exact Hq|]. rewrite Hq. split; lra.
Qed.

(** C6: the assessment always returns; its overall quality is the
    weighted combination 0.25 readability + 0.25 clarity + 0.20 grammar
    + 0.15 structure + 0.15 coherence of its own sub-scores, lies
    between 0 and 1, and is 0 for the empty string, whose assessment is
    the all-zero record. *)
Theorem overall_quality_weighted_and_bounded
    (text : str) (context : option Results) :
  (exists m,
     analyze_comprehensive_quality text context = Ok m
     /\ overall_quality m ==
          0.25 * readability_score m + 0.25 * clarity_score m
          + 0.20 * grammar_accuracy m + 0.15 * structure_score m
          + 0.15 * coherence_score m
     /\ 0 <= overall_quality m /\ overall_quality m <= 1)
  /\ analyze_comprehensive_quality [] context = Ok zero_metrics
  /\ overall_quality zero_metrics = 0.
Proof.
  split; [apply assessment_ok | split; reflexivity].
Qed.

End WithPyLib.

Lemma degenerate_segmentation_yields_zero_witness :
  analyze_comprehensive_quality (lit "   ") None = Ok zero_metrics
  /\ (split (lit "   ") = []
      /\ analyze_comprehensive_quality (lit "   ") None
         = analyze_comprehensive_quality [] None)
  /\ (_extract_sentences (lit "...") = []
      /\ analyze_comprehensive_quality (lit "...") None
         = analyze_comprehensive_quality [] None).
Proof.
  split; [|split].
  - apply (proj1 degenerate_segmentation_yields_zero (lit "   ") None).
    right. vm_compute. reflexivity.
  - apply (proj1 (proj2 degenerate_segmentation_yields_zero) (lit "   ") None).
    vm_compute. repeat constructor.
  - apply (proj1 (proj2 (proj2 degenerate_segmentation_yields_zero)) (lit "...") None).
    vm_compute. repeat (constructor; [right; reflexivity|]). constructor.
Defined.

End QualityFacts.

(** ** Sentence complexity *)

Module SentenceComplexityFacts.
Import QualityAnalyzer.

Section WithPyLib.
Context `{PyLib}.

(** The number of complex-connective patterns that match a sentence. *)
Lemma pattern_penalty (sentence : str) (base : Q) :
  fold_left
    (fun complexity pattern =>
       if re_search pattern true sentence then complexity * 0.8 else complexity)
    complex_structures base
  == base * 0.8 ^ Z.of_nat
       (length (List.filter (fun pattern => re_search pattern true sentence)
                            complex_structures)).
Proof.
  unfold complex_structures. cbn [fold_left List.filter].
  repeat match goal with
         | |- context [re_search ?p true sentence] =>
             destruct (re_search p true sentence)
         end;
    cbn [length]; simpl Qpower; ring.
Qed.

(** C7 (as the code behaves): the score of a non-empty list of sentences
    is the mean of the per-sentence products; a sentence of more than 30
    words contributes 0.5, one of 21 to 30 words 0.7, one of fewer than
    5 words 0.8, one of 5 to 20 words no length penalty, and each
    matching complex-connective pattern a further 0.8. *)
Theorem sentence_complexity_is_mean_of_penalties (sentences : list str) :
  sentences <> [] ->
  (exists score,
     _analyze_sentence_complexity sentences = Ok score
     /\ score ==
          sum (List.map sentence_complexity_of sentences)
          / of_nat (length sentences))
  /\ (forall sentence : str,
        let n := word_count sentence in
        let connectives :=
          0.8 ^ Z.of_nat
            (length (List.filter (fun pattern => re_search pattern true sentence)
                                 complex_structures)) in
        ((30 < n)%nat -> sentence_complexity_of sentence == 0.5 * connectives)
        /\ ((21 <= n <= 30)%nat -> sentence_complexity_of sentence == 0.7 * connectives)
        /\ ((n < 5)%nat -> sentence_complexity_of sentence == 0.8 * connectives)
        /\ ((5 <= n <= 20)%nat -> sentence_complexity_of sentence == connectives)).
Proof.
  intros Hne. split.
  - destruct sentences as [|s sentences]; [congruence|].
    eexists. split; [reflexivity|].
    rewrite List.length_map. reflexivity.
  - intros sentence n connectives.
    unfold sentence_complexity_of. fold (word_count sentence). fold n.
    rewrite pattern_penalty. fold connectives.
    unfold length_complexity.
    repeat split.
    + intros Hn. apply Nat.ltb_lt in Hn. rewrite Hn. ring.
    + intros [Hlo Hhi].
      assert (E1 : (30 <? n)%nat = false) by (apply Nat.ltb_ge; lia).
      assert (E2 : (20 <? n)%nat = true) by (apply Nat.ltb_lt; lia).
      rewrite E1, E2. ring.
    + intros Hn.
      assert (E1 : (30 <? n)%nat = false) by (apply Nat.ltb_ge; lia).
      assert (E2 : (20 <? n)%nat = false) by (apply Nat.ltb_ge; lia).
      assert (E3 : (n <? 5)%nat = true) by (apply Nat.ltb_lt; lia).
      rewrite E1, E2, E3. ring.
    + intros [Hlo Hhi].
      assert (E1 : (30 <? n)%nat = false) by (apply Nat.ltb_ge; lia).
      assert (E2 : (20 <? n)%nat = false) by (apply Nat.ltb_ge; lia).
      assert (E3 : (n <? 5)%nat = false) by (apply Nat.ltb_ge; lia).
      rewrite E1, E2, E3. ring.
Qed.

End WithPyLib.

Lemma sentence_complexity_is_mean_of_penalties_witness :
  (exists score,
     _analyze_sentence_complexity [Examples.twenty_one_words] = Ok score
     /\ score ==
          sum (List.map sentence_complexity_of [Examples.twenty_one_words])
          / of_nat (length [Examples.twenty_one_words]))
  /\ sentence_complexity_of Examples.twenty_one_words
     == 0.7 * 0.8 ^ Z.of_nat
          (length (List.filter
                     (fun pattern => re_search pattern true Examples.twenty_one_words)
                     complex_structures)).
Proof.
  split.
  - apply (sentence_complexity_is_mean_of_penalties [Examples.twenty_one_words]).
    discriminate.
  - apply (proj2 (sentence_complexity_is_mean_of_penalties
                    [Examples.twenty_one_words] ltac:(discriminate))
             Examples.twenty_one_words).
    vm_compute. lia.
Defined.

(** A sentence of exactly twenty words and no connective scores 1, not
    0.7: the middle band starts above twenty words. *)
Lemma twenty_words_have_no_penalty :
  word_count Examples.twenty_words = 20%nat
  /\ List.filter (fun pattern => re_search pattern true Examples.twenty_words)
       complex_structures = []
  /\ exists score,
       _analyze_sentence_complexity [Examples.twenty_words] = Ok score
       /\ Qeqb score 1 = true
       /\ Qeqb score 0.7 = false.
Proof.
  split; [vm_compute; reflexivity|].
  split; [vm_compute; reflexivity|].
  eexists. split; [reflexivity|].
  split; vm_compute; reflexivity.
Qed.

End SentenceComplexityFacts.

(** ** The bounded history of the detector *)

Module DetectorFacts.
Import QualityAnalyzer ConvergenceDetector.

Lemma last_n_all {A : Type} (n : nat) (l : list A) :
  (length l <= n)%nat -> last_n n l = l.
Proof.
  intros Hl. unfold last_n. replace (length l - n)%nat with 0%nat by lia.
  reflexivity.
Qed.

Lemma last_n_length {A : Type} (n : nat) (l : list A) :
  length (last_n n l) = Nat.min n (length l).
Proof. unfold last_n. rewrite length_drop. lia. Qed.

Lemma last_n_window {A : Type} (n : nat) (l r : list A) :
  last_n n (last_n n l ++ r) = last_n n (l ++ r).
Proof.
  destruct (le_lt_dec (length l) n) as [Hle|Hgt].
  - now rewrite (last_n_all n l Hle).
  - unfold last_n. rewrite !length_app, length_drop.
    replace (length l - (length l - n) + length r - n)%nat with (length r) by lia.
    replace (length l + length r - n)%nat with ((length l - n) + length r)%nat by lia.
    rewrite <- (drop_drop (l ++ r) (length r) (length l - n)).
    rewrite (drop_app_le l r (length l - n)) by lia. reflexivity.
Qed.

Lemma last_n_pop {A : Type} (l : list A) (x : A) :
  (length l <= 10)%nat ->
  (if (10 <? length (l ++ [x]))%nat then pop_first (l ++ [x]) else l ++ [x])
  = last_n 10 (l ++ [x]).
Proof.
  intros Hl. rewrite length_app. cbn [length].
  destruct (10 <? length l + 1)%nat eqn:E.
  - apply Nat.ltb_lt in E. unfold last_n, pop_first. rewrite length_app. cbn [length].
    replace (length l + 1 - 10)%nat with 1%nat by lia.
    destruct l; reflexivity.
  - apply Nat.ltb_ge in E. rewrite last_n_all; [reflexivity|].
    rewrite length_app. cbn [length]. lia.
Qed.

Section WithPyLib.
Context `{PyLib}.

(** One call assesses the text, appends to both histories and keeps
    their last ten entries. *)
Lemma add_processing_result_ok (self : t) (text : str) (results : Results) :
  (length (quality_history self) <= 10)%nat ->
  length (improvement_history self) = length (quality_history self) ->
  exists m self',
    analyze_comprehensive_quality text (Some results) = Ok m
    /\ add_processing_result self text results = Ok self'
    /\ quality_history self' = last_n 10 (quality_history self ++ [m])
    /\ improvement_history self'
       = last_n 10 (improvement_history self ++
           [ {| e_improvements := default [] (r_improvements results);
                e_agent_results := default ∅ (r_agent_results results);
                e_timestamp := default 0 (r_timestamp results) |} ]).
Proof.
  intros Hq Hi.
  destruct (QualityFacts.assessment_ok text (Some results)) as (m & Hm & _).
  exists m. unfold add_processing_result. rewrite Hm. cbn [bind].
  set (entry := {| e_improvements := _ |}).
  pose proof (last_n_pop (quality_history self) m Hq) as Eq.
  assert (Hi' : (length (improvement_history self) <= 10)%nat) by lia.
  pose proof (last_n_pop (improvement_history self) entry Hi') as Ei.
  assert (Esame : (10 <? length (improvement_history self ++ [entry]))%nat
                  = (10 <? length (quality_history self ++ [m]))%nat).
  { rewrite !length_app. cbn [length]. now rewrite Hi. }
  rewrite Esame in Ei.
  destruct (10 <? length (quality_history self ++ [m]))%nat;
    eexists; (split; [reflexivity|]); (split; [reflexivity|]);
    cbn [quality_history improvement_history]; split; assumption.
Qed.

Lemma reachable_bounded (self : t) :
  reachable self ->
  (length (quality_history self) <= 10)%nat
  /\ length (improvement_history self) = length (quality_history self).
Proof.
  induction 1 as [|self text results self' _ [IHq IHi] Hadd|self _ _].
  - cbn. split; [lia | reflexivity].
  - destruct (add_processing_result_ok self text results IHq IHi)
      as (m & self'' & _ & Hadd' & Eq & Ei).
    rewrite Hadd in Hadd'. injection Hadd' as <-.
    rewrite Eq, Ei, !last_n_length, !length_app. cbn [length]. split; lia.
  - cbn. split; [lia | reflexivity].
Qed.

(** Any number of consecutive calls keeps the last ten assessments. *)
Lemma add_all_window (calls : list (str * Results)) :
  forall self : t,
    (length (quality_history self) <= 10)%nat ->
    length (improvement_history self) = length (quality_history self) ->
    exists assessments self',
      Forall2 (fun call m =>
                 analyze_comprehensive_quality (fst call) (Some (snd call)) = Ok m)
              calls assessments
      /\ add_all self calls = Ok self'
      /\ quality_history self' = last_n 10 (quality_history self ++ assessments)
      /\ length (improvement_history self') = length (quality_history self').
Proof.
  induction calls as [|[text results] calls IH]; intros self Hq Hi.
  - exists [], self. split; [constructor|]. split; [reflexivity|].
    rewrite app_nil_r, last_n_all by exact Hq. split; [reflexivity | exact Hi].
  - destruct (add_processing_result_ok self text results Hq Hi)
      as (m & self1 & Hm & Hadd & Eq & Ei).
    assert (Hq1 : (length (quality_history self1) <= 10)%nat).
    { rewrite Eq, last_n_length. lia. }
    assert (Hi1 : length (improvement_history self1) = length (quality_history self1)).
    { rewrite Eq, Ei, !last_n_length, !length_app. cbn [length]. lia. }
    destruct (IH self1 Hq1 Hi1) as (ms & self' & Hall & Hrest & Eq' & Ei').
    exists (m :: ms), self'. split; [constructor; assumption|].
    split.
    + cbn [add_all]. rewrite Hadd. exact Hrest.
    + split; [|exact Ei'].
      rewrite Eq', Eq, last_n_window, <- app_assoc. reflexivity.
Qed.

(** C4: the history of a detector never holds more than ten entries and
    the improvement history keeps the same length; a call on a full
    history drops the oldest entry and appends the new one; and after
    any eleven consecutive calls the quality history is the assessments
    of the last ten of them, in order, with ten improvement entries and
    [data_points] equal to 10. *)
Theorem history_keeps_ten_most_recent :
  (forall self : t,
     reachable self ->
     (length (quality_history self) <= 10)%nat
     /\ length (improvement_history self) = length (quality_history self))
  /\ (forall (self : t) (text : str) (results : Results),
        reachable self ->
        length (quality_history self) = 10%nat ->
        exists m self',
          analyze_comprehensive_quality text (Some results) = Ok m
          /\ add_processing_result self text results = Ok self'
          /\ quality_history self' = tail (quality_history self) ++ [m]
          /\ length (improvement_history self') = 10%nat)
  /\ (forall (self : t) (calls : list (str * Results)),
        reachable self ->
        length calls = 11%nat ->
        exists assessments self',
          Forall2 (fun call m =>
                     analyze_comprehensive_quality (fst call) (Some (snd call)) = Ok m)
                  calls assessments
          /\ add_all self calls = Ok self'
          /\ quality_history self' = drop 1 assessments
          /\ length (quality_history self') = 10%nat
          /\ length (improvement_history self') = 10%nat
          /\ data_points (get_quality_trend self') = Some 10%nat).
Proof.
  split; [exact reachable_bounded|]. split.
  - intros self text results Hr Hfull.
    destruct (reachable_bounded self Hr) as [Hq Hi].
    destruct (add_processing_result_ok self text results Hq Hi)
      as (m & self' & Hm & Hadd & Eq & Ei).
    exists m, self'. split; [exact Hm|]. split; [exact Hadd|]. split.
    + rewrite Eq. unfold last_n. rewrite length_app, Hfull. cbn [length Nat.add Nat.sub].
      destruct (quality_history self); [discriminate | reflexivity].
    + rewrite Ei, last_n_length, length_app, Hi, Hfull. reflexivity.
  - intros self calls Hr Hlen.
    destruct (reachable_bounded self Hr) as [Hq Hi].
    destruct (add_all_window calls self Hq Hi) as (ms & self' & Hall & Hadd & Eq & Ei).
    exists ms, self'. split; [exact Hall|]. split; [exact Hadd|].
    assert (Hms : length ms = 11%nat).
    { rewrite <- Hlen. symmetry. eapply Forall2_length. exact Hall. }
    assert (Ewin : quality_history self' = drop 1 ms).
    { rewrite Eq. unfold last_n. rewrite length_app, Hms.
      replace (length (quality_history self) + 11 - 10)%nat
        with (length (quality_history self) + 1)%nat by lia.
      rewrite drop_app_add. reflexivity. }
    assert (Eten : length (quality_history self') = 10%nat).
    { rewrite Ewin, length_drop, Hms. reflexivity. }
    split; [exact Ewin|]. split; [exact Eten|]. split; [now rewrite Ei|].
    unfold get_quality_trend. rewrite Eten. reflexivity.
Qed.

End WithPyLib.

Lemma history_keeps_ten_most_recent_witness :
  exists assessments self',
    Forall2 (fun call m =>
               analyze_comprehensive_quality (fst call) (Some (snd call)) = Ok m)
            Examples.eleven_calls assessments
    /\ add_all __init__ Examples.eleven_calls = Ok self'
    /\ quality_history self' = drop 1 assessments
    /\ length (quality_history self') = 10%nat
    /\ length (improvement_history self') = 10%nat
    /\ data_points (get_quality_trend self') = Some 10%nat.
Proof.
  apply (proj2 (proj2 history_keeps_ten_most_recent) __init__ Examples.eleven_calls).
  - apply reach_init.
  - reflexivity.
Defined.

End DetectorFacts.

(** ** Runs of the processor *)

Module RunFacts.
Import MultiPassProcessor.

Lemma range_empty (max_passes : Z) : (max_passes < 1)%Z -> range 1 (max_passes + 1) = [].
Proof.
  intros Hm. unfold range. replace (Z.to_nat (max_passes + 1 - 1)) with 0%nat by lia.
  reflexivity.
Qed.

Lemma range_first (max_passes : Z) :
  (1 <= max_passes)%Z -> exists rest, range 1 (max_passes + 1) = 1%Z :: rest.
Proof.
  intros Hm. unfold range.
  destruct (Z.to_nat (max_passes + 1 - 1)) as [|n] eqn:E; [lia|].
  cbn [seq List.map]. eexists. reflexivity.
Qed.

Section WithEnvironment.
Context `{Environment}.

Lemma compile_keeps_calls (self : t) (passes : list RefinementPass) (total_time : Q)
    (user_preferences : option (gmap string string)) (w : World) :
  calls (snd (_compile_multi_pass_results self passes total_time user_preferences w))
  = calls w
  /\ clock (snd (_compile_multi_pass_results self passes total_time user_preferences w))
     = clock w.
Proof.
  unfold _compile_multi_pass_results.
  destruct passes as [|p passes]; [split; reflexivity|].
  destruct (rev (p :: passes)); split; reflexivity.
Qed.

(** The loop only adds to the log of coordinator calls and to the list
    of passes. *)
Lemma pass_loop_extends (self : t) (selected_agents : option (list string))
    (pass_nums : list Z) :
  forall (current_text : str) (previous_quality : Q)
         (passes : list RefinementPass) (w : World),
    (exists later,
       calls (snd (pass_loop self selected_agents pass_nums current_text
                     previous_quality passes w)) = calls w ++ later)
    /\ (forall passes',
          fst (pass_loop self selected_agents pass_nums current_text
                 previous_quality passes w) = Ok passes' ->
          exists new, passes' = passes ++ new).
Proof.
  induction pass_nums as [|pass_num rest IH];
    intros current_text previous_quality passes w.
  - cbn. split.
    + exists []. now rewrite app_nil_r.
    + intros passes' E. injection E as <-. exists []. now rewrite app_nil_r.
  - cbn [pass_loop]. unfold mbind, time_time, call_process_text, lift.
    cbn [heap calls clock].
    destruct (process_text _ current_text selected_agents) as [[results|e] h];
      [|split; [exists [current_text]; reflexivity | discriminate]].
    cbn [heap calls clock].
    destruct (get_corrected_text results) as [corrected_text|e];
      [|split; [exists [current_text]; reflexivity | discriminate]].
    destruct (_calculate_convergence_metrics _ _ _ _) as [metrics|e];
      [|split; [exists [current_text]; reflexivity | discriminate]].
    match goal with
    | |- context [_should_continue_processing ?s ?p ?q ?n] =>
        destruct (_should_continue_processing s p q n) as [should_continue reason]
    end.
    destruct should_continue; cbn [negb].
    + match goal with
      | |- context [pass_loop self selected_agents rest ?t ?q ?ps ?w'] =>
          destruct (IH t q ps w') as [[later Hcalls] Hpasses]
      end.
      split.
      * exists (current_text :: later). rewrite Hcalls. cbn [calls].
        rewrite <- app_assoc. reflexivity.
      * intros passes' E. destruct (Hpasses passes' E) as [new ->].
        eexists. rewrite <- app_assoc. reflexivity.
    + cbn [ret fst snd calls]. split.
      * exists [current_text]. reflexivity.
      * intros passes' E. injection E as <-. eexists. reflexivity.
Qed.

Lemma pass_loop_calls_first (self : t) (selected_agents : option (list string))
    (pass_num : Z) (rest : list Z) (current_text : str) (previous_quality : Q)
    (passes : list RefinementPass) (w : World) :
  exists later,
    calls (snd (pass_loop self selected_agents (pass_num :: rest) current_text
                  previous_quality passes w)) = calls w ++ current_text :: later.
Proof.
  cbn [pass_loop]. unfold mbind, time_time, call_process_text, lift.
  cbn [heap calls clock].
  destruct (process_text _ current_text selected_agents) as [[results|e] h];
    [|exists []; reflexivity].
  cbn [heap calls clock].
  destruct (get_corrected_text results) as [corrected_text|e];
    [|exists []; reflexivity].
  destruct (_calculate_convergence_metrics _ _ _ _) as [metrics|e];
    [|exists []; reflexivity].
  match goal with
  | |- context [_should_continue_processing ?s ?p ?q ?n] =>
      destruct (_should_continue_processing s p q n) as [should_continue reason]
  end.
  destruct should_continue; cbn [negb].
  - match goal with
    | |- context [pass_loop self selected_agents rest ?t ?q ?ps ?w'] =>
        destruct (pass_loop_extends self selected_agents rest t q ps w')
          as [[later Hcalls] _]
    end.
    exists later. rewrite Hcalls. cbn [calls]. rewrite <- app_assoc. reflexivity.
  - exists []. reflexivity.
Qed.

(** C5 (as the code behaves): the thresholds are never checked.  With
    [max_passes] below 1 the loop body is not entered: the coordinator
    is not called and the run answers with the report
    [No passes completed].  With [max_passes] at least 1 the first pass
    calls the coordinator on the given text, whatever the thresholds
    are. *)
Theorem only_the_pass_budget_guards_the_loop
    (self : t) (text : str) (selected_agents : option (list string))
    (user_preferences : option (gmap string string)) (w : World) :
  ((max_passes self < 1)%Z ->
     process_with_multiple_passes self text selected_agents user_preferences w
     = (Ok (ErrorReport "No passes completed"),
        {| heap := heap w; calls := calls w; clock := S (S (clock w)) |}))
  /\ ((1 <= max_passes self)%Z ->
      exists later,
        calls (snd (process_with_multiple_passes self text selected_agents
                      user_preferences w))
        = calls w ++ text :: later).
Proof.
  split.
  - intros Hm. unfold process_with_multiple_passes.
    rewrite (range_empty _ Hm). reflexivity.
  - intros Hm. unfold process_with_multiple_passes.
    destruct (range_first _ Hm) as [rest ->].
    unfold mbind at 1. cbn [time_time].
    set (w1 := {| heap := heap w; calls := calls w; clock := S (clock w) |}).
    destruct (pass_loop_calls_first self selected_agents 1 rest text 0 [] w1)
      as [later Hcalls].
    unfold mbind at 1.
    destruct (pass_loop self selected_agents (1%Z :: rest) text 0 [] w1)
      as [[passes|e] w2].
    + cbn [snd] in Hcalls. unfold mbind. cbn [time_time].
      exists later.
      match goal with
      | |- calls (snd (_compile_multi_pass_results ?s ?p ?t ?u ?w')) = _ =>
          rewrite (proj1 (compile_keeps_calls s p t u w'))
      end.
      cbn [calls]. exact Hcalls.
    + exists later. exact Hcalls.
Qed.

End WithEnvironment.

(** A coordinator that answers the empty text with a non-empty one makes
    the whole run raise: the exception of the change ratio is not
    caught by the loop. *)
Example run_on_empty_text_raises :
  fst (@process_with_multiple_passes (Scripted.environment Examples.invented_text)
         (__init__ 3) [] None None Scripted.initial_world)
  = Raise ZeroDivisionError.
Proof. vm_compute. reflexivity. Qed.

Lemma only_the_pass_budget_guards_the_loop_witness :
  @process_with_multiple_passes (Scripted.environment Examples.one_step)
    Examples.no_budget Examples.greeting None None Scripted.initial_world
  = (Ok (ErrorReport "No passes completed"),
     {| heap := ∅; calls := []; clock := 2 |})
  /\ exists later,
       calls (snd (@process_with_multiple_passes
                     (Scripted.environment Examples.one_step)
                     Examples.odd_thresholds Examples.greeting None None
                     Scripted.initial_world))
       = [] ++ Examples.greeting :: later.
Proof.
  split.
  - apply (proj1 (@only_the_pass_budget_guards_the_loop
                    (Scripted.environment Examples.one_step)
                    Examples.no_budget Examples.greeting None None
                    Scripted.initial_world)).
    reflexivity.
  - apply (proj2 (@only_the_pass_budget_guards_the_loop
                    (Scripted.environment Examples.one_step)
                    Examples.odd_thresholds Examples.greeting None None
                    Scripted.initial_world)).
    cbn. lia.
Defined.

(** A configuration whose two thresholds lie outside (0,1) is not
    rejected: the coordinator is called and a pass is completed. *)
Lemma thresholds_out_of_range_still_run :
  Qleb 1 (convergence_threshold Examples.odd_thresholds) = true
  /\ Qleb (min_quality_threshold Examples.odd_thresholds) 0 = true
  /\ calls (snd (@process_with_multiple_passes
                   (Scripted.environment Examples.one_step)
                   Examples.odd_thresholds Examples.greeting None None
                   Scripted.initial_world))
     = [Examples.greeting]
  /\ exists data,
       fst (@process_with_multiple_passes
              (Scripted.environment Examples.one_step)
              Examples.odd_thresholds Examples.greeting None None
              Scripted.initial_world)
       = Ok (FullReport data)
       /\ total_passes (overall_metrics data) = 1%nat.
Proof.
  split; [reflexivity|]. split; [reflexivity|].
  split; [vm_compute; reflexivity|].
  eexists. split; [vm_compute; reflexivity | reflexivity].
Qed.

End RunFacts.

(** ** The report compilation and the improvement records *)

Module ReportFacts.
Import MultiPassProcessor.

Lemma tag_lookup (n : Z) (h : gmap loc (gmap string value)) (l0 l : loc) :
  tag n h l0 !! l
  = if decide (l0 = l) then insert "pass_number"%string (VInt n) <$> h !! l
    else h !! l.
Proof.
  unfold tag. rewrite lookup_alter. destruct (decide (l0 = l)) as [->|]; reflexivity.
Qed.

Lemma retag (n m : Z) (record : option (gmap string value)) :
  insert "pass_number"%string (VInt n)
    <$> (insert "pass_number"%string (VInt m) <$> record)
  = insert "pass_number"%string (VInt n) <$> record.
Proof.
  destruct record as [r|]; [|reflexivity]. cbn. now rewrite insert_insert_eq.
Qed.

Lemma tagged_step (h h' : gmap loc (gmap string value)) (tags : list (loc * Z))
    (n : Z) (l0 : loc) :
  tagged h h' tags -> tagged h (tag n h' l0) ((l0, n) :: tags).
Proof.
  intros Hh l. rewrite tag_lookup.
  destruct (decide (l0 = l)) as [->|Hne].
  - right. exists n. split; [left|].
    destruct (Hh l) as [[_ ->]|(m & _ & ->)]; [reflexivity | apply retag].
  - destruct (Hh l) as [[Hl E]|(m & Hm & E)].
    + left. split; [|exact E]. intros m. rewrite not_elem_of_cons.
      split; [congruence | apply Hl].
    + right. exists m. split; [now right | exact E].
Qed.

Lemma elem_of_rev_iff {A : Type} (l : list A) (x : A) : x ∈ rev l <-> x ∈ l.
Proof. rewrite !list_elem_of_In. symmetry. apply in_rev. Qed.

Lemma tag_pass_tagged (h : gmap loc (gmap string value)) (pass_obj : RefinementPass) :
  forall (h' : gmap loc (gmap string value)) (tags : list (loc * Z)),
    tagged h h' tags ->
    tagged h (tag_pass h' pass_obj) (rev (tags_of pass_obj) ++ tags).
Proof.
  unfold tag_pass, tags_of. induction (improvements pass_obj) as [|l0 locs IH];
    intros h' tags Hh.
  - exact Hh.
  - cbn [fold_left rev List.map]. rewrite <- app_assoc. cbn [app].
    apply IH. now apply tagged_step.
Qed.

Lemma tag_all_tagged (passes : list RefinementPass) :
  forall (h h' : gmap loc (gmap string value)) (tags : list (loc * Z)),
    tagged h h' tags ->
    exists tags' : list (loc * Z),
      tagged h (fold_left tag_pass passes h') tags'
      /\ forall (l : loc) (n : Z),
           (l, n) ∈ tags' <->
           (exists p, p ∈ passes /\ l ∈ improvements p /\ n = pass_number p)
           \/ (l, n) ∈ tags.
Proof.
  induction passes as [|p passes IH]; intros h h' tags Hh.
  - exists tags. split; [exact Hh|]. intros l n. split; [now right|].
    intros [(q & Hq & _)|Hin]; [inversion Hq | exact Hin].
  - cbn [fold_left].
    destruct (IH h (tag_pass h' p) (rev (tags_of p) ++ tags)) as (tags' & Ht & Htags).
    { now apply tag_pass_tagged. }
    exists tags'. split; [exact Ht|]. intros l n. rewrite Htags.
    rewrite elem_of_app, elem_of_rev_iff. unfold tags_of.
    rewrite list_elem_of_fmap. split.
    + intros [(q & Hq & Hl & Hn)|[(l' & E & Hl')|Hin]].
      * left. exists q. split; [now right | split; assumption].
      * left. injection E as -> ->. exists p. split; [left | split; [exact Hl' | reflexivity]].
      * now right.
    + intros [(q & Hq & Hl & Hn)|Hin]; [|right; now right].
      apply elem_of_cons in Hq as [->|Hq].
      * right. left. exists l. split; [now rewrite Hn | exact Hl].
      * left. exists q. split; [exact Hq | split; assumption].
Qed.

Lemma compile_tags (self : t) (passes : list RefinementPass) (total_time : Q)
    (user_preferences : option (gmap string string)) (w : World) :
  exists tags : list (loc * Z),
    tagged (heap w)
      (heap (snd (_compile_multi_pass_results self passes total_time
                    user_preferences w))) tags
    /\ forall (l : loc) (n : Z),
         (l, n) ∈ tags <->
         exists p, p ∈ passes /\ l ∈ improvements p /\ n = pass_number p.
Proof.
  unfold _compile_multi_pass_results.
  destruct passes as [|p passes].
  { exists []. split.
    - intros l. left. split; [intros n; apply not_elem_of_nil | reflexivity].
    - intros l n. split; [intros Hin; inversion Hin|].
      intros (q & Hq & _). inversion Hq. }
  destruct (rev (p :: passes)) as [|final rest] eqn:Erev.
  { apply (f_equal (@length _)) in Erev. rewrite length_rev in Erev. discriminate. }
  cbn [snd heap].
  destruct (tag_all_tagged (p :: passes) (heap w) (heap w) []) as (tags' & Ht & Htags).
  { intros l. left. split; [intros n; apply not_elem_of_nil | reflexivity]. }
  exists tags'. split; [exact Ht|]. intros l n. rewrite Htags. split.
  - intros [Hp|Hin]; [exact Hp | inversion Hin].
  - intros Hp. now left.
Qed.

Lemma elem_of_flat_map {A B : Type} (f : A -> list B) (l : list A) (y : B) :
  y ∈ flat_map f l <-> exists x, x ∈ l /\ y ∈ f x.
Proof.
  rewrite list_elem_of_In, in_flat_map. split; intros (x & Hx & Hy); exists x.
  - now rewrite !list_elem_of_In.
  - now rewrite <- !list_elem_of_In.
Qed.

(** C8 (as the code behaves): the fields of a pass record are never
    changed once the record is appended: the loop only appends to the
    list of passes and the report lists the passes as they were
    appended.  The improvement records that a pass refers to are
    changed in place by the report compilation: each gets the key
    [pass_number] of a pass that lists it; every other key of those
    records, and every other record, stays as it was. *)
Theorem compilation_tags_improvements_in_place `{Environment}
    (self : t) (selected_agents : option (list string)) (pass_nums : list Z)
    (current_text : str) (previous_quality : Q)
    (passes : list RefinementPass) (total_time : Q)
    (user_preferences : option (gmap string string)) (w : World) :
  let compiled :=
    _compile_multi_pass_results self passes total_time user_preferences w in
  (forall passes',
     fst (pass_loop self selected_agents pass_nums current_text previous_quality
            passes w) = Ok passes' ->
     exists new, passes' = passes ++ new)
  /\ (forall data, fst compiled = Ok (FullReport data) -> passes_detail data = passes)
  /\ (forall l : loc,
        l ∉ flat_map improvements passes ->
        heap (snd compiled) !! l = heap w !! l)
  /\ (forall (l : loc) (record : gmap string value),
        l ∈ flat_map improvements passes ->
        heap w !! l = Some record ->
        exists p : RefinementPass,
          p ∈ passes /\ l ∈ improvements p
          /\ heap (snd compiled) !! l
             = Some (<["pass_number"%string := VInt (pass_number p)]> record))
  /\ (forall (l : loc) (key : string),
        key <> "pass_number"%string ->
        heap (snd compiled) !! l ≫= (fun record => record !! key)
        = heap w !! l ≫= (fun record => record !! key)).
Proof.
  intros compiled.
  destruct (compile_tags self passes total_time user_preferences w)
    as (tags & Ht & Htags).
  fold compiled in Ht.
  split; [apply RunFacts.pass_loop_extends|].
  split; [|split; [|split]].
  - intros data. subst compiled. unfold _compile_multi_pass_results.
    destruct passes as [|p passes]; [discriminate|].
    destruct (rev (p :: passes)); [discriminate|].
    cbn [fst]. intros E. injection E as <-. reflexivity.
  - intros l Hl. destruct (Ht l) as [[_ E]|(n & Hn & _)]; [exact E|].
    exfalso. apply Hl. apply Htags in Hn as (p & Hp & Hin & _).
    apply elem_of_flat_map. now exists p.
  - intros l record Hl Hrec.
    apply elem_of_flat_map in Hl as (q & Hq & Hlq).
    destruct (Ht l) as [[Hout _]|(n & Hn & E)].
    + exfalso. apply (Hout (pass_number q)). apply Htags. now exists q.
    + apply Htags in Hn as (p & Hp & Hin & ->).
      exists p. split; [exact Hp|]. split; [exact Hin|].
      rewrite E, Hrec. reflexivity.
  - intros l key Hkey.
    destruct (Ht l) as [[_ ->]|(n & _ & ->)]; [reflexivity|].
    destruct (heap w !! l) as [record|]; [|reflexivity].
    cbn. now rewrite lookup_insert_ne by congruence.
Qed.

Lemma compilation_tags_improvements_in_place_witness :
  (exists p : RefinementPass,
     p ∈ [Examples.recorded_pass] /\ 0%nat ∈ improvements p
     /\ heap (snd (_compile_multi_pass_results (__init__ 1)
                     [Examples.recorded_pass] 2 None Examples.world_after_pass))
          !! 0%nat
        = Some (<["pass_number"%string := VInt (pass_number p)]>
                  Examples.grammar_record))
  /\ heap (snd (_compile_multi_pass_results (__init__ 1)
                  [Examples.recorded_pass] 2 None Examples.world_after_pass))
       !! 0%nat ≫= (fun record => record !! "agent"%string)
     = heap Examples.world_after_pass !! 0%nat
         ≫= (fun record => record !! "agent"%string).
Proof.
  pose proof (@compilation_tags_improvements_in_place
                (Scripted.environment Examples.one_step) (__init__ 1) None []
                Examples.greeting 0 [Examples.recorded_pass] 2 None
                Examples.world_after_pass) as (_ & _ & _ & Htag & Hkeys).
  split.
  - apply (Htag 0%nat Examples.grammar_record).
    + cbn. left.
    + vm_compute. reflexivity.
  - apply (Hkeys 0%nat "agent"%string). discriminate.
Defined.

(** After a run of one pass the improvement record that the pass refers
    to is no longer what it was when the pass was recorded: the report
    compilation has added [pass_number] to it. *)
Lemma report_compilation_changes_a_recorded_improvement :
  exists (p : RefinementPass) (w1 w2 : World) (data : ReportData),
    @pass_loop (Scripted.environment Examples.one_step) (__init__ 1) None [1%Z]
      Examples.greeting 0 []
      {| heap := ∅; calls := []; clock := 1 |} = (Ok [p], w1)
    /\ improvements p = [0%nat]
    /\ heap w1 !! 0%nat = Some Examples.grammar_record
    /\ @process_with_multiple_passes (Scripted.environment Examples.one_step)
         (__init__ 1) Examples.greeting None None Scripted.initial_world
       = (Ok (FullReport data), w2)
    /\ passes_detail data = [p]
    /\ heap w2 !! 0%nat
       = Some (<["pass_number"%string := VInt 1]> Examples.grammar_record)
    /\ bool_decide (heap w1 !! 0%nat = heap w2 !! 0%nat) = false.
Proof.
  do 4 eexists.
  split; [vm_compute; reflexivity|].
  split; [reflexivity|].
  split; [vm_compute; reflexivity|].
  split; [vm_compute; reflexivity|].
  split; [reflexivity|].
  split; vm_compute; reflexivity.
Qed.

End ReportFacts.

(** ** Completed runs *)

Module RunTraceFacts.
Import MultiPassProcessor.

Lemma metrics_fields (input_text output_text : str) (prev curr : Q)
    (m : ConvergenceMetrics) :
  _calculate_convergence_metrics input_text output_text prev curr = Ok m ->
  changes_made m = negb (str_eqb input_text output_text)
  /\ quality_improvement m = (if Qltb 0 prev then curr - prev else curr).
Proof.
  unfold _calculate_convergence_metrics. intros E.
  destruct (if (0 <? len input_text)%Z then _ else _) as [similarity|e];
    [|discriminate].
  cbn [bind] in E.
  destruct (if negb (negb (str_eqb input_text output_text)) then _ else _)
    as [ratio|e]; [|discriminate].
  cbn [bind] in E. injection E as <-. split; reflexivity.
Qed.

Lemma metrics_ok (input_text output_text : str) (prev curr : Q) :
  input_text <> [] \/ output_text = [] ->
  exists m, _calculate_convergence_metrics input_text output_text prev curr = Ok m.
Proof.
  intros [Hin|Hout].
  - eexists. now apply ConvergenceMetricsFacts.convergence_metrics_nonempty_input.
  - subst output_text. destruct input_text as [|c text].
    + eexists. reflexivity.
    + eexists.
      apply ConvergenceMetricsFacts.convergence_metrics_nonempty_input. discriminate.
Qed.

Section WithEnvironment.
Context `{Environment}.

(** A loop that returns has recorded a trace, called the coordinator
    once per pass on the input of that pass, and read the clock twice
    per pass. *)
Lemma pass_loop_trace (self : t) (selected_agents : option (list string))
    (pass_nums : list Z) :
  forall (text : str) (prev : Q) (passes : list RefinementPass) (w : World)
         (passes' : list RefinementPass) (w' : World),
    pass_loop self selected_agents pass_nums text prev passes w = (Ok passes', w') ->
    exists new,
      passes' = passes ++ new
      /\ run_trace self pass_nums text prev new
      /\ calls w' = calls w ++ List.map input_text new
      /\ clock w' = (clock w + 2 * length new)%nat.
Proof.
  induction pass_nums as [|n rest IH]; intros text prev passes w passes' w' E.
  - cbn in E. injection E as <- <-. exists [].
    rewrite !app_nil_r. repeat split; [constructor | cbn; lia].
  - cbn [pass_loop] in E. unfold mbind, time_time, call_process_text, lift in E.
    cbn [heap calls clock] in E.
    destruct (process_text _ text selected_agents) as [[results|e] h];
      [|discriminate].
    cbn [heap calls clock] in E.
    destruct (get_corrected_text results) as [corrected_text|e]; [|discriminate].
    destruct (_calculate_convergence_metrics _ _ _ _) as [metrics|e] eqn:Em;
      [|discriminate].
    match type of E with
    | context [_should_continue_processing ?s ?p ?q ?k] =>
        set (current_pass := p) in *
    end.
    destruct (_should_continue_processing self current_pass prev n)
      as [should_continue reason] eqn:Ed.
    destruct should_continue; cbn [negb] in E.
    + apply IH in E as (new & -> & Htrace & Hcalls & Hclock).
      exists (current_pass :: new). rewrite <- app_assoc. split; [reflexivity|].
      split; [|split].
      * apply run_trace_continue; try reflexivity; [exact Em | now rewrite Ed | exact Htrace].
      * rewrite Hcalls. cbn [calls List.map input_text current_pass].
        now rewrite <- app_assoc.
      * rewrite Hclock. cbn [clock length]. lia.
    + cbn [ret] in E. injection E as <- <-. exists [current_pass].
      split; [reflexivity|]. split; [|split].
      * apply run_trace_stop; try reflexivity; [exact Em | now rewrite Ed].
      * reflexivity.
      * cbn [clock length]. lia.
Qed.

(** A run that returns a full report has completed a trace over the
    pass numbers 1 to [max_passes]. *)
Lemma run_trace_of_report (self : t) (text : str)
    (selected_agents : option (list string))
    (user_preferences : option (gmap string string)) (w w' : World)
    (data : ReportData) :
  process_with_multiple_passes self text selected_agents user_preferences w
    = (Ok (FullReport data), w') ->
  run_trace self (range 1 (max_passes self + 1)) text 0 (passes_detail data)
  /\ passes_detail data <> []
  /\ calls w' = calls w ++ List.map input_text (passes_detail data)
  /\ clock w' = (clock w + 2 + 2 * length (passes_detail data))%nat
  /\ original_text data = default [] (input_text <$> head (passes_detail data))
  /\ final_text data = default [] (output_text <$> last (passes_detail data))
  /\ total_passes (overall_metrics data) = length (passes_detail data).
Proof.
  unfold process_with_multiple_passes. unfold mbind at 1. cbn [time_time].
  unfold mbind at 1.
  destruct (pass_loop _ _ _ _ _ _ _) as [[passes|e] w1] eqn:Eloop; [|discriminate].
  apply pass_loop_trace in Eloop as (new & -> & Htrace & Hcalls & Hclock).
  cbn [app] in *. unfold mbind. cbn [time_time].
  unfold _compile_multi_pass_results.
  destruct new as [|p new]; [discriminate|].
  destruct (rev (p :: new)) as [|final older] eqn:Erev.
  { apply (f_equal (@length _)) in Erev. rewrite length_rev in Erev. discriminate. }
  intros E. injection E as <- <-.
  cbn [passes_detail original_text final_text overall_metrics total_passes
       calls clock heap].
  split; [exact Htrace|]. split; [discriminate|].
  split; [exact Hcalls|]. split; [rewrite Hclock; cbn [clock]; lia|].
  split; [reflexivity|]. split; [|reflexivity].
  rewrite (ConvergenceFacts.last_rev_head _ _ _ Erev). reflexivity.
Qed.

End WithEnvironment.

(** *** What a trace says in plain terms *)

Lemma trace_numbers (self : t) (pass_nums : list Z) (text : str) (prev : Q)
    (new : list RefinementPass) :
  run_trace self pass_nums text prev new ->
  List.map pass_number new = take (length new) pass_nums.
Proof.
  induction 1 as [| n rest text prev p Hn _ _ _
                 | n rest text prev p ps Hn _ _ _ _ IH].
  - reflexivity.
  - cbn. now rewrite Hn.
  - cbn. now rewrite Hn, IH.
Qed.

Lemma trace_length (self : t) (pass_nums : list Z) (text : str) (prev : Q)
    (new : list RefinementPass) :
  run_trace self pass_nums text prev new ->
  (length new <= length pass_nums)%nat.
Proof.
  induction 1; cbn in *; lia.
Qed.

Lemma range_lookup (lo hi : Z) (i : nat) :
  (Z.of_nat i < hi - lo)%Z -> range lo hi !! i = Some (lo + Z.of_nat i)%Z.
Proof.
  intros Hi. unfold range. rewrite list_lookup_fmap.
  rewrite lookup_seq_lt by lia. reflexivity.
Qed.

Lemma length_range (lo hi : Z) : length (range lo hi) = Z.to_nat (hi - lo).
Proof. unfold range. now rewrite length_map, length_seq. Qed.

Lemma trace_chain (self : t) (pass_nums : list Z) (text : str) (prev : Q)
    (new : list RefinementPass) :
  run_trace self pass_nums text prev new ->
  (forall p, head new = Some p ->
     input_text p = text
     /\ quality_improvement (convergence_metrics p)
        = (if Qltb 0 prev then quality_score p - prev else quality_score p))
  /\ (forall i p q, new !! i = Some p -> new !! S i = Some q ->
        input_text q = output_text p
        /\ quality_improvement (convergence_metrics q)
           = (if Qltb 0 (quality_score p)
              then quality_score q - quality_score p else quality_score q)).
Proof.
  induction 1 as [| n rest text prev p Hn Hin Hm _
                 | n rest text prev p ps Hn Hin Hm _ _ [IHhead IHnext]].
  - split; [discriminate|]. intros i p q Hp. destruct i; discriminate.
  - split.
    + intros p' E. injection E as <-. split; [exact Hin|].
      exact (proj2 (metrics_fields _ _ _ _ _ Hm)).
    + intros [|i] p' q Hp Hq; [discriminate | destruct i; discriminate].
  - split.
    + intros p' E. injection E as <-. split; [exact Hin|].
      exact (proj2 (metrics_fields _ _ _ _ _ Hm)).
    + intros [|i] p' q Hp Hq.
      * cbn in Hp, Hq. injection Hp as <-.
        apply IHhead. destruct ps; [discriminate|]. cbn in Hq |- *. exact Hq.
      * cbn in Hp, Hq. exact (IHnext i p' q Hp Hq).
Qed.

Lemma should_continue_true (self : t) (p : RefinementPass) (prev : Q) (n : Z) :
  fst (_should_continue_processing self p prev n) = true ->
  (n < max_passes self)%Z
  /\ quality_score p < min_quality_threshold self
  /\ ((n <= 1)%Z
      \/ convergence_threshold self <= quality_improvement (convergence_metrics p))
  /\ changes_made (convergence_metrics p) = true.
Proof.
  unfold _should_continue_processing.
  destruct (max_passes self <=? n)%Z eqn:Emax; [discriminate|].
  destruct (Qleb _ _) eqn:Eq; [discriminate|].
  destruct (1 <? n)%Z eqn:En; cbn [andb].
  - destruct (Qltb _ _) eqn:Ei; [discriminate|].
    destruct (changes_made _) eqn:Ec; [|discriminate]. intros _.
    apply Z.leb_gt in Emax. apply Qleb_false in Eq. apply Qltb_false in Ei.
    repeat split; [exact Emax | exact Eq | now right].
  - destruct (changes_made _) eqn:Ec; [|discriminate]. intros _.
    apply Z.leb_gt in Emax. apply Qleb_false in Eq. apply Z.ltb_ge in En.
    repeat split; [exact Emax | exact Eq | now left].
Qed.

Lemma should_continue_false (self : t) (p : RefinementPass) (prev : Q) (n : Z) :
  fst (_should_continue_processing self p prev n) = false ->
  (max_passes self <= n)%Z
  \/ min_quality_threshold self <= quality_score p
  \/ ((1 < n)%Z
      /\ quality_improvement (convergence_metrics p) < convergence_threshold self)
  \/ changes_made (convergence_metrics p) = false.
Proof.
  unfold _should_continue_processing.
  destruct (max_passes self <=? n)%Z eqn:Emax.
  { intros _. left. now apply Z.leb_le. }
  destruct (Qleb _ _) eqn:Eq.
  { intros _. right. left. now apply Qleb_true. }
  destruct (1 <? n)%Z eqn:En; cbn [andb].
  - destruct (Qltb _ _) eqn:Ei.
    { intros _. right. right. left. split; [now apply Z.ltb_lt | now apply Qltb_true]. }
    destruct (changes_made _) eqn:Ec; [discriminate|]. intros _. now do 3 right.
  - destruct (changes_made _) eqn:Ec; [discriminate|]. intros _. now do 3 right.
Qed.

Lemma trace_decisions (self : t) (pass_nums : list Z) (text : str) (prev : Q)
    (new : list RefinementPass) :
  run_trace self pass_nums text prev new ->
  forall i p, new !! i = Some p ->
    changes_made (convergence_metrics p)
      = negb (str_eqb (input_text p) (output_text p))
    /\ ((S i < length new)%nat ->
        fst (_should_continue_processing self p 0 (pass_number p)) = true)
    /\ ((S i = length new)%nat ->
        fst (_should_continue_processing self p 0 (pass_number p)) = false
        \/ length new = length pass_nums).
Proof.
  induction 1 as [| n rest text prev p Hn Hin Hm Hd
                 | n rest text prev p ps Hn Hin Hm Hd Htrace IH].
  - intros i p Hp. destruct i; discriminate.
  - intros [|i] p' Hp; [|destruct i; discriminate]. injection Hp as <-.
    split; [rewrite Hin; exact (proj1 (metrics_fields _ _ _ _ _ Hm))|].
    split; [cbn; lia|]. intros _. left. now rewrite Hn.
  - intros [|i] p' Hp.
    + injection Hp as <-.
      split; [rewrite Hin; exact (proj1 (metrics_fields _ _ _ _ _ Hm))|].
      split; [intros _; now rewrite Hn|].
      cbn [length]. intros E. right.
      pose proof (trace_length _ _ _ _ _ Htrace) as Hlen.
      destruct ps; [|cbn in E; lia].
      inversion Htrace. reflexivity.
    + cbn in Hp. destruct (IH i p' Hp) as (Hc & Hmore & Hlast).
      split; [exact Hc|]. cbn [length]. split.
      * intros Hi. apply Hmore. lia.
      * intros Hi. destruct Hlast as [Hstop|Hlen]; [lia | now left | right; lia].
Qed.

Section WithEnvironment.
Context `{Environment}.

(** X1: a run that returns a full report has recorded between one and
    [max_passes] passes, numbered 1, 2, 3, ... in order, and has called
    the coordinator exactly once per recorded pass, on the input text
    of that pass. *)
Theorem run_numbers_its_passes (self : t) (text : str)
    (selected_agents : option (list string))
    (user_preferences : option (gmap string string)) (w w' : World)
    (data : ReportData) :
  process_with_multiple_passes self text selected_agents user_preferences w
    = (Ok (FullReport data), w') ->
  (1 <= length (passes_detail data))%nat
  /\ (Z.of_nat (length (passes_detail data)) <= max_passes self)%Z
  /\ (forall i p, passes_detail data !! i = Some p -> pass_number p = Z.of_nat (S i))
  /\ calls w' = calls w ++ List.map input_text (passes_detail data)
  /\ total_passes (overall_metrics data) = length (passes_detail data).
Proof.
  intros Hrun.
  destruct (run_trace_of_report _ _ _ _ _ _ _ Hrun)
    as (Htrace & Hne & Hcalls & _ & _ & _ & Htotal).
  pose proof (trace_numbers _ _ _ _ _ Htrace) as Hnums.
  pose proof (trace_length _ _ _ _ _ Htrace) as Hlen.
  rewrite length_range in Hlen.
  assert (Hpos : (1 <= length (passes_detail data))%nat).
  { destruct (passes_detail data); [congruence | cbn; lia]. }
  split; [exact Hpos|]. split; [lia|]. split; [|split; assumption].
  intros i p Hp.
  assert (Hi : (i < length (passes_detail data))%nat)
    by (apply lookup_lt_is_Some; eauto).
  assert (E : List.map pass_number (passes_detail data) !! i = Some (pass_number p)).
  { change (List.map pass_number (passes_detail data))
      with (pass_number <$> passes_detail data).
    now rewrite list_lookup_fmap, Hp. }
  rewrite Hnums, lookup_take_lt in E by exact Hi.
  rewrite range_lookup in E by lia. injection E as <-. lia.
Qed.

(** X2: in a run that returns a full report the passes are chained: the
    first pass starts on the given text, every later pass starts on the
    output of the pass before it and measures its quality improvement
    against the quality score of that pass (the first pass against
    nothing), and the report gives the given text as original text and
    the output of the last pass as final text. *)
Theorem passes_are_chained (self : t) (text : str)
    (selected_agents : option (list string))
    (user_preferences : option (gmap string string)) (w w' : World)
    (data : ReportData) :
  process_with_multiple_passes self text selected_agents user_preferences w
    = (Ok (FullReport data), w') ->
  original_text data = text
  /\ (exists first_pass,
        head (passes_detail data) = Some first_pass
        /\ input_text first_pass = text
        /\ quality_improvement (convergence_metrics first_pass)
           = quality_score first_pass)
  /\ (exists last_pass,
        last (passes_detail data) = Some last_pass
        /\ final_text data = output_text last_pass)
  /\ (forall i p q,
        passes_detail data !! i = Some p ->
        passes_detail data !! S i = Some q ->
        input_text q = output_text p
        /\ quality_improvement (convergence_metrics q)
           = (if Qltb 0 (quality_score p)
              then quality_score q - quality_score p
              else quality_score q)).
Proof.
  intros Hrun.
  destruct (run_trace_of_report _ _ _ _ _ _ _ Hrun)
    as (Htrace & Hne & _ & _ & Horig & Hfinal & _).
  destruct (trace_chain _ _ _ _ _ Htrace) as [Hhead Hnext].
  destruct (passes_detail data) as [|p ps] eqn:Ep; [congruence|].
  destruct (Hhead p eq_refl) as [Hin Hqi].
  split; [rewrite Horig; exact Hin|].
  split; [exists p; repeat split; [exact Hin | exact Hqi]|].
  split; [|exact Hnext].
  destruct (last (p :: ps)) as [final|] eqn:El.
  - exists final. split; [reflexivity | exact Hfinal].
  - apply last_None in El. discriminate.
Qed.

(** X3: in a run that returns a full report only the last pass stops.
    Every earlier pass has a number below [max_passes], a quality score
    below the quality threshold, an output that differs from its input
    and, from the second pass on, an improvement of at least the
    convergence threshold; the last pass has reached [max_passes], or
    the quality threshold, or (from the second pass on) improved by
    less than the convergence threshold, or left its input unchanged. *)
Theorem only_the_last_pass_stops (self : t) (text : str)
    (selected_agents : option (list string))
    (user_preferences : option (gmap string string)) (w w' : World)
    (data : ReportData) :
  process_with_multiple_passes self text selected_agents user_preferences w
    = (Ok (FullReport data), w') ->
  forall i p,
    passes_detail data !! i = Some p ->
    ((S i < length (passes_detail data))%nat ->
       (pass_number p < max_passes self)%Z
       /\ quality_score p < min_quality_threshold self
       /\ input_text p <> output_text p
       /\ ((pass_number p <= 1)%Z
           \/ convergence_threshold self
              <= quality_improvement (convergence_metrics p)))
    /\ ((S i = length (passes_detail data))%nat ->
        (max_passes self <= pass_number p)%Z
        \/ min_quality_threshold self <= quality_score p
        \/ ((1 < pass_number p)%Z
            /\ quality_improvement (convergence_metrics p)
               < convergence_threshold self)
        \/ input_text p = output_text p).
Proof.
  intros Hrun i p Hp.
  destruct (run_trace_of_report _ _ _ _ _ _ _ Hrun)
    as (Htrace & Hne & _ & _ & _ & _ & _).
  destruct (trace_decisions _ _ _ _ _ Htrace i p Hp) as (Hc & Hmore & Hlast).
  pose proof (trace_numbers _ _ _ _ _ Htrace) as Hnums.
  assert (Hi : (i < length (passes_detail data))%nat)
    by (apply lookup_lt_is_Some; eauto).
  pose proof (trace_length _ _ _ _ _ Htrace) as Hlen.
  rewrite length_range in Hlen.
  assert (Hnum : pass_number p = Z.of_nat (S i)).
  { assert (E : List.map pass_number (passes_detail data) !! i = Some (pass_number p)).
    { change (List.map pass_number (passes_detail data))
        with (pass_number <$> passes_detail data).
      now rewrite list_lookup_fmap, Hp. }
    rewrite Hnums, lookup_take_lt in E by exact Hi.
    rewrite range_lookup in E by lia. injection E as <-. lia. }
  split.
  - intros Hearlier.
    destruct (should_continue_true _ _ _ _ (Hmore Hearlier)) as (Hn & Hq & Hi' & Hch).
    repeat split; [exact Hn | exact Hq | | exact Hi'].
    intros Esame. rewrite Hc, Esame in Hch.
    assert (Et : str_eqb (output_text p) (output_text p) = true)
      by now apply ConvergenceMetricsFacts.str_eqb_eq.
    rewrite Et in Hch. discriminate.
  - intros Hfinal. destruct (Hlast Hfinal) as [Hstop|Hall].
    + destruct (should_continue_false _ _ _ _ Hstop) as [Hn|[Hq|[Hi'|Hch]]].
      * now left.
      * right. now left.
      * right. right. now left.
      * do 3 right. rewrite Hc in Hch. apply negb_false_iff in Hch.
        now apply ConvergenceMetricsFacts.str_eqb_eq.
    + left. rewrite length_range in Hall. lia.
Qed.

(** X4: a run never raises when the coordinator always answers, always
    with a corrected text, and answers the empty text with the empty
    text: with [max_passes] at least 1 the run returns a full report. *)
Theorem run_returns_with_a_total_coordinator (self : t) (text : str)
    (selected_agents : option (list string))
    (user_preferences : option (gmap string string)) (w : World) :
  (forall (w0 : World) (text0 : str),
     exists results corrected,
       fst (process_text w0 text0 selected_agents) = Ok results
       /\ r_corrected_text results = Some corrected
       /\ (text0 = [] -> corrected = [])) ->
  (1 <= max_passes self)%Z ->
  exists data w',
    process_with_multiple_passes self text selected_agents user_preferences w
    = (Ok (FullReport data), w').
Proof.
  intros Htotal Hmax.
  assert (Hloop : forall pass_nums text0 prev passes w0,
            exists passes' w1,
              pass_loop self selected_agents pass_nums text0 prev passes w0
              = (Ok passes', w1)).
  { induction pass_nums as [|n rest IH]; intros text0 prev passes w0.
    - eexists _, _. reflexivity.
    - cbn [pass_loop]. unfold mbind, time_time, call_process_text, lift.
      cbn [heap calls clock].
      match goal with
      | |- context [process_text ?w1 text0 selected_agents] =>
          destruct (Htotal w1 text0) as (results & corrected & Hcall & Hcorr & Hempty);
          destruct (process_text w1 text0 selected_agents) as [r h]
      end.
      cbn [fst] in Hcall. subst r. cbn [heap calls clock].
      unfold get_corrected_text. rewrite Hcorr.
      destruct (metrics_ok text0 corrected prev (get_quality_score results))
        as [metrics ->].
      { destruct text0; [right; now apply Hempty | left; discriminate]. }
      match goal with
      | |- context [_should_continue_processing ?s ?p ?q ?k] =>
          destruct (_should_continue_processing s p q k) as [should_continue reason]
      end.
      destruct should_continue; cbn [negb].
      + apply IH.
      + eexists _, _. reflexivity. }
  unfold process_with_multiple_passes. unfold mbind at 1. cbn [time_time].
  unfold mbind at 1.
  match goal with
  | |- context [pass_loop ?s ?a ?ns ?t ?q ?ps ?w1] =>
      destruct (Hloop ns t q ps w1) as (passes & w1' & Eloop)
  end.
  rewrite Eloop.
  pose proof (pass_loop_trace _ _ _ _ _ _ _ _ _ Eloop)
    as (new & -> & Htrace & _ & _).
  cbn [app]. unfold mbind. cbn [time_time].
  unfold _compile_multi_pass_results.
  destruct new as [|p new].
  { exfalso. destruct (RunFacts.range_first _ Hmax) as [rest Er].
    rewrite Er in Htrace. inversion Htrace. }
  destruct (rev (p :: new)) as [|final older] eqn:Erev.
  { apply (f_equal (@length _)) in Erev. rewrite length_rev in Erev. discriminate. }
  eexists _, _. reflexivity.
Qed.

End WithEnvironment.

Lemma run_numbers_its_passes_witness :
  exists data w',
    @process_with_multiple_passes (Scripted.environment Examples.two_steps)
      (__init__ 3) Examples.greeting None None Scripted.initial_world
    = (Ok (FullReport data), w')
    /\ ((1 <= length (passes_detail data))%nat
        /\ (Z.of_nat (length (passes_detail data)) <= max_passes (__init__ 3))%Z
        /\ (forall i p,
              passes_detail data !! i = Some p -> pass_number p = Z.of_nat (S i))
        /\ calls w'
           = calls Scripted.initial_world ++ List.map input_text (passes_detail data)
        /\ total_passes (overall_metrics data) = length (passes_detail data)).
Proof.
  eexists _, _.
  refine ((fun Hrun =>
             conj Hrun
               (@run_numbers_its_passes (Scripted.environment Examples.two_steps)
                  (__init__ 3) Examples.greeting None None
                  Scripted.initial_world _ _ Hrun)) _).
  vm_compute. reflexivity.
Defined.

Lemma passes_are_chained_witness :
  exists data w',
    @process_with_multiple_passes (Scripted.environment Examples.two_steps)
      (__init__ 3) Examples.greeting None None Scripted.initial_world
    = (Ok (FullReport data), w')
    /\ (original_text data = Examples.greeting
        /\ (exists first_pass,
              head (passes_detail data) = Some first_pass
              /\ input_text first_pass = Examples.greeting
              /\ quality_improvement (convergence_metrics first_pass)
                 = quality_score first_pass)
        /\ (exists last_pass,
              last (passes_detail data) = Some last_pass
              /\ final_text data = output_text last_pass)
        /\ (forall i p q,
              passes_detail data !! i = Some p ->
              passes_detail data !! S i = Some q ->
              input_text q = output_text p
              /\ quality_improvement (convergence_metrics q)
                 = (if Qltb 0 (quality_score p)
                    then quality_score q - quality_score p
                    else quality_score q))).
Proof.
  eexists _, _.
  refine ((fun Hrun =>
             conj Hrun
               (@passes_are_chained (Scripted.environment Examples.two_steps)
                  (__init__ 3) Examples.greeting None None
                  Scripted.initial_world _ _ Hrun)) _).
  vm_compute. reflexivity.
Defined.

Lemma only_the_last_pass_stops_witness :
  exists data w',
    @process_with_multiple_passes (Scripted.environment Examples.two_steps)
      (__init__ 3) Examples.greeting None None Scripted.initial_world
    = (Ok (FullReport data), w')
    /\ length (passes_detail data) = 2%nat
    /\ forall i p,
         passes_detail data !! i = Some p ->
         ((S i < length (passes_detail data))%nat ->
            (pass_number p < max_passes (__init__ 3))%Z
            /\ quality_score p < min_quality_threshold (__init__ 3)
            /\ input_text p <> output_text p
            /\ ((pass_number p <= 1)%Z
                \/ convergence_threshold (__init__ 3)
                   <= quality_improvement (convergence_metrics p)))
         /\ ((S i = length (passes_detail data))%nat ->
             (max_passes (__init__ 3) <= pass_number p)%Z
             \/ min_quality_threshold (__init__ 3) <= quality_score p
             \/ ((1 < pass_number p)%Z
                 /\ quality_improvement (convergence_metrics p)
                    < convergence_threshold (__init__ 3))
             \/ input_text p = output_text p).
Proof.
  eexists _, _. split; [vm_compute; reflexivity|]. split; [reflexivity|].
  eapply (@only_the_last_pass_stops (Scripted.environment Examples.two_steps)
            (__init__ 3) Examples.greeting None None Scripted.initial_world).
  vm_compute. reflexivity.
Defined.

Lemma run_returns_with_a_total_coordinator_witness :
  exists data w',
    @process_with_multiple_passes (Echo.environment 0.5) (__init__ 3)
      Examples.greeting None None Scripted.initial_world
    = (Ok (FullReport data), w').
Proof.
  apply (@run_returns_with_a_total_coordinator (Echo.environment 0.5) (__init__ 3)
           Examples.greeting None None Scripted.initial_world).
  - intros w0 text0. eexists _, _. split; [reflexivity|]. split; [reflexivity|].
    intros E. exact E.
  - cbn. lia.
Defined.

End RunTraceFacts.

(** ** The report and what follows from it *)

Module ReportExtras.
Import MultiPassProcessor.

Lemma fold_tag_lookup (n : Z) (locs : list loc) :
  forall (h : gmap loc (gmap string value)) (l : loc),
    fold_left (tag n) locs h !! l
    = if decide (l ∈ locs)
      then insert "pass_number"%string (VInt n) <$> h !! l
      else h !! l.
Proof.
  induction locs as [|l0 locs IH]; intros h l.
  - cbn. destruct (decide (l ∈ [])) as [Hin|_]; [inversion Hin | reflexivity].
  - cbn [fold_left]. rewrite IH, ReportFacts.tag_lookup.
    destruct (decide (l ∈ l0 :: locs)) as [Hall|Hnone].
    + destruct (decide (l ∈ locs)) as [Hin|Hout].
      * destruct (decide (l0 = l)); [apply ReportFacts.retag | reflexivity].
      * destruct (decide (l0 = l)) as [->|Hne]; [reflexivity|].
        apply elem_of_cons in Hall as [->|Hin]; [congruence | contradiction].
    + apply not_elem_of_cons in Hnone as [Hne Hout].
      rewrite (decide_False (P := l ∈ locs)) by exact Hout.
      rewrite (decide_False (P := l0 = l)) by congruence. reflexivity.
Qed.

Lemma fold_tag_pass_untouched (passes : list RefinementPass) :
  forall (h : gmap loc (gmap string value)) (l : loc),
    (forall q, q ∈ passes -> l ∉ improvements q) ->
    fold_left tag_pass passes h !! l = h !! l.
Proof.
  induction passes as [|p passes IH]; intros h l Hout; [reflexivity|].
  cbn [fold_left]. rewrite IH by (intros q Hq; apply Hout; now right).
  unfold tag_pass. rewrite fold_tag_lookup.
  rewrite (decide_False (P := l ∈ improvements p)); [reflexivity|].
  apply Hout. left.
Qed.

(** X5: when several passes list the same improvement record, the
    report compilation leaves on it the number of the last pass that
    lists it. *)
Theorem last_listing_pass_wins (self : t) (before after : list RefinementPass)
    (p : RefinementPass) (total_time : Q)
    (user_preferences : option (gmap string string)) (w : World)
    (l : loc) (record : gmap string value) :
  l ∈ improvements p ->
  (forall q, q ∈ after -> l ∉ improvements q) ->
  heap w !! l = Some record ->
  heap (snd (_compile_multi_pass_results self (before ++ p :: after) total_time
               user_preferences w)) !! l
  = Some (<["pass_number"%string := VInt (pass_number p)]> record).
Proof.
  intros Hin Hafter Hrec. unfold _compile_multi_pass_results.
  destruct (before ++ p :: after) as [|first others] eqn:Eall.
  { destruct before; discriminate. }
  destruct (rev (first :: others)) as [|final older] eqn:Erev.
  { apply (f_equal (@length _)) in Erev. rewrite length_rev in Erev. discriminate. }
  cbn [snd heap]. rewrite <- Eall, fold_left_app. cbn [fold_left].
  rewrite fold_tag_pass_untouched by exact Hafter.
  unfold tag_pass at 1.
  rewrite fold_tag_lookup, (decide_True (P := l ∈ improvements p)) by exact Hin.
  destruct (ReportFacts.tag_all_tagged before (heap w) (heap w) [])
    as (tags & Ht & _).
  { intros l'. left. split; [intros n; apply not_elem_of_nil | reflexivity]. }
  destruct (Ht l) as [[_ ->]|(n & _ & ->)].
  - now rewrite Hrec.
  - rewrite ReportFacts.retag, Hrec. reflexivity.
Qed.

Lemma last_listing_pass_wins_witness :
  heap (snd (_compile_multi_pass_results (__init__ 3)
               ([Examples.recorded_pass] ++ Examples.second_listing :: [])
               2 None Examples.world_after_pass)) !! 0%nat
  = Some (<["pass_number"%string := VInt (pass_number Examples.second_listing)]>
            Examples.grammar_record).
Proof.
  apply (last_listing_pass_wins (__init__ 3) [Examples.recorded_pass] []
           Examples.second_listing 2 None Examples.world_after_pass 0%nat
           Examples.grammar_record).
  - cbn. left.
  - intros q Hq. inversion Hq.
  - vm_compute. reflexivity.
Defined.

Lemma length_flat_map_sum {A B : Type} (f : A -> list B) (l : list A) :
  length (flat_map f l) = sum_list (List.map (fun x => length (f x)) l).
Proof.
  induction l as [|x l IH]; [reflexivity|].
  cbn [flat_map List.map sum_list sum_list_with]. rewrite length_app, IH. reflexivity.
Qed.

(** X6: a compiled report is consistent with the passes it was compiled
    from: the summary has one row per pass, in order, with the number
    of that pass; the total of improvements is both the length of the
    tagged improvement list and the sum of the rows; initial and final
    quality are those of the first and the last pass, their difference
    is the quality improvement, and convergence is reported exactly
    when the final quality reaches the quality threshold. *)
Theorem report_is_consistent (self : t) (passes : list RefinementPass)
    (total_time : Q) (user_preferences : option (gmap string string))
    (w w' : World) (data : ReportData) :
  _compile_multi_pass_results self passes total_time user_preferences w
    = (Ok (FullReport data), w') ->
  List.map s_pass (pass_summary data) = List.map pass_number passes
  /\ total_passes (overall_metrics data) = length (pass_summary data)
  /\ total_improvements (overall_metrics data) = length (all_improvements data)
  /\ total_improvements (overall_metrics data)
     = sum_list (List.map s_improvements (pass_summary data))
  /\ Some (initial_quality (overall_metrics data)) = quality_score <$> head passes
  /\ Some (final_quality (overall_metrics data)) = quality_score <$> last passes
  /\ overall_quality_improvement (overall_metrics data)
     = final_quality (overall_metrics data) - initial_quality (overall_metrics data)
  /\ (convergence_achieved (overall_metrics data) = true
      <-> min_quality_threshold self <= final_quality (overall_metrics data)).
Proof.
  unfold _compile_multi_pass_results.
  destruct passes as [|p passes]; [discriminate|].
  destruct (rev (p :: passes)) as [|final older] eqn:Erev.
  { apply (f_equal (@length _)) in Erev. rewrite length_rev in Erev. discriminate. }
  intros E. injection E as <- <-.
  cbn [pass_summary overall_metrics total_passes total_improvements
       all_improvements initial_quality final_quality
       overall_quality_improvement convergence_achieved].
  change (summarize p :: List.map summarize passes)
    with (List.map summarize (p :: passes)).
  change (improvements p ++ flat_map improvements passes)
    with (flat_map improvements (p :: passes)).
  split; [rewrite List.map_map; reflexivity|].
  split; [now rewrite List.length_map|].
  split; [reflexivity|].
  split; [rewrite List.map_map; apply length_flat_map_sum|].
  split; [reflexivity|].
  split; [now rewrite (ConvergenceFacts.last_rev_head _ _ _ Erev)|].
  split; [reflexivity | apply Qleb_true].
Qed.

Lemma report_is_consistent_witness :
  exists data w',
    _compile_multi_pass_results (__init__ 3)
      [Examples.recorded_pass; Examples.second_listing] 2 None
      Examples.world_after_pass = (Ok (FullReport data), w')
    /\ (List.map s_pass (pass_summary data)
        = List.map pass_number [Examples.recorded_pass; Examples.second_listing]
        /\ total_passes (overall_metrics data) = length (pass_summary data)
        /\ total_improvements (overall_metrics data) = length (all_improvements data)
        /\ total_improvements (overall_metrics data)
           = sum_list (List.map s_improvements (pass_summary data))
        /\ Some (initial_quality (overall_metrics data))
           = quality_score <$> head [Examples.recorded_pass; Examples.second_listing]
        /\ Some (final_quality (overall_metrics data))
           = quality_score <$> last [Examples.recorded_pass; Examples.second_listing]
        /\ overall_quality_improvement (overall_metrics data)
           = final_quality (overall_metrics data)
             - initial_quality (overall_metrics data)
        /\ (convergence_achieved (overall_metrics data) = true
            <-> min_quality_threshold (__init__ 3)
                <= final_quality (overall_metrics data))).
Proof.
  eexists _, _.
  refine ((fun Hcompile =>
             conj Hcompile
               (report_is_consistent (__init__ 3)
                  [Examples.recorded_pass; Examples.second_listing] 2 None
                  Examples.world_after_pass _ _ Hcompile)) _).
  reflexivity.
Defined.

End ReportExtras.

(** ** Recommendations, processing modes and metric ranges *)

Module AdviceFacts.
Import MultiPassProcessor.

Ltac in_list := repeat first [apply list_elem_of_here | apply list_elem_of_further].

Ltac not_in_list :=
  let Hin := fresh "Hin" in
  intros Hin;
  repeat (apply elem_of_cons in Hin as [Hin|Hin]; [discriminate|]);
  inversion Hin.

Lemma excellent_recommended (self : t) (results : Report) :
  "Excellent quality achieved!"%string ∈ get_optimization_recommendations self results
  <-> 0.85 <= fst (fst (reported_metrics results)).
Proof.
  unfold get_optimization_recommendations.
  destruct (reported_metrics results) as [[quality passes] count]. cbn [fst].
  destruct (Qltb quality 0.7) eqn:E1; [|destruct (Qltb quality 0.85) eqn:E2].
  - apply Qltb_true in E1. split.
    + destruct (passes =? 1)%Z, (max_passes self <=? passes)%Z,
        (count =? 0)%nat, (10 <? count)%nat; cbn; not_in_list.
    + intros Hq. lra.
  - apply Qltb_true in E2. split.
    + destruct (passes =? 1)%Z, (max_passes self <=? passes)%Z,
        (count =? 0)%nat, (10 <? count)%nat; cbn; not_in_list.
    + intros Hq. lra.
  - apply Qltb_false in E2. split; [intros _; exact E2|]. intros _.
    destruct (passes =? 1)%Z, (max_passes self <=? passes)%Z,
      (count =? 0)%nat, (10 <? count)%nat; cbn; in_list.
Qed.

(** X7: the recommendations for any report are between one and three
    sentences, the first of which judges the final quality;
    [Excellent quality achieved!] is among them exactly when the final
    quality is at least 0.85; a run of exactly one pass is told that a
    single pass was sufficient and never that the maximum of passes was
    used, even when [max_passes] is 1; and a report without metrics is
    advised as quality 0 with no improvement. *)
Theorem recommendations_follow_the_report (self : t) (results : Report) :
  let recommendations := get_optimization_recommendations self results in
  ((1 <= length recommendations)%nat /\ (length recommendations <= 3)%nat)
  /\ (exists first,
        head recommendations = Some first
        /\ first ∈ [ "Consider manual review - quality below 70%";
                     "Good quality achieved - minor improvements possible";
                     "Excellent quality achieved!" ]%string)
  /\ (forall data, results = FullReport data ->
        ("Excellent quality achieved!"%string ∈ recommendations
         <-> 0.85 <= final_quality (overall_metrics data)))
  /\ (forall data, results = FullReport data ->
        total_passes (overall_metrics data) = 1%nat ->
        "Single pass was sufficient - text was already clear"%string
          ∈ recommendations
        /\ "Maximum passes used - consider manual refinement"%string
             ∉ recommendations)
  /\ (forall error, results = ErrorReport error ->
        recommendations
        = ["Consider manual review - quality below 70%"%string]
          ++ (if (max_passes self <=? 0)%Z
              then ["Maximum passes used - consider manual refinement"%string]
              else [])
          ++ ["No automatic improvements made - text may already be optimal"%string]).
Proof.
  intros recommendations.
  split; [|split; [|split; [|split]]].
  - subst recommendations. unfold get_optimization_recommendations.
    destruct (reported_metrics results) as [[quality passes] count].
    destruct (Qltb quality 0.7), (Qltb quality 0.85), (passes =? 1)%Z,
      (max_passes self <=? passes)%Z, (count =? 0)%nat, (10 <? count)%nat;
      cbn; split; lia.
  - subst recommendations. unfold get_optimization_recommendations.
    destruct (reported_metrics results) as [[quality passes] count].
    destruct (Qltb quality 0.7), (Qltb quality 0.85), (passes =? 1)%Z,
      (max_passes self <=? passes)%Z, (count =? 0)%nat, (10 <? count)%nat;
      cbn; eexists; (split; [reflexivity|]); in_list.
  - intros data ->. apply (excellent_recommended self (FullReport data)).
  - intros data -> Hone. subst recommendations.
    unfold get_optimization_recommendations, reported_metrics.
    rewrite Hone. lazy beta iota zeta. cbn [Z.of_nat Pos.of_succ_nat Z.eqb Pos.eqb].
    destruct (Qltb (final_quality (overall_metrics data)) 0.7),
      (Qltb (final_quality (overall_metrics data)) 0.85),
      (total_improvements (overall_metrics data) =? 0)%nat,
      (10 <? total_improvements (overall_metrics data))%nat;
      cbn; (split; [in_list | not_in_list]).
  - intros error ->. subst recommendations.
    unfold get_optimization_recommendations, reported_metrics.
    lazy beta iota zeta.
    destruct (max_passes self <=? 0)%Z; reflexivity.
Qed.

Lemma compiled_convergence (self : t) (passes : list RefinementPass)
    (total_time : Q) (user_preferences : option (gmap string string))
    (w w' : World) (data : ReportData) :
  _compile_multi_pass_results self passes total_time user_preferences w
    = (Ok (FullReport data), w') ->
  convergence_achieved (overall_metrics data)
  = Qleb (min_quality_threshold self) (final_quality (overall_metrics data)).
Proof.
  unfold _compile_multi_pass_results.
  destruct passes as [|p passes]; [discriminate|].
  destruct (rev (p :: passes)); [discriminate|].
  intros E. injection E as <- <-. reflexivity.
Qed.

(** X8: for a processor whose quality threshold is 0.85, as the default
    and the balanced mode have it, a compiled report says that
    convergence was achieved exactly when its recommendations contain
    [Excellent quality achieved!]. *)
Theorem convergence_means_excellent_at_default_threshold (self : t)
    (passes : list RefinementPass) (total_time : Q)
    (user_preferences : option (gmap string string)) (w w' : World)
    (data : ReportData) :
  _compile_multi_pass_results self passes total_time user_preferences w
    = (Ok (FullReport data), w') ->
  min_quality_threshold self == 0.85 ->
  (convergence_achieved (overall_metrics data) = true
   <-> "Excellent quality achieved!"%string
         ∈ get_optimization_recommendations self (FullReport data)).
Proof.
  intros Hcompile Hthreshold.
  rewrite (compiled_convergence _ _ _ _ _ _ _ Hcompile).
  rewrite (excellent_recommended self (FullReport data)). cbn [reported_metrics fst].
  rewrite Qleb_true, Hthreshold. reflexivity.
Qed.

Lemma convergence_means_excellent_at_default_threshold_witness :
  exists data w',
    _compile_multi_pass_results (__init__ 3)
      [Examples.recorded_pass; Examples.second_listing] 2 None
      Examples.world_after_pass = (Ok (FullReport data), w')
    /\ (convergence_achieved (overall_metrics data) = true
        <-> "Excellent quality achieved!"%string
              ∈ get_optimization_recommendations (__init__ 3) (FullReport data)).
Proof.
  eexists _, _.
  refine ((fun Hcompile =>
             conj Hcompile
               (convergence_means_excellent_at_default_threshold (__init__ 3)
                  [Examples.recorded_pass; Examples.second_listing] 2 None
                  Examples.world_after_pass _ _ Hcompile _)) _).
  - reflexivity.
  - reflexivity.
Defined.

(** X9: every processing mode, known or not, gives a processor with at
    least one pass and both thresholds strictly between 0 and 1; a mode
    other than [conservative] and [aggressive] gives the balanced
    processor, which is the default one with three passes. *)
Theorem every_mode_gives_a_valid_processor (mode : string) :
  let processor := create_custom_processor mode in
  (1 <= max_passes processor)%Z
  /\ (0 < convergence_threshold processor /\ convergence_threshold processor < 1)
  /\ (0 < min_quality_threshold processor /\ min_quality_threshold processor < 1)
  /\ (String.eqb mode "conservative" = false ->
      String.eqb mode "aggressive" = false ->
      processor = create_custom_processor "balanced" /\ processor = __init__ 3).
Proof.
  intros processor. subst processor.
  unfold create_custom_processor, get_processing_config.
  destruct (String.eqb mode "conservative") eqn:E1;
    [|destruct (String.eqb mode "aggressive") eqn:E2].
  - repeat split; try reflexivity; try discriminate.
  - repeat split; try reflexivity; try discriminate.
  - repeat split; try reflexivity; try discriminate.
Qed.

Lemma every_mode_gives_a_valid_processor_witness :
  create_custom_processor "thorough" = create_custom_processor "balanced"
  /\ create_custom_processor "thorough" = __init__ 3.
Proof.
  apply (every_mode_gives_a_valid_processor "thorough"); reflexivity.
Defined.

End AdviceFacts.

(** ** Ranges of the per-pass metrics *)

Module MetricsRanges.
Import MultiPassProcessor.

Lemma ratio_above_one (d n : Z) :
  (0 < n)%Z -> (1 - of_int d / of_int n < 0 <-> (n < d)%Z).
Proof.
  intros Hn.
  assert (Hpos : 0 < of_int n).
  { unfold of_int. change 0 with (inject_Z 0). now rewrite <- Zlt_Qlt. }
  split.
  - intros Hneg. apply Z.lt_nge. intros Hle.
    assert (Hq : of_int d / of_int n <= 1).
    { apply Qle_shift_div_r; [exact Hpos|]. rewrite Qmult_1_l.
      unfold of_int. now rewrite <- Zle_Qle. }
    lra.
  - intros Hlt.
    assert (Hq : 1 < of_int d / of_int n).
    { apply Qlt_shift_div_l; [exact Hpos|]. rewrite Qmult_1_l.
      unfold of_int. now rewrite <- Zlt_Qlt. }
    lra.
Qed.

(** X10: whenever the input text is not empty, or both texts are empty,
    the per-pass metrics are computed without an exception; the change
    ratio lies between 0 and 1, the text similarity is at most 1 and is
    negative exactly when the output is more than twice as long as the
    input; [changes_made] is false exactly for identical texts, for
    which the change ratio is 0 and the similarity 1; and against a
    previous quality that is not negative the quality improvement is
    the difference of the two scores. *)
Theorem convergence_metrics_ranges
    (input_text output_text : str) (prev_quality curr_quality : Q) :
  input_text <> [] \/ output_text = [] ->
  exists m,
    _calculate_convergence_metrics input_text output_text prev_quality curr_quality
      = Ok m
    /\ (0 <= change_ratio m /\ change_ratio m <= 1)
    /\ text_similarity m <= 1
    /\ (text_similarity m < 0 <-> (2 * len input_text < len output_text)%Z)
    /\ (changes_made m = false <-> input_text = output_text)
    /\ (input_text = output_text -> change_ratio m == 0 /\ text_similarity m == 1)
    /\ (0 <= prev_quality -> quality_improvement m == curr_quality - prev_quality).
Proof.
  intros Hcase.
  assert (Hqi : 0 <= prev_quality ->
                (if Qltb 0 prev_quality then curr_quality - prev_quality
                 else curr_quality) == curr_quality - prev_quality).
  { intros Hp. destruct (Qltb 0 prev_quality) eqn:E; [reflexivity|].
    apply Qltb_false in E. assert (E0 : prev_quality == 0) by lra.
    rewrite E0. ring. }
  destruct input_text as [|c input_text].
  - destruct Hcase as [Hne| ->]; [congruence|].
    eexists. split; [reflexivity|].
    cbn [change_ratio text_similarity changes_made quality_improvement].
    split; [split; discriminate|].
    split; [discriminate|].
    split; [split; [intros Habs; discriminate Habs | intros Hlt; vm_compute in Hlt; discriminate Hlt]|].
    split; [split; reflexivity|].
    split; [intros _; split; reflexivity | exact Hqi].
  - set (input := c :: input_text) in *.
    assert (Hin : input <> []) by discriminate.
    pose proof (ConvergenceMetricsFacts.len_nonempty _ Hin) as Hlen.
    eexists. split.
    { apply ConvergenceMetricsFacts.convergence_metrics_nonempty_input. exact Hin. }
    cbn [change_ratio text_similarity changes_made quality_improvement].
    set (d := Z.abs (len output_text - len input)).
    assert (Hpos : 0 < of_int (len input)).
    { unfold of_int. change 0 with (inject_Z 0). now rewrite <- Zlt_Qlt. }
    assert (Hd : 0 <= of_int d).
    { unfold of_int. change 0 with (inject_Z 0). rewrite <- Zle_Qle. subst d. lia. }
    assert (Hratio : 0 <= of_int d / of_int (len input))
      by now apply Qdiv_nonneg.
    assert (Hout : (0 <= len output_text)%Z) by (unfold len; lia).
    split; [|split; [|split; [|split; [|split]]]].
    + destruct (str_eqb input output_text); [split; discriminate|].
      split; [|apply Q.le_min_l]. apply Q.min_glb; [discriminate | exact Hratio].
    + lra.
    + rewrite (ratio_above_one d _ Hlen). subst d. lia.
    + rewrite negb_false_iff. apply ConvergenceMetricsFacts.str_eqb_eq.
    + intros Esame.
      assert (Et : str_eqb input output_text = true)
        by now apply ConvergenceMetricsFacts.str_eqb_eq.
      rewrite Et. split; [reflexivity|].
      assert (Ed : d = 0%Z) by (subst d; rewrite Esame; lia).
      rewrite Ed. unfold of_int at 1. change (inject_Z 0) with 0. field.
      intros E0. rewrite E0 in Hpos. apply (Qlt_irrefl 0 Hpos).
    + exact Hqi.
Qed.

Lemma convergence_metrics_ranges_witness :
  exists m,
    _calculate_convergence_metrics Examples.greeting (lit "hola que tal") 0.5 0.6
      = Ok m
    /\ (0 <= change_ratio m /\ change_ratio m <= 1)
    /\ text_similarity m <= 1
    /\ (text_similarity m < 0
        <-> (2 * len Examples.greeting < len (lit "hola que tal"))%Z)
    /\ (changes_made m = false <-> Examples.greeting = lit "hola que tal")
    /\ (Examples.greeting = lit "hola que tal" ->
        change_ratio m == 0 /\ text_similarity m == 1)
    /\ (0 <= 0.5 -> quality_improvement m == 0.6 - 0.5).
Proof.
  apply (convergence_metrics_ranges Examples.greeting (lit "hola que tal") 0.5 0.6).
  left. discriminate.
Defined.

End MetricsRanges.

(** ** Segmentation *)

Module SegmentationFacts.
Import QualityAnalyzer.

Lemma lstrip_split (s : str) :
  exists spaces,
    s = spaces ++ lstrip s /\ Forall (fun c => is_space c = true) spaces.
Proof.
  induction s as [|c s (spaces & E & Hs)].
  - exists []. split; [reflexivity | constructor].
  - cbn [lstrip]. destruct (is_space c) eqn:Ec.
    + exists (c :: spaces). split; [cbn; now rewrite <- E | now constructor].
    + exists []. split; [reflexivity | constructor].
Qed.

Lemma lstrip_head (s : str) (c : char) :
  head (lstrip s) = Some c -> is_space c = false.
Proof.
  induction s as [|c0 s IH]; [discriminate|].
  cbn [lstrip]. destruct (is_space c0) eqn:Ec; [exact IH|].
  cbn. intros E. injection E as <-. exact Ec.
Qed.

Lemma head_app_nonempty {A : Type} (l r : list A) :
  l <> [] -> head (l ++ r) = head l.
Proof. destruct l; [congruence | reflexivity]. Qed.

Lemma last_rev {A : Type} (l : list A) : last (rev l) = head l.
Proof.
  destruct l as [|x l]; [reflexivity|]. cbn [rev]. apply last_snoc.
Qed.

(** A stripped string is a part of the original, and when it is not
    empty it begins and ends with a character that is not white space. *)
Lemma strip_spec (s : str) :
  (exists before after, s = before ++ strip s ++ after)
  /\ (forall c, head (strip s) = Some c -> is_space c = false)
  /\ (forall c, last (strip s) = Some c -> is_space c = false).
Proof.
  unfold strip.
  destruct (lstrip_split s) as (before & Es & _).
  destruct (lstrip_split (rev (lstrip s))) as (after & Er & _).
  set (a := lstrip s) in *. set (b := lstrip (rev a)) in *.
  assert (Ea : a = rev b ++ rev after).
  { rewrite <- (rev_involutive a), Er, rev_app_distr. reflexivity. }
  split; [|split].
  - exists before, (rev after). now rewrite <- Ea.
  - intros c Hc. apply (lstrip_head s). fold a. rewrite Ea.
    rewrite head_app_nonempty; [exact Hc|]. intros E. rewrite E in Hc. discriminate.
  - intros c Hc. rewrite last_rev in Hc. exact (lstrip_head _ _ Hc).
Qed.

Lemma pieces_have_no_terminator (s : str) :
  forall (cur : str) (in_run : bool),
    Forall (fun c => is_terminator c = false) cur ->
    Forall (Forall (fun c => is_terminator c = false))
      (re_split_terminators s cur in_run).
Proof.
  induction s as [|c s IH]; intros cur in_run Hcur.
  - cbn. constructor; [|constructor]. now apply Forall_rev.
  - cbn [re_split_terminators]. destruct (is_terminator c) eqn:Ec.
    + destruct in_run.
      * apply IH. constructor.
      * constructor; [now apply Forall_rev | apply IH; constructor].
    + apply IH. now constructor.
Qed.

Lemma split_ws_finds_a_word (s : str) :
  forall cur : str,
    cur <> [] \/ Exists (fun c => is_space c = false) s ->
    split_ws s cur <> [].
Proof.
  induction s as [|c s IH]; intros cur Hc.
  - destruct Hc as [Hcur|Hex]; [|inversion Hex].
    cbn. destruct cur; [congruence | discriminate].
  - cbn [split_ws]. destruct (is_space c) eqn:Ec.
    + destruct cur; [|discriminate].
      apply IH. right. destruct Hc as [Hcur|Hex]; [congruence|].
      inversion Hex as [? ? Hhere|? ? Hlater]; subst; [congruence | exact Hlater].
    + apply IH. left. discriminate.
Qed.

(** X11: every sentence that the segmentation extracts is not empty,
    begins and ends with a character that is not white space, contains
    no terminal punctuation, and has at least one word. *)
Theorem extracted_sentences_are_clean (text sentence : str) :
  sentence ∈ _extract_sentences text ->
  sentence <> []
  /\ (forall c, head sentence = Some c -> is_space c = false)
  /\ (forall c, last sentence = Some c -> is_space c = false)
  /\ Forall (fun c => is_terminator c = false) sentence
  /\ (1 <= word_count sentence)%nat.
Proof.
  unfold _extract_sentences. intros Hin.
  apply list_elem_of_In, in_map_iff in Hin as (piece & <- & Hpiece).
  apply filter_In in Hpiece as [Hpiece Hfull].
  destruct (strip_spec piece) as ((before & after & Epiece) & Hhead & Hlast).
  assert (Hne : strip piece <> []).
  { intros E. rewrite E in Hfull. discriminate. }
  assert (Hterm : Forall (fun c => is_terminator c = false) (strip piece)).
  { pose proof (pieces_have_no_terminator text [] false (Forall_nil_2 _)) as Hall.
    rewrite Forall_forall in Hall.
    specialize (Hall piece (proj2 (list_elem_of_In _ _) Hpiece)).
    rewrite Epiece in Hall.
    apply Forall_app in Hall as [_ Hall]. now apply Forall_app in Hall as [Hall _]. }
  split; [exact Hne|]. split; [exact Hhead|]. split; [exact Hlast|].
  split; [exact Hterm|].
  unfold word_count, split.
  assert (Hword : split_ws (strip piece) [] <> []).
  { apply split_ws_finds_a_word. right.
    destruct (strip piece) as [|c rest] eqn:Es; [congruence|].
    apply Exists_cons_hd. apply Hhead. reflexivity. }
  destruct (split_ws (strip piece) []); [congruence | cbn; lia].
Qed.

Lemma extracted_sentences_are_clean_witness :
  lit "Que tal" <> []
  /\ (forall c, head (lit "Que tal") = Some c -> is_space c = false)
  /\ (forall c, last (lit "Que tal") = Some c -> is_space c = false)
  /\ Forall (fun c => is_terminator c = false) (lit "Que tal")
  /\ (1 <= word_count (lit "Que tal"))%nat.
Proof.
  apply (extracted_sentences_are_clean (lit "Hola mundo.  Que tal?! ") (lit "Que tal")).
  vm_compute. apply list_elem_of_further, list_elem_of_here.
Defined.

End SegmentationFacts.

(** ** Ranges of the scores *)

Module ScoreRanges.
Import QualityAnalyzer.






Lemma sample_stdev_nonneg (l : list Q) : 0 <= Latin1.sample_stdev l.
Proof.
  unfold Latin1.sample_stdev, Latin1.sqrt6, Qle. cbn [Qnum Qden].
  pose proof (Z.sqrt_nonneg
    (Qnum (sum (List.map (fun x => (x - sum l / of_nat (length l))
                                   * (x - sum l / of_nat (length l))) l)
           / (of_nat (length l) - 1))
     * Zpos (Qden (sum (List.map (fun x => (x - sum l / of_nat (length l))
                                   * (x - sum l / of_nat (length l))) l)
           / (of_nat (length l) - 1))) * 10 ^ 12)).
  lia.
Qed.

Section WithPyLib.
Context `{PyLib}.

Lemma sentence_complexity_of_range (sentence : str) :
  0.256 <= sentence_complexity_of sentence /\ sentence_complexity_of sentence <= 1.
Proof.
  unfold sentence_complexity_of, length_complexity, complex_structures.
  cbn [fold_left].
  repeat match goal with
         | |- context [re_search ?p true sentence] =>
             destruct (re_search p true sentence)
         end;
    (destruct (30 <? _)%nat;
     [|destruct (20 <? _)%nat; [|destruct (_ <? 5)%nat]]);
    split; lra.
Qed.

Lemma sentence_complexity_range (sentences : list str) :
  exists c,
    _analyze_sentence_complexity sentences = Ok c /\ 0.256 <= c /\ c <= 1.
Proof.
  destruct sentences as [|s sentences].
  - exists 1. split; [reflexivity|]. split; lra.
  - unfold _analyze_sentence_complexity.
    apply QualityFacts.mean_bounds; [discriminate|].
    apply List.Forall_map, Forall_forall. intros x _.
    apply sentence_complexity_of_range.
Qed.

Lemma vocabulary_complexity_range (words : list str) :
  exists v,
    _analyze_vocabulary_complexity words = Ok v /\ 0.2 <= v /\ v <= 1.
Proof.
  destruct words as [|w words].
  { exists 1. split; [reflexivity|]. split; lra. }
  unfold _analyze_vocabulary_complexity.
  rewrite div_ok by (apply QualityFacts.of_nat_nonzero; cbn; lia). cbn [bind].
  eexists. split; [reflexivity|].
  split; [apply Q.le_max_l|].
  apply Q.max_lub; [lra|].
  set (ratio := _ / _).
  assert (Hr : 0 <= ratio).
  { apply Qdiv_nonneg; [apply of_nat_nonneg | apply of_nat_pos; cbn; lia]. }
  lra.
Qed.

Lemma precision_score_range (text : str) (words : list str) :
  words <> [] ->
  exists p,
    _calculate_precision_score text words = Ok p /\ 0.5 <= p /\ p <= 1.
Proof.
  intros Hw. unfold _calculate_precision_score.
  assert (Hlen : (0 < length words)%nat)
    by (apply QualityFacts.nonempty_length, QualityFacts.nonempty_true, Hw).
  rewrite div_ok by (now apply QualityFacts.of_nat_nonzero). cbn [bind].
  eexists. split; [reflexivity|].
  split; [apply Q.le_max_l|].
  apply Q.max_lub; [lra|].
  set (ratio := _ / _).
  assert (Hr : 0 <= ratio).
  { apply Qdiv_nonneg; [apply of_nat_nonneg | now apply of_nat_pos]. }
  lra.
Qed.

Lemma text_structure_range (text : str) (sentences : list str) :
  exists s,
    _analyze_text_structure text sentences = Ok s /\ 0.72 <= s /\ s <= 1.
Proof.
  unfold _analyze_text_structure.
  set (paragraphs := List.map strip _).
  set (variety := Qltb _ _).
  destruct (1 <? length paragraphs)%nat eqn:Ep.
  - apply Nat.ltb_lt in Ep.
    rewrite div_ok by (apply QualityFacts.of_nat_nonzero; lia). cbn [bind].
    eexists. split; [reflexivity|].
    split; [|apply Q.le_min_l].
    apply Q.min_glb; [lra|].
    destruct (_ && _), variety; lra.
  - cbn [bind]. eexists. split; [reflexivity|].
    split; [|apply Q.le_min_l].
    apply Q.min_glb; [lra|].
    destruct variety; lra.
Qed.

Lemma clarity_score_range (text : str) (sentences : list str) :
  sentences <> [] ->
  exists c,
    _calculate_clarity_score text sentences = Ok c /\ 0.4 <= c /\ c <= 1.
Proof.
  intros Hs. unfold _calculate_clarity_score.
  set (passive_count := fold_left _ passive_voice 0%nat).
  set (flow_count := length (List.filter _ flow_indicators)).
  assert (Hlen : (0 < length sentences)%nat)
    by (apply QualityFacts.nonempty_length, QualityFacts.nonempty_true, Hs).
  destruct sentences as [|s0 sentences]; [congruence|].
  set (all := s0 :: sentences) in *.
  rewrite div_ok by (now apply QualityFacts.of_nat_nonzero). cbn [bind].
  set (passive_ratio := of_nat passive_count / of_nat (length all)).
  assert (Hratio : 0 <= passive_ratio).
  { apply Qdiv_nonneg; [apply of_nat_nonneg | now apply of_nat_pos]. }
  set (active := Qmax 0.5 (1 - passive_ratio)).
  assert (Hactive : 0.5 <= active /\ active <= 1).
  { split; [apply Q.le_max_l|]. apply Q.max_lub; lra. }
  unfold all at 1. cbn [List.map]. fold all.
  cbn [mean bind].
  rewrite (QualityFacts.mean_ok (List.map _ all)) by (unfold all; discriminate).
  cbn [bind].
  set (length_score := if _ && _ then 1 else 0.7).
  assert (Hls : 0.7 <= length_score /\ length_score <= 1).
  { unfold length_score. destruct (_ && _); split; lra. }
  rewrite div_ok by apply QualityFacts.Qmax_1_nonzero. cbn [bind].
  set (flow_ratio := of_nat flow_count / _).
  assert (Hflow : 0 <= Qmin 1 flow_ratio /\ Qmin 1 flow_ratio <= 1).
  { split; [|apply Q.le_min_l].
    apply Q.min_glb; [lra|].
    apply Qdiv_nonneg; [apply of_nat_nonneg | apply QualityFacts.Qmax_1_pos]. }
  cbn [app]. eexists. split; [reflexivity|].
  cbn [sum fold_right length].
  change (of_nat 3) with 3.
  split.
  - apply Qle_shift_div_l; lra.
  - apply Qle_shift_div_r; lra.
Qed.

Lemma coherence_score_range (sentences : list str) :
  exists c,
    _calculate_coherence_score sentences = Ok c /\ 0.8 <= c /\ c <= 1.
Proof.
  unfold _calculate_coherence_score.
  destruct (length sentences <? 2)%nat.
  { exists 1. split; [reflexivity|]. split; lra. }
  set (all_words := flat_map _ sentences). clearbody all_words.
  destruct all_words as [|w ws].
  - cbn [bind]. eexists. split; [reflexivity|].
    split; [|apply Q.le_min_l]. apply Q.min_glb; lra.
  - assert (Hd : (0 < distinct (w :: ws))%nat)
      by (apply QualityFacts.remove_dups_nonempty; discriminate).
    rewrite div_ok by (now apply QualityFacts.of_nat_nonzero). cbn [bind].
    eexists. split; [reflexivity|].
    split; [|apply Q.le_min_l].
    apply Q.min_glb; [lra|].
    set (ratio := _ / _).
    assert (Hr : 0 <= Qmin 1 ratio).
    { apply Q.min_glb; [lra|].
      apply Qdiv_nonneg; [apply of_nat_nonneg | now apply of_nat_pos]. }
    lra.
Qed.

Lemma grammar_accuracy_range (text : str) (context : option Results) :
  exists g,
    _estimate_grammar_accuracy text context = Ok g /\ 0.3 <= g /\ g <= 0.95.
Proof.
  unfold _estimate_grammar_accuracy.
  destruct (context_agent_results context) as [agent_results|].
  - destruct (default [] _) as [|c cs].
    + exists 0.95. split; [reflexivity|]. split; lra.
    + rewrite div_ok by apply QualityFacts.Qmax_1_nonzero. cbn [bind].
      eexists. split; [reflexivity|].
      split; [apply Q.le_max_l|].
      apply Q.max_lub; [lra|].
      set (density := _ / _).
      assert (Hd : 0 <= density).
      { apply Qdiv_nonneg; [apply of_nat_nonneg | apply QualityFacts.Qmax_1_pos]. }
      lra.
  - exists 0.8. split; [reflexivity|]. split; lra.
Qed.

Lemma tense_share (present past future : nat) :
  (0 < present + past + future)%nat ->
  1 # 3 <= of_nat (Nat.max present (Nat.max past future))
           / of_nat (present + past + future)
  /\ of_nat (Nat.max present (Nat.max past future))
     / of_nat (present + past + future) <= 1.
Proof.
  intros Ht.
  assert (Hpos : 0 < of_nat (present + past + future)) by now apply of_nat_pos.
  split.
  - apply Qle_shift_div_l; [exact Hpos|].
    assert (Hle : of_nat (present + past + future)
                  <= of_nat (3 * Nat.max present (Nat.max past future)))
      by (apply of_nat_le; lia).
    assert (E : of_nat (3 * Nat.max present (Nat.max past future))
                == 3 * of_nat (Nat.max present (Nat.max past future))).
    { unfold of_nat. rewrite Nat2Z.inj_mul, inject_Z_mult. reflexivity. }
    rewrite E in Hle. lra.
  - apply Qdiv_le_1; [apply of_nat_le; lia | exact Hpos].
Qed.

Lemma style_consistency_range (sentences : list str) :
  (forall l, 0 <= stdev l) ->
  exists s,
    _analyze_style_consistency sentences = Ok s /\ 5 # 12 <= s /\ s <= 1.
Proof.
  intros Hstd. unfold _analyze_style_consistency.
  destruct (length sentences <? 2)%nat eqn:El.
  { exists 1. split; [reflexivity|]. split; lra. }
  apply Nat.ltb_ge in El.
  destruct sentences as [|s0 sentences]; [cbn in El; lia|].
  cbn [List.map mean bind].
  set (lengths := of_nat (word_count s0) :: List.map _ sentences).
  set (mean_length := _ / _).
  set (length_std := if (1 <? length lengths)%nat then stdev lengths else 0).
  set (present := count_matching present_tense_pattern _).
  set (past := count_matching past_tense_pattern _).
  set (future := count_matching future_tense_pattern _).
  assert (Hls : 0 <= length_std).
  { unfold length_std. destruct (1 <? length lengths)%nat; [apply Hstd | lra]. }
  assert (Hrel : exists relative_std,
            (if Qltb 0 mean_length then div length_std mean_length else Ok 1)
            = Ok relative_std /\ 0 <= relative_std).
  { destruct (Qltb 0 mean_length) eqn:Em.
    - apply Qltb_true in Em.
      rewrite div_ok by (intros E; rewrite E in Em; apply (Qlt_irrefl 0 Em)).
      eexists. split; [reflexivity|]. now apply Qdiv_nonneg.
    - exists 1. split; [reflexivity|]. lra. }
  destruct Hrel as (relative_std & -> & Hrel). cbn [bind].
  assert (Hlc : 0.5 <= Qmax 0.5 (1 - relative_std)
                /\ Qmax 0.5 (1 - relative_std) <= 1).
  { split; [apply Q.le_max_l|]. apply Q.max_lub; lra. }
  set (length_consistency := Qmax 0.5 (1 - relative_std)) in *.
  destruct (0 <? present + past + future)%nat eqn:Et.
  - apply Nat.ltb_lt in Et.
    destruct (tense_share present past future Et) as [Hlo Hhi].
    rewrite div_ok by (now apply QualityFacts.of_nat_nonzero). cbn [bind].
    eexists. split; [reflexivity|].
    set (tense := _ / of_nat _) in *.
    split; [apply Qle_shift_div_l | apply Qle_shift_div_r]; lra.
  - cbn [bind]. eexists. split; [reflexivity|].
    split; [apply Qle_shift_div_l | apply Qle_shift_div_r]; lra.
Qed.

Lemma basic_seo_quality_range (text : str) :
  0.4 <= basic_seo_quality text /\ basic_seo_quality text <= 0.8.
Proof.
  unfold basic_seo_quality.
  destruct (_ && _); [split; lra|].
  destruct (_ <? 100)%nat; split; lra.
Qed.

Lemma seo_quality_range (text : str) (context : option Results) :
  (forall agent_results seo cb b,
     context_agent_results context = Some agent_results ->
     agent_results !! "seo"%string = Some seo ->
     clarity_balance seo = Some cb ->
     balance_score cb = Some b ->
     0 <= b /\ b <= 1) ->
  0 <= _analyze_seo_quality text context /\ _analyze_seo_quality text context <= 1.
Proof.
  intros Hb. pose proof (basic_seo_quality_range text) as [Hlo Hhi].
  unfold _analyze_seo_quality.
  destruct (context_agent_results context) as [agent_results|]; [|split; lra].
  specialize (Hb agent_results).
  destruct (agent_results !! "seo"%string) as [seo|]; cbn [from_option id].
  - specialize (Hb seo).
    destruct (agent_result_truthy seo); [|split; lra].
    destruct (clarity_balance seo) as [cb|]; [|split; lra].
    specialize (Hb cb).
    destruct (balance_score cb) as [b|]; cbn [from_option id]; [|split; lra].
    now apply Hb.
  - cbn. split; lra.
Qed.

Lemma confidence_level_range (text : str) (context : option Results) :
  0.3 <= _calculate_confidence_level text context
  /\ _calculate_confidence_level text context <= 1.
Proof.
  unfold _calculate_confidence_level.
  split; [|apply Q.le_min_l].
  apply Q.min_glb; [lra | apply Q.le_max_l].
Qed.

Lemma improvement_potential_range (q : Q) (context : option Results) :
  0 <= q -> q <= 1 ->
  0.7 * (1 - q) <= _calculate_improvement_potential q context
  /\ _calculate_improvement_potential q context <= 1 - q.
Proof.
  intros Hq0 Hq1. unfold _calculate_improvement_potential.
  destruct (context_improvements context) as [improvements|].
  - destruct (5 <? length improvements)%nat.
    + split; [apply Q.min_glb; lra|].
      eapply Qle_trans; [apply Q.le_min_r|]. lra.
    + split; [apply Q.min_glb; lra | apply Q.le_min_r].
  - split; [apply Q.min_glb; lra | apply Q.le_min_r].
Qed.

(** The assessment of a text with a sentence and a word, score by score. *)
Lemma assessment_ranges (text : str) (context : option Results) :
  _extract_sentences text <> [] -> split text <> [] ->
  exists m,
    analyze_comprehensive_quality text context = Ok m
    /\ (0 <= readability_score m /\ readability_score m <= 1)
    /\ (0.256 <= sentence_complexity m /\ sentence_complexity m <= 1)
    /\ (0.2 <= vocabulary_complexity m /\ vocabulary_complexity m <= 1)
    /\ (0.72 <= structure_score m /\ structure_score m <= 1)
    /\ (0.4 <= clarity_score m /\ clarity_score m <= 1)
    /\ (0.8 <= coherence_score m /\ coherence_score m <= 1)
    /\ (0.5 <= precision_score m /\ precision_score m <= 1)
    /\ (0.3 <= grammar_accuracy m /\ grammar_accuracy m <= 0.95)
    /\ ((forall l, 0 <= stdev l) ->
        5 # 12 <= style_consistency m /\ style_consistency m <= 1)
    /\ seo_optimization m = _analyze_seo_quality text context
    /\ (0.388 <= overall_quality m /\ overall_quality m <= 0.99)
    /\ (0.3 <= confidence_level m /\ confidence_level m <= 1)
    /\ (0.7 * (1 - overall_quality m) <= improvement_potential m
        /\ improvement_potential m <= 1 - overall_quality m).
Proof.
  intros Hs Hw. unfold analyze_comprehensive_quality.
  rewrite (QualityFacts.nonempty_true _ Hs), (QualityFacts.nonempty_true _ Hw).
  cbn [negb orb].
  set (sentences := _extract_sentences text) in *.
  set (words := split text) in *.
  clearbody sentences words.
  destruct (QualityFacts.readability_ok text sentences words Hs Hw)
    as (r & -> & Hr).
  destruct (sentence_complexity_range sentences) as (sc & -> & Hsc).
  destruct (vocabulary_complexity_range words) as (vc & -> & Hvc).
  destruct (text_structure_range text sentences) as (st & -> & Hst).
  destruct (clarity_score_range text sentences Hs) as (cl & -> & Hcl).
  destruct (coherence_score_range sentences) as (co & -> & Hco).
  destruct (precision_score_range text words Hw) as (pr & -> & Hpr).
  destruct (grammar_accuracy_range text context) as (g & -> & Hg).
  cbn [bind].
  destruct (_analyze_style_consistency sentences) as [sy|e] eqn:Esy.
  2:{ destruct (QualityFacts.style_consistency_ok sentences) as (sy & E).
      congruence. }
  cbn [bind].
  destruct (QualityFacts.overall_quality_ok r cl g st co) as (q & -> & Hq).
  cbn [bind]. eexists. split; [reflexivity|].
  cbn [readability_score sentence_complexity vocabulary_complexity
       structure_score clarity_score coherence_score precision_score
       grammar_accuracy style_consistency seo_optimization overall_quality
       confidence_level improvement_potential].
  assert (Hq' : 0.388 <= q /\ q <= 0.99) by (rewrite Hq; split; lra).
  repeat (split; [tauto|]).
  split.
  { intros Hstd.
    destruct (style_consistency_range sentences Hstd) as (sy' & E & Hsy).
    rewrite Esy in E. injection E as <-. exact Hsy. }
  split; [reflexivity|].
  split; [exact Hq'|].
  split; [apply confidence_level_range|].
  apply improvement_potential_range; lra.
Qed.

(** X12: the assessment of every text returns, and each of its thirteen
    scores lies between 0 and 1, provided that the standard deviation
    of the run time is never negative and that the balance score
    reported by an SEO agent, when there is one, lies between 0 and
    1. *)
Theorem every_score_lies_between_zero_and_one
    (text : str) (context : option Results) :
  (forall l, 0 <= stdev l) ->
  (forall agent_results seo cb b,
     context_agent_results context = Some agent_results ->
     agent_results !! "seo"%string = Some seo ->
     clarity_balance seo = Some cb ->
     balance_score cb = Some b ->
     0 <= b /\ b <= 1) ->
  exists m,
    analyze_comprehensive_quality text context = Ok m
    /\ Forall (fun score => 0 <= score /\ score <= 1)
         [ readability_score m; sentence_complexity m;
           vocabulary_complexity m; structure_score m; clarity_score m;
           coherence_score m; precision_score m; grammar_accuracy m;
           style_consistency m; seo_optimization m; overall_quality m;
           confidence_level m; improvement_potential m ].
Proof.
  intros Hstd Hseo.
  assert (Hzero : exists m,
            Ok zero_metrics = Ok m
            /\ Forall (fun score => 0 <= score /\ score <= 1)
                 [ readability_score m; sentence_complexity m;
                   vocabulary_complexity m; structure_score m; clarity_score m;
                   coherence_score m; precision_score m; grammar_accuracy m;
                   style_consistency m; seo_optimization m; overall_quality m;
                   confidence_level m; improvement_potential m ]).
  { exists zero_metrics. split; [reflexivity|].
    cbn. repeat constructor; discriminate. }
  destruct (_extract_sentences text) as [|s0 sentences] eqn:Es.
  { rewrite (QualityFacts.guard_degenerate text context) by (now left).
    exact Hzero. }
  destruct (split text) as [|w0 words] eqn:Ew.
  { rewrite (QualityFacts.guard_degenerate text context) by (now right).
    exact Hzero. }
  destruct (assessment_ranges text context) as
    (m & E & Hr & Hsc & Hvc & Hst & Hcl & Hco & Hpr & Hg & Hsy & Hseo' & Hq
       & Hcf & Hip).
  { rewrite Es. discriminate. }
  { rewrite Ew. discriminate. }
  exists m. split; [exact E|].
  specialize (Hsy Hstd).
  pose proof (seo_quality_range text context Hseo) as Hs. rewrite <- Hseo' in Hs.
  repeat (constructor; [split; lra|]). constructor.
Qed.



End WithPyLib.

Lemma every_score_lies_between_zero_and_one_witness :
  exists m,
    analyze_comprehensive_quality Examples.twenty_one_words None = Ok m
    /\ Forall (fun score => 0 <= score /\ score <= 1)
         [ readability_score m; sentence_complexity m;
           vocabulary_complexity m; structure_score m; clarity_score m;
           coherence_score m; precision_score m; grammar_accuracy m;
           style_consistency m; seo_optimization m; overall_quality m;
           confidence_level m; improvement_potential m ].
Proof.
  apply (every_score_lies_between_zero_and_one Examples.twenty_one_words None).
  - exact sample_stdev_nonneg.
  - cbn. discriminate.
Defined.


End ScoreRanges.

(** ** Convergence indicators, recommendation and trend *)

Module ConvergenceExtras.
Import QualityAnalyzer ConvergenceDetector.

Lemma last_three_of_rev {A : Type} (l : list A) (x y z : A) (older : list A) :
  rev l = x :: y :: z :: older -> last_n 3 l = [z; y; x].
Proof.
  intros E. rewrite <- (rev_involutive l), E. cbn [rev].
  rewrite <- !app_assoc. cbn [app]. unfold last_n.
  rewrite length_app. cbn [length].
  replace (length (rev older) + 3 - 3)%nat with (length (rev older) + 0)%nat by lia.
  rewrite drop_app_add. reflexivity.
Qed.

Lemma three_entries {A : Type} (l : list A) :
  (3 <= length l)%nat ->
  exists current previous before older,
    rev l = current :: previous :: before :: older.
Proof.
  intros Hl. rewrite <- length_rev in Hl.
  destruct (rev l) as [|x [|y [|z r]]]; cbn [length] in Hl; try lia.
  now exists x, y, z, r.
Qed.

Lemma spread_bounds_last_step (o p c : Q) :
  Qabs (c - p) <= Qmax (Qmax o p) c - Qmin (Qmin o p) c.
Proof.
  pose proof (Q.le_max_r o p). pose proof (Q.le_max_l (Qmax o p) c).
  pose proof (Q.le_max_r (Qmax o p) c).
  pose proof (Q.le_min_r o p). pose proof (Q.le_min_l (Qmin o p) c).
  pose proof (Q.le_min_r (Qmin o p) c).
  apply Qabs_case; intros _; lra.
Qed.

(** A plateau over the last three assessments is also stability of the
    last two. *)
Lemma plateau_gives_stability (quality_history : list QualityMetrics) :
  _detect_quality_plateau quality_history = true ->
  _detect_stability quality_history = true.
Proof.
  unfold _detect_quality_plateau.
  destruct (length quality_history <? 3)%nat eqn:El; [discriminate|].
  apply Nat.ltb_ge in El.
  destruct (three_entries quality_history El) as (c & p & o & older & Erev).
  rewrite (last_three_of_rev _ _ _ _ _ Erev). cbn [List.map fold_left].
  intros Hr. apply Qltb_true in Hr.
  unfold _detect_stability.
  rewrite (ConvergenceFacts.last_two_of_rev _ _ _ _ Erev).
  replace (length quality_history <? 2)%nat with false
    by (symmetry; apply Nat.ltb_ge; lia).
  cbn [List.map]. apply Qltb_true.
  eapply Qle_lt_trans; [apply spread_bounds_last_step | exact Hr].
Qed.

Ltac one_of_the_strings :=
  cbn [In]; repeat (first [left; reflexivity | right]).

(** X15: when the last three assessments form a plateau (their overall
    qualities differ by less than 0.01), the last two are stable, the
    decision is converged, by the excellent-quality rule or by the rule
    of at least three indicators, and the recommendation is not to
    continue. *)
Theorem plateau_implies_convergence
    (quality_history : list QualityMetrics)
    (improvement_history : list ImprovementEntry) :
  _detect_quality_plateau quality_history = true ->
  let decision := detect_convergence quality_history improvement_history in
  _detect_stability quality_history = true
  /\ converged decision = true
  /\ (reason decision = "Excellent quality achieved"%string
      \/ reason decision = "Multiple convergence indicators detected"%string)
  /\ In (recommendation decision)
       [ "stop_excellent"; "stop_good"; "manual_review";
         "stop_convergence" ]%string.
Proof.
  intros Hpl decision.
  pose proof (plateau_gives_stability _ Hpl) as Hst.
  split; [exact Hst|].
  assert (El : (3 <= length quality_history)%nat).
  { unfold _detect_quality_plateau in Hpl.
    destruct (length quality_history <? 3)%nat eqn:El; [discriminate|].
    now apply Nat.ltb_ge in El. }
  destruct (three_entries quality_history El) as (c & p & o & older & Erev).
  pose proof (ConvergenceFacts.stability_gives_minimal_improvement
                _ _ _ _ Erev Hst) as Hmi.
  unfold decision, detect_convergence. rewrite Erev.
  change minimal_improvement_threshold with 0.02.
  rewrite Hpl, Hst, Hmi.
  unfold _determine_convergence_status, _generate_convergence_recommendation,
    indicator_count.
  cbn [quality_plateau minimal_improvement high_quality_reached
       stability_achieved improvement_saturation Nat.b2n].
  destruct (Qleb excellent_quality (overall_quality c)).
  { cbn. repeat split; [now left | one_of_the_strings]. }
  destruct (Qleb high_quality (overall_quality c)),
           (_detect_improvement_saturation improvement_history),
           (Qltb 0.6 (overall_quality c));
    cbn; (repeat split; [now right | one_of_the_strings]).
Qed.

Lemma plateau_implies_convergence_witness :
  _detect_stability Examples.steady_history = true
  /\ converged (detect_convergence Examples.steady_history []) = true
  /\ (reason (detect_convergence Examples.steady_history [])
      = "Excellent quality achieved"%string
      \/ reason (detect_convergence Examples.steady_history [])
         = "Multiple convergence indicators detected"%string)
  /\ In (recommendation (detect_convergence Examples.steady_history []))
       [ "stop_excellent"; "stop_good"; "manual_review";
         "stop_convergence" ]%string.
Proof.
  apply (plateau_implies_convergence Examples.steady_history []).
  vm_compute. reflexivity.
Defined.

(** X17: the recommendation agrees with the decision: it is
    [stop_excellent] exactly when the reason is the excellent quality;
    [stop_excellent] and [stop_good] are only given with a converged
    decision, [continue] only with a decision that is not converged;
    and the recommendation is one of six words. *)
Theorem recommendation_agrees_with_decision
    (quality_history : list QualityMetrics)
    (improvement_history : list ImprovementEntry) :
  let decision := detect_convergence quality_history improvement_history in
  (recommendation decision = "stop_excellent"%string
   <-> reason decision = "Excellent quality achieved"%string)
  /\ (recommendation decision = "stop_excellent"%string
      \/ recommendation decision = "stop_good"%string ->
      converged decision = true)
  /\ (recommendation decision = "continue"%string ->
      converged decision = false)
  /\ In (recommendation decision)
       [ "continue"; "stop_excellent"; "stop_good"; "continue_cautiously";
         "manual_review"; "stop_convergence" ]%string.
Proof.
  intros decision. unfold decision, detect_convergence.
  destruct (rev quality_history) as [|c [|p older]] eqn:Erev.
  1, 2: cbn; split; [split; discriminate|]; split; [intros [E|E]; discriminate E|];
        split; [reflexivity | one_of_the_strings].
  pose proof (ConvergenceFacts.stability_gives_minimal_improvement
                quality_history c p older Erev) as Hsm.
  change minimal_improvement_threshold with 0.02.
  unfold _determine_convergence_status, _generate_convergence_recommendation,
    indicator_count.
  cbn [quality_plateau minimal_improvement high_quality_reached
       stability_achieved improvement_saturation].
  destruct (_detect_stability quality_history);
    [rewrite (Hsm eq_refl)
    |destruct (Qltb (overall_quality c - overall_quality p) 0.02)];
    clear Hsm;
    destruct (_detect_quality_plateau quality_history),
             (Qleb excellent_quality (overall_quality c)),
             (Qleb high_quality (overall_quality c)),
             (_detect_improvement_saturation improvement_history),
             (Qltb 0.6 (overall_quality c));
    cbn;
    (split; [split; first [reflexivity | discriminate]|]);
    (split; [first [reflexivity | intros [E|E]; discriminate E]|]);
    (split; [first [reflexivity | discriminate] | one_of_the_strings]).
Qed.

Section WithPyLib.
Context `{PyLib}.

(** X18: with at least two assessments in the history, the trend is
    tracked: the current quality is that of the latest assessment, the
    number of data points is the length of the history, the direction
    is [improving], [declining] or [stable] as the latest overall
    quality is above, below or equal to the one before, both lie in the
    reported range, and the improvement rate of the convergence check
    is their difference. *)
Theorem trend_follows_the_last_two_entries
    (self : t) (older : list QualityMetrics)
    (previous current : QualityMetrics) :
  quality_history self = older ++ [previous; current] ->
  let tr := get_quality_trend self in
  let p := overall_quality previous in
  let c := overall_quality current in
  trend tr = "tracked"%string
  /\ trend_current_quality tr = Some c
  /\ data_points tr = Some (length older + 2)%nat
  /\ (direction tr = "improving"%string <-> p < c)
  /\ (direction tr = "declining"%string <-> c < p)
  /\ (direction tr = "stable"%string <-> c == p)
  /\ (exists lo hi,
        quality_range tr = Some (lo, hi)
        /\ lo <= p /\ p <= hi /\ lo <= c /\ c <= hi)
  /\ improvement_rate (check_convergence self) = Some (c - p).
Proof.
  intros Eh tr p c.
  assert (Erev : rev (quality_history self) = current :: previous :: rev older).
  { rewrite Eh, rev_app_distr. reflexivity. }
  assert (Hlen : length (quality_history self) = (length older + 2)%nat).
  { rewrite Eh, length_app. reflexivity. }
  assert (Hrate : improvement_rate (check_convergence self) = Some (c - p)).
  { unfold check_convergence, detect_convergence. rewrite Erev.
    cbv zeta. destruct (_determine_convergence_status _ current) as [[? ?] ?].
    reflexivity. }
  unfold tr, get_quality_trend.
  replace (length (quality_history self) <? 2)%nat with false
    by (symmetry; apply Nat.ltb_ge; lia).
  cbn [trend trend_current_quality data_points direction quality_range].
  rewrite Hlen.
  assert (Hrecent :
    exists recent,
      List.map overall_quality (last_n 3 (quality_history self)) = recent
      /\ (recent = [p; c] \/ exists o, recent = [o; p; c])).
  { eexists. split; [reflexivity|].
    destruct (rev older) as [|before oldest] eqn:Eo.
    - left. apply (f_equal (@rev QualityMetrics)) in Eo.
      rewrite rev_involutive in Eo. cbn in Eo. rewrite Eh, Eo. reflexivity.
    - right. exists (overall_quality before).
      rewrite (last_three_of_rev _ _ _ _ _ Erev). reflexivity. }
  destruct Hrecent as (recent & -> & Hrecent).
  assert (Hdir :
    (if Qltb p c then "improving"%string
     else if Qltb c p then "declining"%string else "stable"%string)
    = match rev recent with
      | q1 :: q2 :: _ =>
          if Qltb q2 q1 then "improving"%string
          else if Qltb q1 q2 then "declining"%string
          else "stable"%string
      | _ => "unknown"%string
      end).
  { destruct Hrecent as [->|(o & ->)]; reflexivity. }
  rewrite <- Hdir.
  split; [reflexivity|].
  split; [destruct Hrecent as [->|(o & ->)]; reflexivity|].
  split; [reflexivity|].
  split; [|split; [|split; [|split; [|exact Hrate]]]].
  - destruct (Qltb p c) eqn:E1.
    + apply Qltb_true in E1. tauto.
    + apply Qltb_false in E1. split; [|intros Hlt; lra].
      destruct (Qltb c p); discriminate.
  - destruct (Qltb p c) eqn:E1.
    + apply Qltb_true in E1. split; [discriminate | intros Hlt; lra].
    + destruct (Qltb c p) eqn:E2.
      * apply Qltb_true in E2. tauto.
      * apply Qltb_false in E2. split; [discriminate | intros Hlt; lra].
  - destruct (Qltb p c) eqn:E1.
    + apply Qltb_true in E1. split; [discriminate | intros Heq; lra].
    + destruct (Qltb c p) eqn:E2.
      * apply Qltb_true in E2. split; [discriminate | intros Heq; lra].
      * apply Qltb_false in E1. apply Qltb_false in E2.
        split; [intros _; lra | reflexivity].
  - destruct Hrecent as [->|(o & ->)]; cbn [fold_left];
      eexists _, _; (split; [reflexivity|]).
    + pose proof (Q.le_min_l p c). pose proof (Q.le_min_r p c).
      pose proof (Q.le_max_l p c). pose proof (Q.le_max_r p c). tauto.
    + pose proof (Q.le_max_r o p). pose proof (Q.le_max_l (Qmax o p) c).
      pose proof (Q.le_max_r (Qmax o p) c).
      pose proof (Q.le_min_r o p). pose proof (Q.le_min_l (Qmin o p) c).
      pose proof (Q.le_min_r (Qmin o p) c).
      repeat split; lra.
Qed.

(** The assessment of any text leaves a potential of at most one minus
    its overall quality. *)
Lemma assessment_potential (text : str) (context : option Results) :
  exists m,
    analyze_comprehensive_quality text context = Ok m
    /\ improvement_potential m <= 1 - overall_quality m.
Proof.
  destruct (_extract_sentences text) as [|s0 sentences] eqn:Es.
  { exists zero_metrics.
    split; [apply QualityFacts.guard_degenerate; now left | discriminate]. }
  destruct (split text) as [|w0 words] eqn:Ew.
  { exists zero_metrics.
    split; [apply QualityFacts.guard_degenerate; now right | discriminate]. }
  destruct (ScoreRanges.assessment_ranges text context) as (m & E & Hm).
  { rewrite Es. discriminate. }
  { rewrite Ew. discriminate. }
  exists m. split; [exact E|].
  destruct Hm as (_ & _ & _ & _ & _ & _ & _ & _ & _ & _ & _ & _ & _ & Hip).
  exact Hip.
Qed.

Lemma reachable_potential (self : t) :
  reachable self ->
  Forall (fun m => improvement_potential m <= 1 - overall_quality m)
    (quality_history self).
Proof.
  induction 1 as [|self text results self' Hreach IH Hadd|self _ _].
  - constructor.
  - destruct (DetectorFacts.reachable_bounded self Hreach) as [Hq Hi].
    destruct (DetectorFacts.add_processing_result_ok self text results Hq Hi)
      as (m & self'' & Em & Hadd' & Eq & _).
    rewrite Hadd in Hadd'. injection Hadd' as <-.
    rewrite Eq. unfold last_n. apply Forall_drop.
    apply Forall_app. split; [exact IH|].
    constructor; [|constructor].
    destruct (assessment_potential text (Some results)) as (m' & Em' & Hm').
    rewrite Em in Em'. injection Em' as <-. exact Hm'.
  - constructor.
Qed.

Lemma recommendations_shape
    (current : QualityMetrics) (convergence : ConvergenceDecision) :
  improvement_potential current <= 1 - overall_quality current ->
  let recs := _get_quality_recommendations current convergence in
  (converged convergence = true
   <-> head recs
       = Some (String.append "Processing converged: " (reason convergence)))
  /\ (In "High improvement potential - continue processing"%string recs ->
      In "Quality below 60% - consider manual review"%string recs)
  /\ (length recs <= 5)%nat.
Proof.
  intros Hip recs. unfold recs, _get_quality_recommendations.
  destruct (Qltb 0.5 (improvement_potential current)) eqn:Ep.
  - apply Qltb_true in Ep.
    assert (Eq : Qltb (overall_quality current) 0.6 = true)
      by (apply Qltb_true; lra).
    rewrite Eq.
    destruct (converged convergence),
             (Qltb (readability_score current) 0.6),
             (Qltb (grammar_accuracy current) 0.7);
      cbn [app head length In];
      (split; [split; first [reflexivity | discriminate]|]);
      (split; [intros _; tauto | lia]).
  - destruct (converged convergence),
             (Qltb (overall_quality current) 0.6),
             (Qltb (readability_score current) 0.6),
             (Qltb (grammar_accuracy current) 0.7);
      cbn [app head length In];
      (split; [split; first [reflexivity | discriminate]|]);
      (split; [|lia]);
      intros Hin; exfalso;
      repeat match goal with
             | Hor : _ \/ _ |- _ => destruct Hor as [Hor|Hor]
             end;
      first [discriminate Hin | contradiction].
Qed.

(** X19: for a detector fed by [add_processing_result], the detailed
    analysis answers [no_data] exactly when the history is empty;
    otherwise its current metrics are those of the latest assessment,
    its first recommendation is the convergence line exactly when the
    convergence check says converged, the advice to continue because
    of a high improvement potential is only given together with the
    advice that the quality is below 60%, there are at most five
    recommendations, and with a single assessment the check is not
    converged and the trend has insufficient data. *)
Theorem detailed_analysis_of_a_fed_detector (self : t) :
  reachable self ->
  (get_detailed_analysis self = NoData <-> quality_history self = [])
  /\ (forall cm conv tr recs,
        get_detailed_analysis self = Analyzed cm conv tr recs ->
        (exists current,
           last (quality_history self) = Some current
           /\ cm_overall_quality cm = overall_quality current
           /\ cm_confidence cm = confidence_level current)
        /\ conv = check_convergence self
        /\ tr = get_quality_trend self
        /\ (converged conv = true
            <-> head recs
                = Some (String.append "Processing converged: " (reason conv)))
        /\ (In "High improvement potential - continue processing"%string recs ->
            In "Quality below 60% - consider manual review"%string recs)
        /\ (length recs <= 5)%nat
        /\ (length (quality_history self) = 1%nat ->
            converged conv = false
            /\ trend tr = "insufficient_data"%string)).
Proof.
  intros Hreach. pose proof (reachable_potential self Hreach) as Hpot.
  unfold get_detailed_analysis. split.
  - destruct (quality_history self) as [|m history] eqn:Eh; [tauto|].
    destruct (last (m :: history)) eqn:El.
    + split; discriminate.
    + apply last_None in El. discriminate.
  - intros cm conv tr recs.
    destruct (last (quality_history self)) as [current|] eqn:El; [|discriminate].
    intros E. injection E as <- <- <- <-.
    assert (Hcur : improvement_potential current <= 1 - overall_quality current).
    { rewrite Forall_forall in Hpot. apply Hpot.
      apply last_Some in El as (before & ->). apply elem_of_app. right. left. }
    destruct (recommendations_shape current (check_convergence self) Hcur)
      as (Hhead & Hhigh & Hlen).
    split; [exists current; repeat split|].
    split; [reflexivity|]. split; [reflexivity|].
    split; [exact Hhead|]. split; [exact Hhigh|]. split; [exact Hlen|].
    intros Hone. unfold check_convergence, detect_convergence, get_quality_trend.
    rewrite Hone.
    destruct (quality_history self) as [|m [|m' history]]; try discriminate.
    split; reflexivity.
Qed.

End WithPyLib.

Lemma trend_follows_the_last_two_entries_witness :
  let self :=
    {| quality_history := Examples.steady_history; improvement_history := [] |} in
  trend (get_quality_trend self) = "tracked"%string
  /\ trend_current_quality (get_quality_trend self) = Some 0.8
  /\ data_points (get_quality_trend self) = Some 3%nat
  /\ direction (get_quality_trend self) = "stable"%string
  /\ improvement_rate (check_convergence self) = Some (0.8 - 0.8).
Proof.
  intros self.
  destruct (trend_follows_the_last_two_entries self
              [Examples.steady_quality] Examples.steady_quality
              Examples.steady_quality eq_refl)
    as (Ht & Hc & Hd & _ & _ & Hs & _ & Hr).
  split; [exact Ht|]. split; [exact Hc|]. split; [exact Hd|].
  split; [apply Hs; reflexivity | exact Hr].
Defined.

Lemma detailed_analysis_of_a_fed_detector_witness :
  exists self,
    add_processing_result __init__ Examples.greeting Examples.no_results = Ok self
    /\ (get_detailed_analysis self = NoData <-> quality_history self = [])
    /\ exists cm conv tr recs,
         get_detailed_analysis self = Analyzed cm conv tr recs
         /\ converged conv = false
         /\ trend tr = "insufficient_data"%string
         /\ (length recs <= 5)%nat.
Proof.
  destruct (add_processing_result __init__ Examples.greeting Examples.no_results)
    as [self|e] eqn:Hrun; [|vm_compute in Hrun; discriminate Hrun].
  exists self. split; [reflexivity|].
  destruct (detailed_analysis_of_a_fed_detector self
              (reach_add _ _ _ _ reach_init Hrun)) as [Hno Hall].
  split; [exact Hno|].
  assert (Hone : length (quality_history self) = 1%nat)
    by (vm_compute in Hrun; injection Hrun as <-; reflexivity).
  destruct (get_detailed_analysis self) as [|cm conv tr recs] eqn:Hget.
  - rewrite (proj1 Hno eq_refl) in Hone. discriminate Hone.
  - exists cm, conv, tr, recs. split; [reflexivity|].
    destruct (Hall _ _ _ _ eq_refl) as (_ & _ & _ & _ & _ & Hlen & Hshort).
    destruct (Hshort Hone) as [Hc Ht].
    split; [exact Hc|]. split; [exact Ht | exact Hlen].
Defined.

End ConvergenceExtras.

(** ** The weighted combination on any dictionary of metrics *)

Module WeightedQuality.
Import QualityAnalyzer.





End WeightedQuality.
